(** * AskMyDocs retrieval engine: chunker, hybrid index, agentic control loop

    A shallow embedding of [backend/utils/smart_chunker.py],
    [backend/utils/qdrant_client.py] and [backend/utils/agentic_rag.py],
    with the properties of the retrieval engine stated over it.

    Conventions of the embedding.
    - A Python [str] is a [string]; a character is a code point below 256.
    - A Python [int] is a [Z]; [len] is [String.length] read in [Z].
    - A Python [float] is carried as the rational number it denotes, in
      [Q]. The quality score of a text piece, the one float the code
      builds by adding and subtracting floats, is computed in binary64 as
      Python computes it; the floats the code only stores, compares or
      divides integers into are read as exact rationals.
    - A [dict] with string keys is a [gmap string pyval].
    - A call that may raise returns a [result]; the exception is a value.
    - External services (text splitter, vector storage backend, language
      model, identifier generator) are parameters of the definitions that
      call them, with concrete instances given where a run is evaluated. *)

From Stdlib Require Import String Ascii List ZArith QArith Qminmax Lia Bool Sorted.
From Stdlib Require Import Qabs PrimFloat SpecFloat FloatOps.
From stdpp Require Import base option gmap strings list pretty sorting.
Import ListNotations.

Open Scope string_scope.
Open Scope list_scope.
Open Scope Z_scope.

(** A decimal constant of float type stands for the float nearest to it. *)
Set Warnings "-inexact-float".

(** ** Python values, exceptions and results *)

Inductive pyval : Type :=
| VNone
| VBool (b : bool)
| VInt (z : Z)
| VFloat (q : Q)
| VStr (s : string).

(** [None] for an absent optional string, the string otherwise. *)
Definition opt_str (o : option string) : pyval :=
  match o with
  | Some s => VStr s
  | None => VNone
  end.

(** An exception: its class and [str(e)]. *)
Record pyexn : Type := Exn { exn_class : string; exn_message : string }.

Inductive result (A : Type) : Type :=
| Ok (a : A)
| Raise (e : pyexn).
Arguments Ok {A} a.
Arguments Raise {A} e.

#[export] Instance result_ret : MRet result := fun _ a => Ok a.
#[export] Instance result_bind : MBind result := fun _ _ k r =>
  match r with
  | Ok a => k a
  | Raise e => Raise e
  end.

(** [try: body except Exception as e: handler(e)] *)
Definition try_except {A} (body : result A) (handler : pyexn → result A) : result A :=
  match body with
  | Ok a => Ok a
  | Raise e => handler e
  end.

(** ** Python string operations *)

Module PyStr.

Definition len (s : string) : Z := Z.of_nat (String.length s).

(** [str.isspace] on one code point below 256. *)
Definition isspace (c : ascii) : bool :=
  let n := nat_of_ascii c in
  ((9 <=? n) && (n <=? 13) || (28 <=? n) && (n <=? 32)
   || (n =? 133) || (n =? 160))%nat.

Fixpoint lstrip (s : string) : string :=
  match s with
  | EmptyString => EmptyString
  | String c s' => if isspace c then lstrip s' else s
  end.

Definition rstrip (s : string) : string :=
  String.rev (lstrip (String.rev s)).

(** [s.strip()] *)
Definition strip (s : string) : string := rstrip (lstrip s).

(** [s.lstrip(ch)] for a one-character set. *)
Fixpoint lstrip_char (ch : ascii) (s : string) : string :=
  match s with
  | EmptyString => EmptyString
  | String c s' => if Ascii.eqb c ch then lstrip_char ch s' else s
  end.

(** [s.startswith(p)] *)
Definition startswith (s p : string) : bool := String.prefix p s.

(** [s.endswith(p)] *)
Definition endswith (s p : string) : bool :=
  String.prefix (String.rev p) (String.rev s).

(** [s.endswith((p1, ..., pn))] *)
Definition endswith_any (s : string) (ps : list string) : bool :=
  existsb (endswith s) ps.

(** Non-overlapping occurrences of a non-empty [sub], left to right;
    [skip] characters of a match just counted are passed over. *)
Fixpoint count_from (sub s : string) (skip : nat) : nat :=
  match s with
  | EmptyString => 0%nat
  | String _ s' =>
      match skip with
      | S k => count_from sub s' k
      | O =>
          if String.prefix sub s
          then S (count_from sub s' (String.length sub - 1))
          else count_from sub s' 0
      end
  end.

(** [s.count(sub)], for [sub] not empty. *)
Definition count (s sub : string) : Z := Z.of_nat (count_from sub s 0).

(** [sub in s] *)
Fixpoint contains (sub s : string) : bool :=
  String.prefix sub s ||
  match s with
  | EmptyString => false
  | String _ s' => contains sub s'
  end.

(** Pieces of [s] between the non-overlapping occurrences of a non-empty
    [sep]; [cur] is the piece under construction, reversed. *)
Fixpoint split_from (sep s : string) (skip : nat) (cur : string) : list string :=
  match s with
  | EmptyString => [String.rev cur]
  | String c s' =>
      match skip with
      | S k => split_from sep s' k cur
      | O =>
          if String.prefix sep s
          then String.rev cur :: split_from sep s' (String.length sep - 1) EmptyString
          else split_from sep s' 0 (String c cur)
      end
  end.

(** [s.split(sep)], for [sep] not empty. *)
Definition split (s sep : string) : list string := split_from sep s 0 EmptyString.

(** [sep.join(parts)] *)
Fixpoint join (sep : string) (parts : list string) : string :=
  match parts with
  | [] => EmptyString
  | [p] => p
  | p :: ps => p +:+ sep +:+ join sep ps
  end.

(** [str.lower] on one code point below 256: A-Z and the upper-case
    Latin-1 letters move up by 32. *)
Definition lower_char (c : ascii) : ascii :=
  let n := nat_of_ascii c in
  if ((65 <=? n) && (n <=? 90)
      || (192 <=? n) && (n <=? 222) && negb (n =? 215))%nat
  then ascii_of_nat (n + 32) else c.

Fixpoint lower (s : string) : string :=
  match s with
  | EmptyString => EmptyString
  | String c s' => String (lower_char c) (lower s')
  end.

(** [list(s)] *)
Fixpoint chars (s : string) : list string :=
  match s with
  | EmptyString => []
  | String c s' => String c EmptyString :: chars s'
  end.

(** [s * n] *)
Fixpoint repeat (s : string) (n : nat) : string :=
  match n with
  | O => EmptyString
  | S k => s +:+ repeat s k
  end.

(** [str(n)] for an integer. *)
Definition of_int (z : Z) : string := pretty z.

(** Truth value of a string: empty is false. *)
Definition truthy (s : string) : bool := negb (String.eqb s EmptyString).

Definition nl : string := String (ascii_of_nat 10) EmptyString.

End PyStr.

(** ** Python floats

    A Python [float] is an IEEE 754 binary64 number; the operations are
    those of the processor, rounding to nearest. *)

Module PyFloat.

(** The rational number a finite float denotes. *)
Definition value (f : float) : Q :=
  match Prim2SF f with
  | S754_finite negative mantissa exponent =>
      let magnitude := (inject_Z (Z.pos mantissa) * 2 ^ exponent)%Q in
      if negative then (- magnitude)%Q else magnitude
  | _ => 0%Q
  end.

(** [min(a, b)]: the first argument unless the second is smaller. *)
Definition min (a b : float) : float := if (b <? a)%float then b else a.

(** [max(a, b)]: the first argument unless the second is greater. *)
Definition max (a b : float) : float := if (a <? b)%float then b else a.

End PyFloat.

(** ** The recursive character text splitter

    The algorithm of langchain's [RecursiveCharacterTextSplitter] as the
    chunker constructs it: literal separators, the separator kept at the
    start of the piece that follows it, pieces trimmed when merged, [len]
    as the length function. The chunker takes its splitter as a parameter,
    and its properties hold for every splitter; this one serves where a
    run is evaluated. *)

Module TextSplitter.

Record t : Type := Build {
  chunk_size : Z;
  chunk_overlap : Z;
  separators : list string
}.

(** [re.split("(sep)", text)] for a literal [sep]: the pieces with the
    separator between each two. *)
Fixpoint interleave (sep : string) (pieces : list string) : list string :=
  match pieces with
  | [] => []
  | [p] => [p]
  | p :: ps => p :: sep :: interleave sep ps
  end.

Definition re_split_capture (sep text : string) : list string :=
  interleave sep (PyStr.split text sep).

(** [[_splits[i] + _splits[i + 1] for i in range(1, len(_splits), 2)]],
    given [_splits[1:]]. *)
Fixpoint pair_up (l : list string) : list string :=
  match l with
  | a :: b :: rest => (a +:+ b) :: pair_up rest
  | _ => []
  end.

Definition nonempty (s : string) : bool := PyStr.truthy s.

Definition _split_text_with_regex (text separator : string) : list string :=
  let splits :=
    if PyStr.truthy separator then
      let _splits := re_split_capture separator text in
      let splits := pair_up (tail _splits) in
      let splits :=
        if Nat.even (length _splits)
        then splits ++ option_list (last _splits)
        else splits in
      take 1 _splits ++ splits
    else PyStr.chars text in
  List.filter nonempty splits.

Section WithConfig.
Variable cfg : t.

(** [None] when the joined and trimmed text is empty. *)
Definition _join_docs (docs : list string) (separator : string) : option string :=
  let text := PyStr.strip (PyStr.join separator docs) in
  if PyStr.truthy text then Some text else None.

Definition sep_if (b : bool) (separator_len : Z) : Z :=
  if b then separator_len else 0.

(** The [while] loop of [_merge_splits]: drop pieces from the front of
    [current_doc] until what is left fits the overlap and leaves room
    for the next piece of length [_len]. [total] is the length of
    [current_doc] joined, so the loop ends before the list is empty when
    the overlap is not negative. *)
Fixpoint pop_front (separator_len _len : Z) (current_doc : list string)
    (total : Z) {struct current_doc} : list string * Z :=
  if (total >? chunk_overlap cfg)
     || ((total + _len + sep_if (0 <? Z.of_nat (length current_doc)) separator_len
            >? chunk_size cfg)
         && (total >? 0))
  then
    match current_doc with
    | [] => ([], total)
    | d0 :: rest =>
        pop_front separator_len _len rest
          (total - (PyStr.len d0
                    + sep_if (1 <? Z.of_nat (length current_doc)) separator_len))
    end
  else (current_doc, total).

Record merge_state : Type := MergeState {
  docs : list string;
  current_doc : list string;
  total : Z
}.

Definition merge_step (separator : string) (st : merge_state) (d : string)
    : merge_state :=
  let separator_len := PyStr.len separator in
  let _len := PyStr.len d in
  let st :=
    if total st + _len
       + sep_if (0 <? Z.of_nat (length (current_doc st))) separator_len
       >? chunk_size cfg
    then
      if 0 <? Z.of_nat (length (current_doc st)) then
        let docs' := docs st ++ option_list (_join_docs (current_doc st) separator) in
        let '(cur, tot) := pop_front separator_len _len (current_doc st) (total st) in
        MergeState docs' cur tot
      else st
    else st in
  let cur := current_doc st ++ [d] in
  MergeState (docs st) cur
    (total st + (_len + sep_if (1 <? Z.of_nat (length cur)) separator_len)).

Definition _merge_splits (splits : list string) (separator : string) : list string :=
  let st := fold_left (merge_step separator) splits (MergeState [] [] 0) in
  docs st ++ option_list (_join_docs (current_doc st) separator).

(** The loop of [_split_text] over the pieces of one separator.
    [recur] is the splitter on the remaining separators, [None] when
    there are none left. The separator is kept in the pieces, so they
    are merged with the empty string between them. *)
Definition split_step (recur : option (string → list string))
    (acc : list string * list string) (s : string) : list string * list string :=
  let '(final_chunks, _good_splits) := acc in
  if PyStr.len s <? chunk_size cfg then (final_chunks, _good_splits ++ [s])
  else
    let final_chunks :=
      match _good_splits with
      | [] => final_chunks
      | _ => final_chunks ++ _merge_splits _good_splits EmptyString
      end in
    match recur with
    | None => (final_chunks ++ [s], [])
    | Some f => (final_chunks ++ f s, [])
    end.

Definition split_with (recur : option (string → list string))
    (separator text : string) : list string :=
  let splits := _split_text_with_regex text separator in
  let '(final_chunks, _good_splits) := fold_left (split_step recur) splits ([], []) in
  match _good_splits with
  | [] => final_chunks
  | _ => final_chunks ++ _merge_splits _good_splits EmptyString
  end.

(** The separator used is the first of the list that is empty or occurs
    in the text, the last one when none does; the separators after it
    serve for the pieces that are still too long. *)
Fixpoint _split_text (seps : list string) (text : string) {struct seps}
    : list string :=
  match seps with
  | [] => []
  | s :: rest =>
      if negb (PyStr.truthy s) then split_with None s text
      else if PyStr.contains s text then
        split_with (match rest with
                    | [] => None
                    | _ => Some (_split_text rest)
                    end) s text
      else
        match rest with
        | [] => split_with None s text
        | _ => _split_text rest text
        end
  end.

Definition split_text (text : string) : list string :=
  _split_text (separators cfg) text.

End WithConfig.

End TextSplitter.

(** ** The identifier generator

    [uuid.uuid4()] draws from the operating system's entropy. A run of the
    chunker is given the sequence of identifiers it will draw, and threads
    the number already drawn. *)

Definition Gen (A : Type) : Type := nat → A * nat.

#[export] Instance gen_ret : MRet Gen := fun _ a n => (a, n).
#[export] Instance gen_bind : MBind Gen := fun _ _ k m n =>
  let '(a, n') := m n in k a n'.

(** [for i, x in enumerate(l, start): out.extend(body(i, x))] *)
Fixpoint for_extend {A B} (body : Z → A → Gen (list B)) (start : Z) (l : list A)
    : Gen (list B) :=
  match l with
  | [] => mret []
  | x :: xs =>
      ys ← body start x;
      zs ← for_extend body (start + 1) xs;
      mret (ys ++ zs)
  end.

(** ** The chunker *)

Module Chunker.

(** *** Input: [MarkdownDocument.dict()]

    The dictionaries the chunker reads are those of the pydantic models
    of [dto/openai_models.py]: every key is present, an [Optional] field
    holds [None] or a value. *)

Record TableMetadata : Type := {
  title : option string;
  caption : option string
}.

Record MarkdownTable : Type := {
  table_metadata : TableMetadata;
  table_content : string
}.

Record MarkdownFigure : Type := {
  figure_title : option string;
  figure_caption : option string;
  figure_content : option string
}.

Record MarkdownPage : Type := {
  language : option string;
  content : string;
  markdown_content : option string;
  tables : option (list (option MarkdownTable));
  figures : option (list (option MarkdownFigure))
}.

Record MarkdownDocument : Type := { pages : list MarkdownPage }.

(** [x or ""] for an optional string. *)
Definition or_empty (o : option string) : string := default EmptyString o.

(** [x or []] for an optional list. *)
Definition or_nil {A} (o : option (list A)) : list A := default [] o.

(** Truth value of an optional string. *)
Definition truthy_opt (o : option string) : bool := PyStr.truthy (or_empty o).

(** *** Output: [langchain_core.documents.Document] *)

Record Document : Type := {
  page_content : string;
  metadata : gmap string pyval
}.

Record Config : Type := {
  base_chunk_size : Z;
  chunk_overlap : Z;
  min_chunk_size : Z;
  max_chunk_size : Z;
  table_max_size : Z
}.

(** The configuration [QdrantOfficialHybridStore] builds its chunker
    with; also the defaults of the constructor. *)
Definition default_config : Config :=
  {| base_chunk_size := 1200; chunk_overlap := 150; min_chunk_size := 100;
     max_chunk_size := 2000; table_max_size := 3000 |}.

Record DocAnalysis : Type := {
  avg_words_per_page : Q;
  table_count : Z;
  figure_count : Z;
  heading_count : Z;
  structured_content_ratio : Q;
  total_pages : Z;
  is_structured_document : bool
}.

Record Heading : Type := {
  level : Z;
  text : string;
  line_index : Z
}.

Definition Qgtb (a b : Q) : bool := negb (Qle_bool a b).
Definition Qltb (a b : Q) : bool := negb (Qle_bool b a).

Definition nl : string := PyStr.nl.

(** *** Functions that read no configuration *)

Definition page_text (page : MarkdownPage) : string :=
  if truthy_opt (markdown_content page)
  then or_empty (markdown_content page)
  else content page.

Definition sumZ (l : list Z) : Z := fold_right Z.add 0 l.

Definition _analyze_document_complexity (doc : MarkdownDocument) : DocAnalysis :=
  let ps := pages doc in
  let total_length := sumZ (map (fun p => PyStr.len (page_text p)) ps) in
  let table_count := sumZ (map (fun p => Z.of_nat (length (or_nil (tables p)))) ps) in
  let figure_count := sumZ (map (fun p => Z.of_nat (length (or_nil (figures p)))) ps) in
  let heading_count := sumZ (map (fun p => PyStr.count (page_text p) "#") ps) in
  let n := Z.max (Z.of_nat (length ps)) 1 in
  let avg_words_per_page := (inject_Z total_length / inject_Z n / 5)%Q in
  let structured_content_ratio :=
    (inject_Z (table_count + figure_count) / inject_Z n)%Q in
  {| avg_words_per_page := avg_words_per_page;
     table_count := table_count;
     figure_count := figure_count;
     heading_count := heading_count;
     structured_content_ratio := structured_content_ratio;
     total_pages := Z.of_nat (length ps);
     is_structured_document :=
       Qgtb structured_content_ratio 0.5 || (heading_count >? 20) |}.

Definition heading_of_line (line_idx : Z) (line : string) : option Heading :=
  let line := PyStr.strip line in
  if PyStr.startswith line "#" then
    let level := PyStr.len line - PyStr.len (PyStr.lstrip_char "#" line) in
    let heading_text := PyStr.strip (PyStr.lstrip_char "#" line) in
    if PyStr.truthy heading_text
    then Some {| level := level; text := heading_text; line_index := line_idx |}
    else None
  else None.

Fixpoint headings_from (line_idx : Z) (lines : list string) : list Heading :=
  match lines with
  | [] => []
  | line :: rest =>
      option_list (heading_of_line line_idx line) ++ headings_from (line_idx + 1) rest
  end.

Definition _extract_headings (content : string) : list Heading :=
  headings_from 0 (PyStr.split content nl).

Definition _find_relevant_heading (chunk_text : string) (headings : list Heading)
    : option string :=
  match headings with
  | [] => None
  | first :: _ =>
      match List.find (fun h => PyStr.contains (PyStr.lower (text h))
                                               (PyStr.lower chunk_text))
                      (rev headings) with
      | Some h => Some (text h)
      | None => Some (text first)
      end
  end.

(** The score is built by [+=] and [-=] on a float, each step rounding
    to binary64; the result is carried as the rational it denotes. The
    decimal constants stand for the floats nearest to them, as in
    Python. *)
Definition _calculate_content_quality (content : string) : Q :=
  let score := 0.5%float in
  let score :=
    if PyStr.endswith_any (PyStr.strip content) ["."; "!"; "?"; ":"]
    then (score + 0.2)%float else score in
  let score :=
    if existsb (PyStr.startswith (PyStr.strip content))
               ["#"; "-"; "*"; "1."; "2."; "3."]
    then (score + 0.1)%float else score in
  let score :=
    if PyStr.len (PyStr.strip content) >? 800
    then (score + 0.1)%float else score in
  let score :=
    if (PyStr.count content "..." >? 2) || (PyStr.count content "[truncated]" >? 0)
    then (score - 0.3)%float else score in
  PyFloat.value (PyFloat.min 1.0 (PyFloat.max 0.1 score)).

Definition _is_complete_section (content : string) : bool :=
  let content := PyStr.strip content in
  let starts_with_header := existsb (PyStr.startswith content) ["#"; "##"; "###"] in
  let ends_properly := PyStr.endswith_any content ["."; "!"; "?"; ":"] in
  let has_good_length := PyStr.len content >? 500 in
  starts_with_header && ends_properly && has_good_length.

Definition _get_complexity_level (doc_analysis : DocAnalysis) : string :=
  let structured_ratio := structured_content_ratio doc_analysis in
  let avg_words := avg_words_per_page doc_analysis in
  if Qgtb structured_ratio 0.5 || Qgtb avg_words 1000 then "high"
  else if Qgtb structured_ratio 0.2 || Qgtb avg_words 500 then "medium"
  else "low".

(** A dictionary literal. *)
Definition dict (items : list (string * pyval)) : gmap string pyval :=
  list_to_map items.

(** The text a table is indexed under: title line, caption line, an empty
    line, the trimmed body. *)
Definition full_table_content (table_idx : Z) (table : MarkdownTable) : string :=
  let table_title := title (table_metadata table) in
  let table_caption := caption (table_metadata table) in
  (if truthy_opt table_title
   then "Table " +:+ PyStr.of_int (table_idx + 1) +:+ ": " +:+ or_empty table_title +:+ nl
   else "")
  +:+ (if truthy_opt table_caption
       then "Caption: " +:+ or_empty table_caption +:+ nl
       else "")
  +:+ nl +:+ PyStr.strip (table_content table).

Definition full_figure_content (figure : MarkdownFigure) : string :=
  (if truthy_opt (figure_title figure)
   then "Figure: " +:+ or_empty (figure_title figure) +:+ nl else "")
  +:+ (if truthy_opt (figure_caption figure)
       then "Caption: " +:+ or_empty (figure_caption figure) +:+ nl else "")
  +:+ (if truthy_opt (figure_content figure)
       then "Description: " +:+ or_empty (figure_content figure) else "").

(** *** The chunker proper

    [recursive_splitter cfg] is [RecursiveCharacterTextSplitter(cfg).split_text],
    [uuid4 n] the identifier of the [n]-th draw of the run. *)

Section WithServices.
Variable recursive_splitter : TextSplitter.t → string → list string.
Variable uuid4 : nat → string.
Variable cfg : Config.

Definition fresh_uuid : Gen string := fun n => (uuid4 n, S n).

Definition text_splitter : string → list string :=
  recursive_splitter
    (TextSplitter.Build (base_chunk_size cfg) (chunk_overlap cfg)
       [nl +:+ nl +:+ nl; nl +:+ nl; nl +:+ "# "; nl +:+ "## "; nl +:+ "### ";
        ". "; ";" +:+ nl; ", "; nl; " "; ""]).

Definition technical_splitter : string → list string :=
  recursive_splitter
    (TextSplitter.Build 1500 200 [nl +:+ nl +:+ nl; nl +:+ nl; ". "; nl; " "; ""]).

Definition narrative_splitter : string → list string :=
  recursive_splitter
    (TextSplitter.Build 1000 150 [nl +:+ nl; ". "; nl; " "; ""]).

Definition choose_splitter (doc_analysis : DocAnalysis) : string → list string :=
  if is_structured_document doc_analysis
     || Qgtb (avg_words_per_page doc_analysis) 800
  then technical_splitter
  else if Qltb (avg_words_per_page doc_analysis) 400
  then narrative_splitter
  else text_splitter.

Definition text_chunk (chunk_text document_id filename : string) (page_idx : Z)
    (language : option string) (content_type : string)
    (doc_analysis : DocAnalysis) (headings : list Heading) (chunk_idx : Z)
    (chunk_id : string) : Document :=
  let chunk_heading := _find_relevant_heading chunk_text headings in
  let quality_score := _calculate_content_quality chunk_text in
  {| page_content := chunk_text;
     metadata := dict [
       ("document_id", VStr document_id);
       ("filename", VStr filename);
       ("page_number", VInt page_idx);
       ("chunk_index", VInt chunk_idx);
       ("content_type", VStr content_type);
       ("language", opt_str language);
       ("heading_context", opt_str chunk_heading);
       ("chunk_size", VInt (PyStr.len chunk_text));
       ("chunk_id", VStr chunk_id);
       ("original_chunk_ref",
        VStr (document_id +:+ "_p" +:+ PyStr.of_int page_idx
              +:+ "_c" +:+ PyStr.of_int chunk_idx));
       ("quality_score", VFloat quality_score);
       ("is_complete_section", VBool (_is_complete_section chunk_text));
       ("is_structured_document", VBool (is_structured_document doc_analysis));
       ("document_complexity", VStr (_get_complexity_level doc_analysis))
     ] |}.

Definition _chunk_text_content_adaptive (content document_id filename : string)
    (page_idx : Z) (language : option string) (content_type : string)
    (doc_analysis : DocAnalysis) : Gen (list Document) :=
  let headings := _extract_headings content in
  let splitter := choose_splitter doc_analysis in
  let text_chunks := splitter content in
  for_extend (fun chunk_idx chunk_text =>
    if negb (PyStr.truthy chunk_text)
       || (PyStr.len (PyStr.strip chunk_text) <? min_chunk_size cfg)
    then mret []
    else
      chunk_id ← fresh_uuid;
      mret [text_chunk chunk_text document_id filename page_idx language
              content_type doc_analysis headings chunk_idx chunk_id])
    0 text_chunks.

Definition whole_table_chunk (table : MarkdownTable) (table_idx : Z)
    (document_id filename : string) (page_idx : Z) (language : option string)
    (chunk_id : string) : Document :=
  let full_table_content := full_table_content table_idx table in
  {| page_content := full_table_content;
     metadata := dict [
       ("document_id", VStr document_id);
       ("filename", VStr filename);
       ("page_number", VInt page_idx);
       ("chunk_index", VInt 0);
       ("content_type", VStr "table");
       ("table_index", VInt table_idx);
       ("table_title", opt_str (title (table_metadata table)));
       ("table_caption", opt_str (caption (table_metadata table)));
       ("language", opt_str language);
       ("chunk_size", VInt (PyStr.len full_table_content));
       ("chunk_id", VStr chunk_id);
       ("original_chunk_ref",
        VStr (document_id +:+ "_p" +:+ PyStr.of_int page_idx
              +:+ "_t" +:+ PyStr.of_int table_idx));
       ("is_complete_table", VBool true);
       ("quality_score", VFloat 0.9)
     ] |}.

Definition table_part_chunk (table : MarkdownTable) (table_idx : Z)
    (document_id filename : string) (page_idx : Z) (language : option string)
    (parts : Z) (chunk_idx : Z) (chunk_text : string) (chunk_id : string)
    : Document :=
  {| page_content := chunk_text;
     metadata := dict [
       ("document_id", VStr document_id);
       ("filename", VStr filename);
       ("page_number", VInt page_idx);
       ("chunk_index", VInt chunk_idx);
       ("content_type", VStr "table");
       ("table_index", VInt table_idx);
       ("table_title", opt_str (title (table_metadata table)));
       ("table_caption", opt_str (caption (table_metadata table)));
       ("language", opt_str language);
       ("chunk_size", VInt (PyStr.len chunk_text));
       ("chunk_id", VStr chunk_id);
       ("original_chunk_ref",
        VStr (document_id +:+ "_p" +:+ PyStr.of_int page_idx
              +:+ "_t" +:+ PyStr.of_int table_idx
              +:+ "_c" +:+ PyStr.of_int chunk_idx));
       ("is_complete_table", VBool false);
       ("table_part",
        VStr ("Part " +:+ PyStr.of_int (chunk_idx + 1)
              +:+ " of " +:+ PyStr.of_int parts));
       ("quality_score", VFloat 0.6)
     ] |}.

Definition _chunk_table_preserving (table : MarkdownTable) (table_idx : Z)
    (document_id filename : string) (page_idx : Z) (language : option string)
    : Gen (list Document) :=
  let table_content := PyStr.strip (table_content table) in
  if negb (PyStr.truthy table_content) then mret []
  else
    let full_table_content := full_table_content table_idx table in
    if PyStr.len full_table_content <=? table_max_size cfg then
      chunk_id ← fresh_uuid;
      mret [whole_table_chunk table table_idx document_id filename page_idx
              language chunk_id]
    else
      let table_chunks := text_splitter full_table_content in
      for_extend (fun chunk_idx chunk_text =>
        chunk_id ← fresh_uuid;
        mret [table_part_chunk table table_idx document_id filename page_idx
                language (Z.of_nat (length table_chunks)) chunk_idx chunk_text
                chunk_id])
        0 table_chunks.

Definition figure_chunk (figure : MarkdownFigure) (figure_idx : Z)
    (document_id filename : string) (page_idx : Z) (language : option string)
    (chunk_id : string) : Document :=
  let full_figure_content := full_figure_content figure in
  {| page_content := full_figure_content;
     metadata := dict [
       ("document_id", VStr document_id);
       ("filename", VStr filename);
       ("page_number", VInt page_idx);
       ("chunk_index", VInt 0);
       ("content_type", VStr "figure");
       ("figure_index", VInt figure_idx);
       ("figure_title", opt_str (figure_title figure));
       ("figure_caption", opt_str (figure_caption figure));
       ("language", opt_str language);
       ("chunk_size", VInt (PyStr.len full_figure_content));
       ("chunk_id", VStr chunk_id);
       ("original_chunk_ref",
        VStr (document_id +:+ "_p" +:+ PyStr.of_int page_idx
              +:+ "_f" +:+ PyStr.of_int figure_idx))
     ] |}.

Definition _chunk_figure (figure : MarkdownFigure) (figure_idx : Z)
    (document_id filename : string) (page_idx : Z) (language : option string)
    : Gen (option Document) :=
  let full_figure_content := full_figure_content figure in
  if negb (PyStr.truthy full_figure_content)
     || negb (PyStr.truthy (PyStr.strip full_figure_content))
  then mret None
  else
    chunk_id ← fresh_uuid;
    mret (Some (figure_chunk figure figure_idx document_id filename page_idx
                  language chunk_id)).

Definition _chunk_page (page : MarkdownPage) (page_idx : Z)
    (document_id filename : string) (doc_analysis : DocAnalysis)
    : Gen (list Document) :=
  let language := language page in
  let page_content := PyStr.strip (or_empty (markdown_content page)) in
  let page_content :=
    if negb (PyStr.truthy page_content)
    then PyStr.strip (content page)
    else page_content in
  text_chunks ←
    (if PyStr.truthy page_content
     then _chunk_text_content_adaptive page_content document_id filename
            page_idx language "text" doc_analysis
     else mret []);
  table_chunks ←
    for_extend (fun table_idx table =>
      match table with
      | None => mret []
      | Some table =>
          _chunk_table_preserving table table_idx document_id filename
            page_idx language
      end) 0 (or_nil (tables page));
  figure_chunks ←
    for_extend (fun figure_idx figure =>
      match figure with
      | None => mret []
      | Some figure =>
          figure_chunk ← _chunk_figure figure figure_idx document_id filename
                           page_idx language;
          mret (option_list figure_chunk)
      end) 0 (or_nil (figures page));
  mret (text_chunks ++ table_chunks ++ figure_chunks).

Definition chunk_markdown_document (document_id filename : string)
    (markdown_doc_data : MarkdownDocument) : Gen (list Document) :=
  let doc_analysis := _analyze_document_complexity markdown_doc_data in
  for_extend (fun page_idx page =>
    _chunk_page page page_idx document_id filename doc_analysis)
    0 (pages markdown_doc_data).

End WithServices.

(** A chunk without its identifier. *)
Definition erase_chunk_id (d : Document) : Document :=
  {| page_content := page_content d; metadata := delete "chunk_id" (metadata d) |}.

(** Two generators that produce the same chunks once the identifiers are
    erased, whatever number of identifiers each run has drawn before. *)
Definition same_up_to_ids (a b : Gen (list Document)) : Prop :=
  ∀ na nb, map erase_chunk_id (a na).1 = map erase_chunk_id (b nb).1.

End Chunker.

(** ** The quality score as the specification words it

    Start at 0.5; add 0.2 for sentence-final punctuation at the end of the
    trimmed piece, 0.1 for a list or heading marker at its start, 0.1 for a
    trimmed length above the threshold; take 0.3 off when truncation
    markers are present; clamp to [0.1, 1.0]. The punctuation is one of
    [. ! ? :], the markers at the start are [# - * 1. 2. 3.], the threshold
    is 800 characters, and truncation shows as more than two ellipses or
    one [[truncated]] tag. *)

Module QualitySpec.

Definition clamp (lo hi x : Q) : Q := Qmin hi (Qmax lo x).

Definition ends_on_sentence_punctuation (piece : string) : bool :=
  PyStr.endswith_any (PyStr.strip piece) ["."; "!"; "?"; ":"].

Definition starts_with_marker (piece : string) : bool :=
  existsb (PyStr.startswith (PyStr.strip piece)) ["#"; "-"; "*"; "1."; "2."; "3."].

Definition substantial_threshold : Z := 800.

Definition is_substantial (piece : string) : bool :=
  PyStr.len (PyStr.strip piece) >? substantial_threshold.

Definition has_truncation_markers (piece : string) : bool :=
  (PyStr.count piece "..." >? 2) || (PyStr.count piece "[truncated]" >? 0).

Definition when (b : bool) (q : Q) : Q := if b then q else 0%Q.

Definition quality_score (piece : string) : Q :=
  clamp 0.1 1.0
    (0.5 + when (ends_on_sentence_punctuation piece) 0.2
         + when (starts_with_marker piece) 0.1
         + when (is_substantial piece) 0.1
         - when (has_truncation_markers piece) 0.3)%Q.

End QualitySpec.

(** ** The hybrid index *)

Module HybridStore.

Definition DENSE_MODEL : string := "sentence-transformers/all-MiniLM-L6-v2".
Definition SPARSE_MODEL : string := "prithivida/Splade_PP_en_v1".

(** *** The storage client, as the index uses it *)

(** [models.Document(text, model)]: a text the client embeds itself. *)
Record EmbedDocument : Type := { embed_text : string; embed_model : string }.

(** One entry of [vectors]: the dense and the sparse text. *)
Record VectorPair : Type := { dense : EmbedDocument; sparse : EmbedDocument }.

Record Prefetch : Type := {
  prefetch_query : EmbedDocument;
  prefetch_using : string;
  prefetch_limit : Z
}.

Inductive Query : Type :=
| FusionRRF (prefetch : list Prefetch)
| Nearest (query : EmbedDocument) (vector_name : string).

(** The arguments of [client.query_points]. [query_filter] is the
    [document_id] a point must match; [score_threshold] is [None] when
    the argument is not passed. *)
Record QueryRequest : Type := {
  request_query : Query;
  query_filter : option string;
  request_limit : Z;
  request_score_threshold : option Q
}.

Record ScoredPoint : Type := {
  point_id : string;
  point_score : Q;
  point_payload : gmap string pyval
}.

(** The client over a store of type [S]. A call may raise; an upload
    leaves a new store. *)
Class Client (S : Type) : Type := {
  upload_collection : S → list VectorPair → list (gmap string pyval) → result S;
  query_points : S → QueryRequest → result (list ScoredPoint)
}.

(** *** Search results *)

Record SearchResult : Type := {
  chunk_id : string;
  score : Q;
  search_type : string;
  content : pyval;
  document_id : pyval;
  content_type : pyval;
  page_number : pyval;
  chunk_index : pyval;
  result_metadata : gmap string pyval
}.

(** [d[key]]: [KeyError] when the key is absent. *)
Definition getitem (d : gmap string pyval) (key : string) : result pyval :=
  match d !! key with
  | Some v => Ok v
  | None => Raise (Exn "KeyError" ("'" +:+ key +:+ "'"))
  end.

(** [{k: v for k, v in d.items() if k not in keys}] *)
Definition without_keys (keys : list string) (d : gmap string pyval)
    : gmap string pyval :=
  filter (fun kv => kv.1 ∉ keys) d.

Definition point_to_result (search_type : string) (point : ScoredPoint)
    : result SearchResult :=
  content ← getitem (point_payload point) "content";
  document_id ← getitem (point_payload point) "document_id";
  page_number ← getitem (point_payload point) "page_number";
  chunk_index ← getitem (point_payload point) "chunk_index";
  mret {|
    chunk_id := point_id point;
    score := point_score point;
    search_type := search_type;
    content := content;
    document_id := document_id;
    content_type := default (VStr "text") (point_payload point !! "content_type");
    page_number := page_number;
    chunk_index := chunk_index;
    result_metadata :=
      without_keys ["content"; "document_id"; "content_type"; "page_number";
                    "chunk_index"] (point_payload point)
  |}.

(** [for point in points: results.append(...)], stopping at the first
    point that raises. *)
Fixpoint points_to_results (search_type : string) (points : list ScoredPoint)
    : result (list SearchResult) :=
  match points with
  | [] => mret []
  | point :: rest =>
      r ← point_to_result search_type point;
      rs ← points_to_results search_type rest;
      mret (r :: rs)
  end.

(** [if document_id:] builds the filter. *)
Definition filter_of (document_id : option string) : option string :=
  match document_id with
  | Some d => if PyStr.truthy d then Some d else None
  | None => None
  end.

Section WithClient.
Context {S : Type} `{Client S}.

Definition hybrid_search (store : S) (query : string)
    (document_id : option string) (chunk_types : option (list string))
    (limit : Z) (score_threshold : Q) : result (list SearchResult) :=
  try_except
    (let query_filter := filter_of document_id in
     search_result ←
       query_points store {|
         request_query := FusionRRF [
           {| prefetch_query := {| embed_text := query; embed_model := DENSE_MODEL |};
              prefetch_using := "dense";
              prefetch_limit := limit * 2 |};
           {| prefetch_query := {| embed_text := query; embed_model := SPARSE_MODEL |};
              prefetch_using := "sparse";
              prefetch_limit := limit * 2 |} ];
         query_filter := query_filter;
         request_limit := limit;
         request_score_threshold := None |};
     points_to_results "official_hybrid_rrf" search_result)
    (fun e => Raise (Exn "Exception"
                       ("Failed to perform hybrid search: " +:+ exn_message e))).

Definition search_documents (store : S) (query : string)
    (document_id : option string) (chunk_types : option (list string))
    (limit : Z) (score_threshold : Q) : result (list SearchResult) :=
  try_except
    (let query_filter := filter_of document_id in
     search_results ←
       query_points store {|
         request_query :=
           Nearest {| embed_text := query; embed_model := DENSE_MODEL |} "dense";
         query_filter := query_filter;
         request_limit := limit;
         request_score_threshold := Some score_threshold |};
     points_to_results "dense_only_official" search_results)
    (fun e => Raise (Exn "Exception"
                       ("Failed to search documents: " +:+ exn_message e))).

(** *** Indexing *)

Variable recursive_splitter : TextSplitter.t → string → list string.
Variable uuid4 : nat → string.
Variable now : Z → string.

(** [fallback_id] is the identifier drawn for the default of
    [chunk_metadata.get("chunk_id", str(uuid.uuid4()))]. *)
Definition payload_of_chunk (document_id filename : string) (indexed_at : string)
    (content : string) (fallback_id : string) (chunk : Chunker.Document)
    : gmap string pyval :=
  let chunk_metadata := Chunker.metadata chunk in
  without_keys ["chunk_id"; "document_id"; "filename"; "content_type";
                "page_number"; "chunk_index"; "language"; "heading_context"]
    chunk_metadata
  ∪ Chunker.dict [
      ("chunk_id", default (VStr fallback_id) (chunk_metadata !! "chunk_id"));
      ("document_id", default (VStr document_id) (chunk_metadata !! "document_id"));
      ("filename", default (VStr filename) (chunk_metadata !! "filename"));
      ("content", VStr content);
      ("content_type", default (VStr "text") (chunk_metadata !! "content_type"));
      ("page_number", default (VInt 0) (chunk_metadata !! "page_number"));
      ("chunk_index", default (VInt 0) (chunk_metadata !! "chunk_index"));
      ("chunk_size", VInt (PyStr.len content));
      ("language", default (VStr "en") (chunk_metadata !! "language"));
      ("heading_context", default VNone (chunk_metadata !! "heading_context"));
      ("indexed_at", VStr indexed_at) ].

(** The loop over the chunks: a chunk whose trimmed content is empty is
    skipped; [now i] is the clock reading taken for chunk [i]. *)
Fixpoint prepare (document_id filename : string) (chunk_idx : Z)
    (chunks : list Chunker.Document)
    : Gen (list VectorPair * list (gmap string pyval)) :=
  match chunks with
  | [] => mret ([], [])
  | chunk :: rest =>
      let content := PyStr.strip (Chunker.page_content chunk) in
      if negb (PyStr.truthy content)
      then prepare document_id filename (chunk_idx + 1) rest
      else
        fallback_id ← Chunker.fresh_uuid uuid4;
        '(documents, payloads) ← prepare document_id filename (chunk_idx + 1) rest;
        mret
          ({| dense := {| embed_text := content; embed_model := DENSE_MODEL |};
              sparse := {| embed_text := content; embed_model := SPARSE_MODEL |} |}
             :: documents,
           payload_of_chunk document_id filename (now chunk_idx) content
             fallback_id chunk
             :: payloads)
  end.

(** The chunker of the store is built with [Chunker.default_config].
    The result is the number of chunks indexed and the store after the
    upload. *)
Definition index_document (store : S) (document_id filename : string)
    (markdown_doc_data : Chunker.MarkdownDocument) : result (Z * S) :=
  try_except
    (match Chunker.pages markdown_doc_data with
     | [] => Ok (0, store)
     | _ =>
         let '(chunks, drawn) :=
           Chunker.chunk_markdown_document recursive_splitter uuid4
             Chunker.default_config document_id filename markdown_doc_data
             0%nat in
         match chunks with
         | [] => Ok (0, store)
         | _ =>
             let '(documents, payloads) :=
               (prepare document_id filename 0 chunks drawn).1 in
             match documents with
             | [] => Ok (0, store)
             | _ =>
                 store' ← upload_collection store documents payloads;
                 Ok (Z.of_nat (length documents), store')
             end
         end
     end)
    (fun e => Raise (Exn "Exception"
                       ("Failed to index document: " +:+ exn_message e))).

End WithClient.

(** Descending order of a list of scores. *)
Definition descending (scores : list Q) : Prop :=
  StronglySorted (fun a b => (b <= a)%Q) scores.

(** The failure is of a class of its own, not the base [Exception]. *)
Definition typed_failure (e : pyexn) : Prop := exn_class e ≠ "Exception".

(** The failure's text names the document. *)
Definition carries_document_id (e : pyexn) (document_id : string) : Prop :=
  PyStr.contains document_id (exn_message e) = true.

End HybridStore.

(** ** A storage backend with reciprocal rank fusion *)

Module RRFStore.
Import HybridStore.

Record StoredPoint : Type := {
  stored_id : string;
  stored_payload : gmap string pyval
}.

(** Modelled from the spec: the vector storage backend of section 6, which
    is not part of the repository. A store holds its points in insertion
    order, the constant [k] of the fusion, and [similarity name query p],
    the score of point [p] for a query text under the vector called
    [name] (what the two embedding services and the distance metric
    compute). [upload_fails], when set, is the failure every upload
    raises. *)
Record t : Type := {
  points : list StoredPoint;
  rrf_k : Z;
  similarity : string → string → StoredPoint → Q;
  upload_fails : option pyexn;
  query_fails : option pyexn
}.

Definition empty (k : Z) (sim : string → string → StoredPoint → Q) : t :=
  {| points := []; rrf_k := k; similarity := sim;
     upload_fails := None; query_fails := None |}.

Section Sorting.
Context {A : Type} (key : A → Q).

(** Insertion before the first element whose key is not larger: the
    order is by descending key, and of insertion among equal keys. *)
Fixpoint insert_desc (x : A) (l : list A) : list A :=
  match l with
  | [] => [x]
  | y :: rest =>
      if Qle_bool (key y) (key x) then x :: y :: rest
      else y :: insert_desc x rest
  end.

Definition sort_desc (l : list A) : list A := fold_right insert_desc [] l.
End Sorting.

Definition matches (flt : option string) (p : StoredPoint) : bool :=
  match flt with
  | None => true
  | Some d =>
      match stored_payload p !! "document_id" with
      | Some (VStr s) => String.eqb s d
      | _ => false
      end
  end.

(** The top [limit] points for one query text under one named vector. *)
Definition top_k (store : t) (flt : option string) (name : string)
    (q : EmbedDocument) (limit : Z) : list StoredPoint :=
  take (Z.to_nat limit)
    (sort_desc (similarity store name (embed_text q))
       (List.filter (matches flt) (points store))).

(** 1-based position of the point in a ranking, if it is there. *)
Fixpoint rank_in (id : string) (ranking : list StoredPoint) (pos : Z) : option Z :=
  match ranking with
  | [] => None
  | p :: rest =>
      if String.eqb (stored_id p) id then Some pos else rank_in id rest (pos + 1)
  end.

(** Modelled from the spec: the fused score of section 4.2, the sum over
    the rankings of [1 / (k + rank)] with the rank counted from 1; a
    ranking the point is absent from contributes 0. *)
Definition rrf_score (k : Z) (rankings : list (list StoredPoint)) (id : string) : Q :=
  fold_right Qplus 0%Q
    (map (fun ranking =>
            match rank_in id ranking 1 with
            | Some r => (1 / inject_Z (k + r))%Q
            | None => 0%Q
            end) rankings).

(** The candidates of all rankings, each once, in order of first
    appearance. *)
Fixpoint candidates (seen : list string) (ps : list StoredPoint) : list StoredPoint :=
  match ps with
  | [] => []
  | p :: rest =>
      if bool_decide (stored_id p ∈ seen) then candidates seen rest
      else p :: candidates (stored_id p :: seen) rest
  end.

Definition above (threshold : option Q) (sp : ScoredPoint) : bool :=
  match threshold with
  | None => true
  | Some t => Qle_bool t (point_score sp)
  end.

Definition scored (score : StoredPoint → Q) (p : StoredPoint) : ScoredPoint :=
  {| point_id := stored_id p; point_score := score p;
     point_payload := stored_payload p |}.

(** Modelled from the spec: the two queries of section 6. The fused query
    ranks the candidates of its prefetches by fused score, ties in order
    of appearance; the single-source query ranks the points by similarity.
    The document filter applies to the candidates, the threshold, when the
    request has one, and then the limit to the ranked points. *)
Definition run_query (store : t) (req : QueryRequest) : list ScoredPoint :=
  let ranked :=
    match request_query req with
    | FusionRRF prefetch =>
        let rankings :=
          map (fun pf => top_k store (query_filter req) (prefetch_using pf)
                           (prefetch_query pf) (prefetch_limit pf)) prefetch in
        let fused := rrf_score (rrf_k store) rankings in
        map (scored (fun p => fused (stored_id p)))
          (sort_desc (fun p => fused (stored_id p))
             (candidates [] (concat rankings)))
    | Nearest q name =>
        let sim := similarity store name (embed_text q) in
        map (scored sim)
          (sort_desc sim (List.filter (matches (query_filter req)) (points store)))
    end in
  take (Z.to_nat (request_limit req))
    (List.filter (above (request_score_threshold req)) ranked).

(** Points are stored under identifiers of the backend's own. *)
Fixpoint store_points (next : nat) (payloads : list (gmap string pyval))
    : list StoredPoint :=
  match payloads with
  | [] => []
  | payload :: rest =>
      {| stored_id := "point-" +:+ pretty next; stored_payload := payload |}
        :: store_points (S next) rest
  end.

#[global] Instance client : Client t := {
  upload_collection store vectors payloads :=
    match upload_fails store with
    | Some e => Raise e
    | None =>
        Ok {| points := points store ++ store_points (length (points store)) payloads;
              rrf_k := rrf_k store;
              similarity := similarity store;
              upload_fails := upload_fails store;
              query_fails := query_fails store |}
    end;
  query_points store req :=
    match query_fails store with
    | Some e => Raise e
    | None => Ok (run_query store req)
    end
}.

End RRFStore.

(** ** The retrieval tool and the agent controller *)

Module Agent.

(** *** Messages *)

Record ToolCall : Type := {
  tool_name : string;
  tool_query : string;
  tool_call_id : string
}.

(** A message: [type] is ["human"], ["ai"] or ["tool"]; only an ["ai"]
    message carries tool calls; a ["tool"] message names the call it
    answers. *)
Record Message : Type := {
  type : string;
  content : string;
  tool_calls : list ToolCall;
  answers_call : string
}.

Definition human (text : string) : Message :=
  {| type := "human"; content := text; tool_calls := []; answers_call := "" |}.

Definition tool_message (text call_id : string) : Message :=
  {| type := "tool"; content := text; tool_calls := []; answers_call := call_id |}.

(** *** What a call returns *)

Record Source : Type := {
  content_preview : string;
  source_document : pyval;
  source_content_type : pyval;
  source_page_number : pyval;
  source_chunk_index : pyval;
  relevance_score : Q;
  source_document_id : pyval;
  source_chunk_id : pyval;
  source_search_type : pyval
}.

Record Response : Type := {
  answer : string;
  sources : list Source;
  conversation : list Message;
  session_id : string
}.

Definition fallback_answer : string :=
  "I apologize, but I encountered an error while processing your question. Please try again.".

Definition fallback (question session_id : string) : Response :=
  {| answer := fallback_answer;
     sources := [];
     conversation := [human question];
     session_id := session_id |}.

Inductive Route : Type := generate_answer | rewrite_question.

Inductive Node : Type :=
| node_generate_query_or_respond
| node_retrieve
| node_rewrite_question
| node_generate_answer.

(** The calls made to the outside during a run, in order, with whether
    each returned. *)
Inductive Event : Type :=
| LanguageModelCall (returned : bool)
| SearchCall (returned : bool).

Definition is_ok {A} (r : result A) : bool :=
  match r with
  | Ok _ => true
  | Raise _ => false
  end.

(** *** Prompts *)

Definition nl : string := PyStr.nl.

Definition GRADE_PROMPT (question context : string) : string :=
  "You are a grader assessing relevance of a retrieved document to a user question. "
  +:+ nl +:+ " Here is the retrieved document: " +:+ nl +:+ nl +:+ " " +:+ context
  +:+ " " +:+ nl +:+ nl +:+ "Here is the user question: " +:+ question +:+ " " +:+ nl
  +:+ "If the document contains keyword(s) or semantic meaning related to the user question, grade it as relevant. "
  +:+ nl
  +:+ "Give a binary score 'yes' or 'no' score to indicate whether the document is relevant to the question.".

Definition REWRITE_PROMPT (question : string) : string :=
  "Look at the input and try to reason about the underlying semantic intent / meaning. "
  +:+ nl +:+ " Here is the initial question:" +:+ nl +:+ "------- " +:+ nl
  +:+ question +:+ " " +:+ nl +:+ "------- " +:+ nl
  +:+ "Formulate an improved question:".

Definition GENERATE_PROMPT (question context : string) : string :=
  "You are an assistant for question-answering tasks. "
  +:+ "Use the following pieces of retrieved context to answer the question. "
  +:+ "If you don't know the answer, just say that you don't know. "
  +:+ "Use three sentences maximum and keep the answer concise." +:+ nl
  +:+ "Question: " +:+ question +:+ " " +:+ nl
  +:+ "Context: " +:+ context.

(** The content of the last tool message, empty when there is none. *)
Definition last_tool_content (messages : list Message) : string :=
  match List.find (fun msg => String.eqb (type msg) "tool") (rev messages) with
  | Some msg => content msg
  | None => ""
  end.

(** [messages[0].content] *)
Definition first_content (messages : list Message) : result string :=
  match messages with
  | msg :: _ => Ok (content msg)
  | [] => Raise (Exn "IndexError" "list index out of range")
  end.

(** [tools_condition]: to the tools when the last message asks for one. *)
Definition tools_condition (messages : list Message) : bool :=
  match last messages with
  | Some msg => match tool_calls msg with [] => false | _ => true end
  | None => false
  end.

(** [s[:300] + "..." if len(s) > 300 else s] *)
Definition preview (s : string) : string :=
  if PyStr.len s >? 300 then String.substring 0 300 s +:+ "..." else s.

(** [str(v)] inside an f-string; [float_repr] prints a float. *)
Definition py_str (float_repr : Q → string) (v : pyval) : string :=
  match v with
  | VNone => "None"
  | VBool true => "True"
  | VBool false => "False"
  | VInt z => PyStr.of_int z
  | VFloat q => float_repr q
  | VStr s => s
  end.

(** [v + 1] *)
Definition plus_one (v : pyval) : result pyval :=
  match v with
  | VInt z => Ok (VInt (z + 1))
  | VBool b => Ok (VInt (Z.b2z b + 1))
  | VFloat q => Ok (VFloat (q + 1))
  | VNone => Raise (Exn "TypeError" "unsupported operand type(s) for +: 'NoneType' and 'int'")
  | VStr _ =>
      let quote := String (ascii_of_nat 34) EmptyString in
      Raise (Exn "TypeError"
               ("can only concatenate str (not " +:+ quote +:+ "int" +:+ quote
                +:+ ") to str"))
  end.

(** [float(v)]; [parse_float] reads a numeral. *)
Definition to_float (parse_float : string → option Q) (v : pyval) : result Q :=
  match v with
  | VFloat q => Ok q
  | VInt z => Ok (inject_Z z)
  | VBool b => Ok (inject_Z (Z.b2z b))
  | VNone =>
      Raise (Exn "TypeError"
               "float() argument must be a string or a real number, not 'NoneType'")
  | VStr s =>
      match parse_float s with
      | Some q => Ok q
      | None => Raise (Exn "ValueError" ("could not convert string to float: '" +:+ s +:+ "'"))
      end
  end.

(** *** The controller over its services

    [response_model n tools messages] is the reply of the response model to
    the [n]-th language-model call of the run, [tools] telling whether the
    retrieval tool was offered; [grader_model n prompt] is the
    [binary_score] of the grader. [recursion_limit] is the number of node
    executions the graph engine allows one invocation before it raises. *)

Section WithServices.
Context {S : Type} `{HybridStore.Client S}.
Variable float_repr : Q → string.
Variable parse_float : string → option Q.
Variable response_model : nat → bool → list Message → result Message.
Variable grader_model : nat → string → result string.
Variable recursion_limit : nat.

(** The state the controller and its retriever keep between calls:
    [graph] and [has_documents] as [setup_for_all_documents] left them,
    the retriever's slot, the checkpointer's saved history per thread. The
    number of language-model calls made and the events so far are kept for
    the statements about a run. *)
Record World : Type := {
  store : S;
  last_retrieved_docs : list Chunker.Document;
  checkpointer : gmap string (list Message);
  graph : bool;
  has_documents : bool;
  calls : nat;
  trace : list Event
}.

Definition set_last_retrieved_docs (docs : list Chunker.Document) (w : World) : World :=
  {| store := store w; last_retrieved_docs := docs; checkpointer := checkpointer w;
     graph := graph w; has_documents := has_documents w; calls := calls w;
     trace := trace w |}.

Definition set_checkpoint (thread_id : string) (messages : list Message) (w : World)
    : World :=
  {| store := store w; last_retrieved_docs := last_retrieved_docs w;
     checkpointer := <[thread_id := messages]> (checkpointer w);
     graph := graph w; has_documents := has_documents w; calls := calls w;
     trace := trace w |}.

Definition record_event (ev : Event) (w : World) : World :=
  {| store := store w; last_retrieved_docs := last_retrieved_docs w;
     checkpointer := checkpointer w; graph := graph w;
     has_documents := has_documents w; calls := calls w;
     trace := trace w ++ [ev] |}.

Definition count_call (w : World) : World :=
  {| store := store w; last_retrieved_docs := last_retrieved_docs w;
     checkpointer := checkpointer w; graph := graph w;
     has_documents := has_documents w; calls := Datatypes.S (calls w);
     trace := trace w |}.

(** A computation of the controller: it may raise, and what it did to the
    state stays done when it does. *)
Definition M (A : Type) : Type := World → result A * World.

#[global] Instance m_ret : MRet M := fun _ a w => (Ok a, w).
#[global] Instance m_bind : MBind M := fun _ _ k m w =>
  match m w with
  | (Ok a, w') => k a w'
  | (Raise e, w') => (Raise e, w')
  end.

Definition lift {A} (r : result A) : M A := fun w => (r, w).
Definition gets {A} (f : World → A) : M A := fun w => (Ok (f w), w).
Definition modify (f : World → World) : M unit := fun w => (Ok tt, f w).

(** [try: body except Exception as e: handler(e)] *)
Definition try_catch {A} (body : M A) (handler : pyexn → M A) : M A := fun w =>
  match body w with
  | (Ok a, w') => (Ok a, w')
  | (Raise e, w') => handler e w'
  end.

(** *** [HybridSearchRetriever] *)

Definition search (query : string) : M (list HybridStore.SearchResult) := fun w =>
  let r := HybridStore.hybrid_search (store w) query None None 8 0.2 in
  (r, record_event (SearchCall (is_ok r)) w).

Definition to_document (r : HybridStore.SearchResult) : result Chunker.Document :=
  page ← plus_one (HybridStore.page_number r);
  let metadata :=
    HybridStore.result_metadata r
    ∪ Chunker.dict [
        ("chunk_id", VStr (HybridStore.chunk_id r));
        ("document_id", HybridStore.document_id r);
        ("content_type", HybridStore.content_type r);
        ("page_number", HybridStore.page_number r);
        ("chunk_index", HybridStore.chunk_index r);
        ("relevance_score", VFloat (HybridStore.score r));
        ("search_type", VStr (HybridStore.search_type r));
        ("source",
         VStr ("Document: "
               +:+ py_str float_repr
                     (default (VStr "Unknown") (HybridStore.result_metadata r !! "filename"))
               +:+ " (Page " +:+ py_str float_repr page +:+ ")")) ] in
  match HybridStore.content r with
  | VStr text => Ok {| Chunker.page_content := text; Chunker.metadata := metadata |}
  | _ => Raise (Exn "ValidationError" "page_content: Input should be a valid string")
  end.

Fixpoint to_documents (rs : list HybridStore.SearchResult)
    : result (list Chunker.Document) :=
  match rs with
  | [] => mret []
  | r :: rest =>
      doc ← to_document r;
      docs ← to_documents rest;
      mret (doc :: docs)
  end.

Definition get_relevant_documents (query : string) : M (list Chunker.Document) :=
  try_catch
    (search_results ← search query;
     documents ← lift (to_documents search_results);
     _ ← modify (set_last_retrieved_docs documents);
     mret documents)
    (fun e =>
       _ ← modify (set_last_retrieved_docs []);
       mret []).

(** [create_retriever_tool]: the contents of the documents, an empty line
    between each two. *)
Definition retriever_tool (query : string) : M string :=
  docs ← get_relevant_documents query;
  mret (PyStr.join (nl +:+ nl) (map Chunker.page_content docs)).

(** [ToolNode([retriever_tool])]: one tool message per tool call of the
    last message. *)
Definition run_tool (call : ToolCall) : M Message :=
  if String.eqb (tool_name call) "retrieve_documents" then
    text ← retriever_tool (tool_query call);
    mret (tool_message text (tool_call_id call))
  else
    mret (tool_message
            ("Error: " +:+ tool_name call
             +:+ " is not a valid tool, try one of [retrieve_documents].")
            (tool_call_id call)).

Fixpoint run_tools (tcs : list ToolCall) : M (list Message) :=
  match tcs with
  | [] => mret []
  | call :: rest =>
      msg ← run_tool call;
      msgs ← run_tools rest;
      mret (msg :: msgs)
  end.

Definition tool_node (messages : list Message) : M (list Message) :=
  match last messages with
  | Some msg => run_tools (tool_calls msg)
  | None => mret []
  end.

(** *** The language-model service *)

Definition invoke_response_model (with_tools : bool) (messages : list Message)
    : M Message := fun w =>
  let r := response_model (calls w) with_tools messages in
  (r, record_event (LanguageModelCall (is_ok r)) (count_call w)).

Definition invoke_grader_model (prompt : string) : M string := fun w =>
  let r := grader_model (calls w) prompt in
  (r, record_event (LanguageModelCall (is_ok r)) (count_call w)).

(** *** The nodes of the graph; each returns the messages to append *)

Definition _generate_query_or_respond (messages : list Message) : M (list Message) :=
  has_documents ← gets has_documents;
  response ← invoke_response_model has_documents messages;
  mret [response].

Definition _grade_documents (messages : list Message) : M Route :=
  question ← lift (first_content messages);
  let context := last_tool_content messages in
  if negb (PyStr.truthy context) then mret rewrite_question
  else
    binary_score ← invoke_grader_model (GRADE_PROMPT question context);
    if String.eqb binary_score "yes" then mret generate_answer
    else mret rewrite_question.

Definition _rewrite_question (messages : list Message) : M (list Message) :=
  question ← lift (first_content messages);
  response ← invoke_response_model false [human (REWRITE_PROMPT question)];
  mret [human (content response)].

Definition _generate_answer (messages : list Message) : M (list Message) :=
  question ← lift (first_content messages);
  let context := last_tool_content messages in
  response ← invoke_response_model false [human (GENERATE_PROMPT question context)];
  mret [response].

(** *** The compiled graph

    The edges of [_build_graph]; the checkpointer saves the thread after
    every node. *)

Definition recursion_error : pyexn :=
  Exn "GraphRecursionError" "Recursion limit reached without hitting a stop condition".

Fixpoint run (fuel : nat) (thread_id : string) (node : Node)
    (messages : list Message) : M (list Message) :=
  match fuel with
  | O => lift (Raise recursion_error)
  | Datatypes.S fuel =>
      match node with
      | node_generate_query_or_respond =>
          new ← _generate_query_or_respond messages;
          let messages := messages ++ new in
          _ ← modify (set_checkpoint thread_id messages);
          if tools_condition messages
          then run fuel thread_id node_retrieve messages
          else mret messages
      | node_retrieve =>
          new ← tool_node messages;
          let messages := messages ++ new in
          _ ← modify (set_checkpoint thread_id messages);
          route ← _grade_documents messages;
          match route with
          | generate_answer => run fuel thread_id node_generate_answer messages
          | rewrite_question => run fuel thread_id node_rewrite_question messages
          end
      | node_rewrite_question =>
          new ← _rewrite_question messages;
          let messages := messages ++ new in
          _ ← modify (set_checkpoint thread_id messages);
          run fuel thread_id node_generate_query_or_respond messages
      | node_generate_answer =>
          new ← _generate_answer messages;
          let messages := messages ++ new in
          _ ← modify (set_checkpoint thread_id messages);
          mret messages
      end
  end.

(** [graph.invoke({"messages": [question]}, config)] *)
Definition graph_invoke (question thread_id : string) : M (list Message) :=
  saved ← gets (fun w => default [] (checkpointer w !! thread_id));
  let messages := saved ++ [human question] in
  _ ← modify (set_checkpoint thread_id messages);
  run recursion_limit thread_id node_generate_query_or_respond messages.

(** *** Sources *)

Definition source_of_document (doc : Chunker.Document) : result Source :=
  let metadata := Chunker.metadata doc in
  let content_preview := preview (Chunker.page_content doc) in
  page ← plus_one (default (VInt 0) (metadata !! "page_number"));
  let label :=
    VStr ("Document: "
          +:+ py_str float_repr (default (VStr "Unknown") (metadata !! "filename"))
          +:+ " (Page " +:+ py_str float_repr page +:+ ")") in
  score ← to_float parse_float (default (VFloat 0) (metadata !! "relevance_score"));
  mret {|
    content_preview := content_preview;
    source_document := default label (metadata !! "source");
    source_content_type := default (VStr "text") (metadata !! "content_type");
    source_page_number := default (VInt 0) (metadata !! "page_number");
    source_chunk_index := default (VInt 0) (metadata !! "chunk_index");
    relevance_score := score;
    source_document_id := default (VStr "") (metadata !! "document_id");
    source_chunk_id := default (VStr "") (metadata !! "chunk_id");
    source_search_type := default (VStr "hybrid") (metadata !! "search_type")
  |}.

(** The loop inside its own [try]: the sources appended before a document
    raises are kept. *)
Fixpoint sources_of_documents (docs : list Chunker.Document) : list Source :=
  match docs with
  | [] => []
  | doc :: rest =>
      match source_of_document doc with
      | Ok source => source :: sources_of_documents rest
      | Raise _ => []
      end
  end.

Definition legacy_source (text : string) : Source :=
  {| content_preview := preview text;
     source_document := VStr "Retrieved from document search";
     source_content_type := VStr "text";
     source_page_number := VInt 0;
     source_chunk_index := VInt 0;
     relevance_score := 0.85;
     source_document_id := VStr "";
     source_chunk_id := VStr "";
     source_search_type := VStr "unknown" |}.

Definition legacy_sources (messages : list Message) : list Source :=
  match List.find (fun msg => String.eqb (type msg) "tool" && PyStr.truthy (content msg))
                  messages with
  | Some msg => [legacy_source (content msg)]
  | None => []
  end.

Definition _extract_sources_from_tool_messages (messages : list Message)
    : M (list Source) :=
  docs ← gets last_retrieved_docs;
  let sources := sources_of_documents (take 5 docs) in
  mret (match sources with
        | [] => legacy_sources messages
        | _ => sources
        end).

(** [result["messages"][-1]] *)
Definition last_message (messages : list Message) : result Message :=
  match last messages with
  | Some msg => Ok msg
  | None => Raise (Exn "IndexError" "list index out of range")
  end.

Definition ask_question (question session_id : string) : M Response :=
  graph ← gets graph;
  if negb graph then
    lift (Raise (Exn "ValueError"
                   "RAG system not initialized. Call setup_for_all_documents() first."))
  else
    try_catch
      (result ← graph_invoke question session_id;
       final_message ← lift (last_message result);
       sources ← _extract_sources_from_tool_messages result;
       mret {| answer := content final_message;
               sources := sources;
               conversation := result;
               session_id := session_id |})
      (fun e => mret (fallback question session_id)).

(** *** Events of a run *)

(** A language-model call made so far has raised. *)
Definition lm_failed (w : World) : Prop := LanguageModelCall false ∈ trace w.

(** The retrieval backend has raised in a search made so far. *)
Definition search_failed (w : World) : Prop := SearchCall false ∈ trace w.

(** A computation none of whose language-model calls raises. *)
Definition quiet {A} (c : M A) : Prop := ∀ w, lm_failed (c w).2 → lm_failed w.

(** A computation that raises when one of its language-model calls does. *)
Definition loud {A} (c : M A) : Prop :=
  ∀ w, lm_failed (c w).2 → lm_failed w ∨ ∃ e, (c w).1 = Raise e.

End WithServices.

End Agent.

(** ** Concrete documents, stores and services

    The inputs at which the properties below are evaluated. *)

Module Samples.

Definition sample_uuid (n : nat) : string := "uuid-" +:+ pretty n.
Definition other_uuid (n : nat) : string := "other-" +:+ pretty n.
Definition sample_clock (i : Z) : string := "2025-01-01T00:00:00".

Definition page_of (text : string) (tables : list Chunker.MarkdownTable)
    (figures : list Chunker.MarkdownFigure) : Chunker.MarkdownPage :=
  {| Chunker.language := Some "en";
     Chunker.content := text;
     Chunker.markdown_content := None;
     Chunker.tables := Some (map Some tables);
     Chunker.figures := Some (map Some figures) |}.

(** A small table. *)
Definition price_table : Chunker.MarkdownTable :=
  {| Chunker.table_metadata :=
       {| Chunker.title := Some "Prices"; Chunker.caption := None |};
     Chunker.table_content := "| item | price |" |}.

Definition price_document : Chunker.MarkdownDocument :=
  {| Chunker.pages := [page_of "" [price_table] []] |}.

(** A table with a title and a body of blanks. *)
Definition blank_table : Chunker.MarkdownTable :=
  {| Chunker.table_metadata :=
       {| Chunker.title := Some "Prices"; Chunker.caption := None |};
     Chunker.table_content := "   " |}.

(** A table of 3585 characters: three blocks of 1190, 1190 and 1195
    characters and a last cell [d], with two empty lines between each
    two. *)
Definition wide_table : Chunker.MarkdownTable :=
  let gap := PyStr.nl +:+ PyStr.nl +:+ PyStr.nl in
  {| Chunker.table_metadata := {| Chunker.title := None; Chunker.caption := None |};
     Chunker.table_content :=
       PyStr.repeat "a" 1190 +:+ gap +:+ PyStr.repeat "b" 1190 +:+ gap
       +:+ PyStr.repeat "c" 1195 +:+ gap +:+ "d" |}.

Definition wide_table_document : Chunker.MarkdownDocument :=
  {| Chunker.pages := [page_of "" [wide_table] []] |}.

(** A figure with a title only. *)
Definition sales_figure : Chunker.MarkdownFigure :=
  {| Chunker.figure_title := Some "Sales by quarter";
     Chunker.figure_caption := None;
     Chunker.figure_content := None |}.

Definition figure_document : Chunker.MarkdownDocument :=
  {| Chunker.pages := [page_of "" [] [sales_figure]] |}.

(** Stores: every point is as similar to every query as any other. *)
Definition constant_similarity (name query : string) (p : RRFStore.StoredPoint) : Q :=
  1%Q.

Definition empty_store : RRFStore.t := RRFStore.empty 1 constant_similarity.

Definition connection_refused : pyexn :=
  Exn "ResponseHandlingException" "connection refused".

(** A store that cannot be reached: every upload and every query raises. *)
Definition unreachable_store : RRFStore.t :=
  {| RRFStore.points := [];
     RRFStore.rrf_k := 1;
     RRFStore.similarity := constant_similarity;
     RRFStore.upload_fails := Some connection_refused;
     RRFStore.query_fails := Some connection_refused |}.

(** Stand-ins for the printing and the reading of a float; the runs below
    print and read none. *)
Definition sample_float_repr (q : Q) : string :=
  PyStr.of_int (Qnum q) +:+ "/" +:+ PyStr.of_int (Z.pos (Qden q)).

Definition sample_parse_float (s : string) : option Q := None.

Definition ai (text : string) (calls : list Agent.ToolCall) : Agent.Message :=
  {| Agent.type := "ai"; Agent.content := text; Agent.tool_calls := calls;
     Agent.answers_call := "" |}.

(** A response model that first asks for a retrieval, then rewrites the
    question, then answers. *)
Definition sample_response_model (n : nat) (with_tools : bool)
    (messages : list Agent.Message) : result Agent.Message :=
  match n with
  | O =>
      Ok (ai "" [ {| Agent.tool_name := "retrieve_documents";
                     Agent.tool_query := "capital of France";
                     Agent.tool_call_id := "call-1" |} ])
  | Datatypes.S O => Ok (ai "What is the capital city of France?" [])
  | _ => Ok (ai "Paris." [])
  end.

Definition rate_limited : pyexn := Exn "RateLimitError" "rate limit exceeded".

(** A language-model service that raises on every call. *)
Definition failing_response_model (n : nat) (with_tools : bool)
    (messages : list Agent.Message) : result Agent.Message :=
  Raise rate_limited.

Definition failing_grader_model (n : nat) (prompt : string) : result string :=
  Raise rate_limited.

Definition agreeing_grader_model (n : nat) (prompt : string) : result string :=
  Ok "yes".

Definition stale_document : Chunker.Document :=
  {| Chunker.page_content := "evidence of an earlier question";
     Chunker.metadata := ∅ |}.

(** The controller after [setup_for_all_documents] over a store. *)
Definition world_over (store : RRFStore.t) : Agent.World :=
  {| Agent.store := store;
     Agent.last_retrieved_docs := [stale_document];
     Agent.checkpointer := ∅;
     Agent.graph := true;
     Agent.has_documents := true;
     Agent.calls := 0%nat;
     Agent.trace := [] |}.

(** The default recursion limit of the graph engine. *)
Definition recursion_limit : nat := 25.

Definition asked : Agent.Message := Agent.human "What does the item cost?".

(** The history after a retrieval that found the small table. *)
Definition retrieved : list Agent.Message :=
  [ ai "" [ {| Agent.tool_name := "retrieve_documents";
               Agent.tool_query := "item price";
               Agent.tool_call_id := "call-1" |} ];
    Agent.tool_message "| item | price |" "call-1" ].

End Samples.

(** ** Deletion and statistics of the hybrid index *)

Module StoreAdmin.

Definition collection_name : string := "hybrid_documents_official".

Record VectorParams : Type := { vector_size : Z; distance : string }.

(** What [client.get_collection] returns, as far as the statistics read
    it: the number of points (optional), the named dense vector
    configurations, the sparse vector configurations (optional). *)
Record CollectionInfo : Type := {
  points_count : option Z;
  vectors : gmap string VectorParams;
  sparse_vectors : option (list string)
}.

Record UpdateResult : Type := { operation_id : option Z; update_status : string }.

(** The client calls of [delete_document] and [get_collection_stats]. A
    deletion answers with an update result, or with nothing. *)
Class Collection (S : Type) : Type := {
  get_collection : S → result CollectionInfo;
  delete_points : S → string → result (option UpdateResult * S)
}.

Section WithCollection.
Context {S : Type} `{Collection S}.

(** [hasattr(delete_result, "operation_id") or delete_result]: every
    update result has the attribute. *)
Definition delete_document (store : S) (document_id : string) : bool * S :=
  match delete_points store document_id with
  | Ok (Some _, store') => (true, store')
  | Ok (None, store') => (false, store')
  | Raise _ => (false, store)
  end.

Definition stats_of (info : CollectionInfo) : result (gmap string pyval) :=
  match vectors info !! "dense" with
  | None => Raise (Exn "KeyError" "'dense'")
  | Some params =>
      Ok (Chunker.dict [
        ("total_points", match points_count info with
                         | Some n => VInt n
                         | None => VNone
                         end);
        ("dense_vector_size", VInt (vector_size params));
        ("distance_metric", VStr (distance params));
        ("has_sparse_vectors",
         VBool match sparse_vectors info with
               | Some (_ :: _) => true
               | _ => false
               end);
        ("collection_name", VStr collection_name);
        ("approach", VStr "official_qdrant_hybrid_fastembed") ])
  end.

Definition get_collection_stats (store : S) : gmap string pyval :=
  match info ← get_collection store; stats_of info with
  | Ok stats => stats
  | Raise e => Chunker.dict [("error", VStr (exn_message e))]
  end.

End WithCollection.

End StoreAdmin.

(** ** Setting the controller up *)

Module AgentSetup.
Import Agent.

(** [v > 0] *)
Definition positive (v : pyval) : result bool :=
  match v with
  | VInt z => Ok (0 <? z)
  | VBool b => Ok b
  | VFloat q => Ok (negb (Qle_bool q 0))
  | VNone =>
      Raise (Exn "TypeError"
               "'>' not supported between instances of 'NoneType' and 'int'")
  | VStr _ =>
      Raise (Exn "TypeError" "'>' not supported between instances of 'str' and 'int'")
  end.

Section WithCollection.
Context {S : Type} `{StoreAdmin.Collection S}.

Definition set_has_documents (b : bool) (w : @World S) : @World S :=
  {| store := store w; last_retrieved_docs := last_retrieved_docs w;
     checkpointer := checkpointer w; graph := graph w; has_documents := b;
     calls := calls w; trace := trace w |}.

(** [self.graph = self._build_graph()] *)
Definition set_graph (w : @World S) : @World S :=
  {| store := store w; last_retrieved_docs := last_retrieved_docs w;
     checkpointer := checkpointer w; graph := true;
     has_documents := has_documents w; calls := calls w; trace := trace w |}.

Definition _check_processed_documents : @M S bool :=
  try_catch
    (stats ← gets (fun w => StoreAdmin.get_collection_stats (store w));
     let total_points := default (VInt 0) (stats !! "total_points") in
     has ← lift (positive total_points);
     _ ← modify (set_has_documents has);
     mret has)
    (fun e =>
       _ ← modify (set_has_documents false);
       mret false).

Definition setup_for_all_documents : @M S bool :=
  try_catch
    (has ← _check_processed_documents;
     _ ← modify (set_has_documents has);
     _ ← modify set_graph;
     mret has)
    (fun e => mret false).

End WithCollection.

End AgentSetup.

(** ** The document processor's search and deletion *)

Module DocumentProcessor.

(** [self.documents_dto.delete_document]: the row of a document in the
    relational store of type [D]. *)
Class Database (D : Type) : Type := {
  delete_row : D → string → result D
}.

(** A reference to a global name the module never binds. *)
Definition unbound_name (name : string) : result unit :=
  Raise (Exn "NameError" ("name '" +:+ name +:+ "' is not defined")).

Definition chunk_types_of (include_tables include_figures : bool) : list string :=
  ["text"] ++ (if include_tables then ["table"] else [])
  ++ (if include_figures then ["figure"] else []).

Section WithStore.
Context {S : Type} `{HybridStore.Client S}.

(** The handler starts with [logger.warning(...)], and the module neither
    imports nor defines [logger]: the reference raises [NameError] before
    the dense search that follows it. *)
Definition search_document_content (store : S) (query : string)
    (document_id : option string) (limit : Z)
    (include_tables include_figures use_hybrid_search : bool)
    (score_threshold : option Q) : result (list HybridStore.SearchResult) :=
  let chunk_types := chunk_types_of include_tables include_figures in
  let score_threshold :=
    match score_threshold with
    | Some t => t
    | None => if use_hybrid_search then 0.3%Q else 0.7%Q
    end in
  try_except
    (if use_hybrid_search
     then HybridStore.hybrid_search store query document_id (Some chunk_types)
            limit score_threshold
     else HybridStore.search_documents store query document_id (Some chunk_types)
            limit score_threshold)
    (fun e =>
       _ ← unbound_name "logger";
       HybridStore.search_documents store query document_id (Some chunk_types)
         limit 0.7).

End WithStore.

Section WithCollection.
Context {S : Type} `{StoreAdmin.Collection S}.
Context {D : Type} `{Database D}.

(** The vector store first, then the database whatever the first did; the
    result is whether both succeeded, with the two stores as left. *)
Definition delete_document_content (store : S) (db : D) (document_id : string)
    : bool * S * D :=
  let '(qdrant_success, store') := StoreAdmin.delete_document store document_id in
  let '(database_success, db') :=
    match delete_row db document_id with
    | Ok db' => (true, db')
    | Raise _ => (false, db)
    end in
  (qdrant_success && database_success, store', db').

End WithCollection.

End DocumentProcessor.

(** ** The chat route's source references *)

Module ChatRoute.

Record SourceReference : Type := {
  reference_chunk_id : string;
  reference_document_id : string;
  reference_page_number : pyval;
  reference_chunk_index : pyval;
  reference_content_preview : string;
  reference_relevance_score : Q;
  reference_source_document : pyval;
  reference_content_type : pyval
}.

(** [l[:n]]: the first [n] elements, all but the last [-n] when [n] is
    negative. *)
Definition slice_to {A} (n : Z) (l : list A) : list A :=
  if 0 <=? n then take (Z.to_nat n) l
  else take (length l - Z.to_nat (- n)) l.

(** [max(0, v)] *)
Definition max_zero (v : pyval) : result pyval :=
  match v with
  | VInt z => Ok (VInt (Z.max 0 z))
  | VBool b => Ok (if b then VBool true else VInt 0)
  | VFloat q => Ok (if Qle_bool q 0 then VInt 0 else VFloat q)
  | VNone =>
      Raise (Exn "TypeError"
               "'>' not supported between instances of 'NoneType' and 'int'")
  | VStr _ =>
      Raise (Exn "TypeError" "'>' not supported between instances of 'str' and 'int'")
  end.

Section WithValidation.
(** The validation of the [SourceReference] model on the values given to
    its constructor: the reference, or a validation error. *)
Variable validate : SourceReference → result SourceReference.

Definition format_source (i : Z) (source : Agent.Source) : result SourceReference :=
  page_number ← max_zero (Agent.source_page_number source);
  validate {|
    reference_chunk_id := "agentic-rag-source-" +:+ PyStr.of_int i;
    reference_document_id := "multi-doc";
    reference_page_number := page_number;
    reference_chunk_index := Agent.source_chunk_index source;
    reference_content_preview := Agent.content_preview source;
    reference_relevance_score := Agent.relevance_score source;
    reference_source_document := Agent.source_document source;
    reference_content_type := Agent.source_content_type source
  |}.

(** The loop: a source that raises is skipped. *)
Fixpoint format_from (i : Z) (limited_sources : list Agent.Source)
    : list SourceReference :=
  match limited_sources with
  | [] => []
  | source :: rest =>
      match format_source i source with
      | Ok reference => reference :: format_from (i + 1) rest
      | Raise _ => format_from (i + 1) rest
      end
  end.

Definition _format_sources (rag_sources : list Agent.Source)
    (include_sources : bool) (max_sources : Z) : list SourceReference :=
  if negb include_sources || match rag_sources with [] => true | _ => false end
  then []
  else format_from 0 (slice_to max_sources rag_sources).

End WithValidation.

End ChatRoute.

(** ** Notions the properties are stated with *)

Module Notions.

(** Every character of the string is white space. *)
Fixpoint all_space (s : string) : bool :=
  match s with
  | EmptyString => true
  | String c s' => PyStr.isspace c && all_space s'
  end.

(** The trimmed content of the chunk is not empty. *)
Definition nonblank (c : Chunker.Document) : Prop :=
  PyStr.strip (Chunker.page_content c) ≠ "".

(** The page number a chunk records, when it records an integer. *)
Definition page_of_chunk (c : Chunker.Document) : option Z :=
  match Chunker.metadata c !! "page_number" with
  | Some (VInt z) => Some z
  | _ => None
  end.

(** The identifier a chunk records, when it records a string. *)
Definition chunk_id_of (c : Chunker.Document) : option string :=
  match Chunker.metadata c !! "chunk_id" with
  | Some (VStr s) => Some s
  | _ => None
  end.

(** A generator that gives the chunks it makes the identifiers it draws,
    in the order drawn, and draws no other. *)
Definition draws_in_order (uuid4 : nat → string) (g : Gen (list Chunker.Document))
    : Prop :=
  ∀ n, map chunk_id_of (g n).1 = map (fun k => Some (uuid4 k)) (seq n (length (g n).1))
       ∧ (g n).2 = (n + length (g n).1)%nat.

(** Both chunks record a page, and the second is not of an earlier page
    than the first. *)
Definition page_order (a b : Chunker.Document) : Prop :=
  ∃ i j, page_of_chunk a = Some i ∧ page_of_chunk b = Some j ∧ i ≤ j.

(** The chunk records the document, the file, the page and its language,
    the length of its own content, and one of the three content types. *)
Definition records_origin (document_id filename : string) (page_idx : Z)
    (language : option string) (c : Chunker.Document) : Prop :=
  Chunker.metadata c !! "document_id" = Some (VStr document_id)
  ∧ Chunker.metadata c !! "filename" = Some (VStr filename)
  ∧ Chunker.metadata c !! "page_number" = Some (VInt page_idx)
  ∧ Chunker.metadata c !! "language" = Some (opt_str language)
  ∧ Chunker.metadata c !! "chunk_size" = Some (VInt (PyStr.len (Chunker.page_content c)))
  ∧ ∃ t, Chunker.metadata c !! "content_type" = Some (VStr t)
         ∧ t ∈ ["text"; "table"; "figure"].

(** The heading occurs in the text, letter case apart. *)
Definition occurs_in (chunk_text : string) (h : Chunker.Heading) : bool :=
  PyStr.contains (PyStr.lower (Chunker.text h)) (PyStr.lower chunk_text).

(** The request a hybrid search sends to the client. *)
Definition hybrid_request (query : string) (document_id : option string) (limit : Z)
    : HybridStore.QueryRequest :=
  {| HybridStore.request_query := HybridStore.FusionRRF [
       {| HybridStore.prefetch_query :=
            {| HybridStore.embed_text := query;
               HybridStore.embed_model := HybridStore.DENSE_MODEL |};
          HybridStore.prefetch_using := "dense";
          HybridStore.prefetch_limit := limit * 2 |};
       {| HybridStore.prefetch_query :=
            {| HybridStore.embed_text := query;
               HybridStore.embed_model := HybridStore.SPARSE_MODEL |};
          HybridStore.prefetch_using := "sparse";
          HybridStore.prefetch_limit := limit * 2 |} ];
     HybridStore.query_filter := HybridStore.filter_of document_id;
     HybridStore.request_limit := limit;
     HybridStore.request_score_threshold := None |}.

(** The chunks whose trimmed content is not empty. *)
Definition with_content (chunks : list Chunker.Document) : list Chunker.Document :=
  List.filter (fun c => PyStr.truthy (PyStr.strip (Chunker.page_content c))) chunks.

(** The vector entry and the payload made for a chunk: both texts to
    embed are the trimmed content; the payload holds what the metadata of
    the chunk holds, and the trimmed content under [content] unless the
    metadata has that key. *)
Definition indexed_as (chunk : Chunker.Document) (v : HybridStore.VectorPair)
    (p : gmap string pyval) : Prop :=
  let text := PyStr.strip (Chunker.page_content chunk) in
  v = {| HybridStore.dense :=
           {| HybridStore.embed_text := text;
              HybridStore.embed_model := HybridStore.DENSE_MODEL |};
         HybridStore.sparse :=
           {| HybridStore.embed_text := text;
              HybridStore.embed_model := HybridStore.SPARSE_MODEL |} |}
  ∧ Chunker.metadata chunk ⊆ p
  ∧ (Chunker.metadata chunk !! "content" = None → p !! "content" = Some (VStr text)).

(** The search result made of a point: its identifier, its score, and
    the four payload entries read without a default. *)
Definition result_of_point (r : HybridStore.SearchResult) (p : HybridStore.ScoredPoint)
    : Prop :=
  HybridStore.chunk_id r = HybridStore.point_id p
  ∧ HybridStore.score r = HybridStore.point_score p
  ∧ HybridStore.point_payload p !! "content" = Some (HybridStore.content r)
  ∧ HybridStore.point_payload p !! "document_id" = Some (HybridStore.document_id r)
  ∧ HybridStore.point_payload p !! "page_number" = Some (HybridStore.page_number r)
  ∧ HybridStore.point_payload p !! "chunk_index" = Some (HybridStore.chunk_index r).

(** A computation of the controller that makes at most [budget]
    language-model calls. *)
Definition spends {S A} (budget : nat) (c : @Agent.M S A) : Prop :=
  ∀ w, (Agent.calls w ≤ Agent.calls (c w).2 ≤ Agent.calls w + budget)%nat.

(** A computation of the controller that leaves the saved histories as
    they are. *)
Definition keeps_checkpoints {S A} (c : @Agent.M S A) : Prop :=
  ∀ w, Agent.checkpointer (c w).2 = Agent.checkpointer w.

(** A run on a thread whose saved history is [messages]: the history
    saved when the run ends extends [messages], it is what the run returns
    when it returns, and the histories of the other threads are as
    before. *)
Definition runs_on {S} (thread_id : string) (messages : list Agent.Message)
    (c : @Agent.M S (list Agent.Message)) : Prop :=
  ∀ w, Agent.checkpointer w !! thread_id = Some messages →
    (∃ history,
       Agent.checkpointer (c w).2 !! thread_id = Some history
       ∧ messages `prefix_of` history
       ∧ ∀ out, (c w).1 = Ok out → out = history)
    ∧ ∀ other, other ≠ thread_id →
        Agent.checkpointer (c w).2 !! other = Agent.checkpointer w !! other.

(** A search result the retriever can make a document of: its content is
    a string, and its page number a number, to which one can be added. *)
Definition convertible (r : HybridStore.SearchResult) : Prop :=
  (∃ text, HybridStore.content r = VStr text)
  ∧ match HybridStore.page_number r with
    | VInt _ | VBool _ | VFloat _ => True
    | VNone | VStr _ => False
    end.

(** The document the retriever makes of a search result: the content of
    the result, and a metadata that holds what the metadata of the result
    holds. *)
Definition document_of_result (doc : Chunker.Document) (r : HybridStore.SearchResult)
    : Prop :=
  HybridStore.content r = VStr (Chunker.page_content doc)
  ∧ HybridStore.result_metadata r ⊆ Chunker.metadata doc.

(** The payload of the point has the four keys a search result reads
    without a default. *)
Definition has_required_keys (p : HybridStore.ScoredPoint) : Prop :=
  Forall (fun key => is_Some (HybridStore.point_payload p !! key))
    ["content"; "document_id"; "page_number"; "chunk_index"].

End Notions.

(** ** More concrete stores and services *)

Module MoreSamples.
Import Samples.

(** Modelled from the spec: the statistics and the filtered bulk deletion
    of the vector storage backend of section 6. The collection counts its
    points and has one dense and one sparse vector; a deletion removes
    every point of the document. Reading fails as a query does, deleting
    as an upload does. *)
#[global] Instance rrf_collection : StoreAdmin.Collection RRFStore.t := {
  StoreAdmin.get_collection store :=
    match RRFStore.query_fails store with
    | Some e => Raise e
    | None =>
        Ok {| StoreAdmin.points_count := Some (Z.of_nat (length (RRFStore.points store)));
              StoreAdmin.vectors :=
                {[ "dense" := {| StoreAdmin.vector_size := 384;
                                 StoreAdmin.distance := "Cosine" |} ]};
              StoreAdmin.sparse_vectors := Some ["sparse"] |}
    end;
  StoreAdmin.delete_points store document_id :=
    match RRFStore.upload_fails store with
    | Some e => Raise e
    | None =>
        Ok (Some {| StoreAdmin.operation_id := Some 1;
                    StoreAdmin.update_status := "completed" |},
            {| RRFStore.points :=
                 List.filter (fun p => negb (RRFStore.matches (Some document_id) p))
                   (RRFStore.points store);
               RRFStore.rrf_k := RRFStore.rrf_k store;
               RRFStore.similarity := RRFStore.similarity store;
               RRFStore.upload_fails := RRFStore.upload_fails store;
               RRFStore.query_fails := RRFStore.query_fails store |})
    end
}.

(** A database of document ids; deleting an absent row raises. *)
#[global] Instance id_database : DocumentProcessor.Database (list string) := {
  DocumentProcessor.delete_row db document_id :=
    if bool_decide (document_id ∈ db)
    then Ok (List.filter (fun d => negb (String.eqb d document_id)) db)
    else Raise (Exn "HTTPException" "Document not found")
}.

(** The store after the small table has been indexed. *)
Definition indexed_store : RRFStore.t :=
  match HybridStore.index_document TextSplitter.split_text sample_uuid sample_clock
          empty_store "doc-1" "prices.pdf" price_document with
  | Ok (_, store) => store
  | Raise _ => empty_store
  end.

(** A store whose queries fail and whose uploads do not. *)
Definition unreadable_store : RRFStore.t :=
  {| RRFStore.points := [];
     RRFStore.rrf_k := 1;
     RRFStore.similarity := constant_similarity;
     RRFStore.upload_fails := None;
     RRFStore.query_fails := Some connection_refused |}.

(** The controller before [setup_for_all_documents]. *)
Definition fresh_world (store : RRFStore.t) : Agent.World :=
  {| Agent.store := store;
     Agent.last_retrieved_docs := [];
     Agent.checkpointer := ∅;
     Agent.graph := false;
     Agent.has_documents := false;
     Agent.calls := 0%nat;
     Agent.trace := [] |}.

(** A response model that answers every call directly. *)
Definition direct_response_model (n : nat) (with_tools : bool)
    (messages : list Agent.Message) : result Agent.Message :=
  Ok (ai ("answer " +:+ pretty n) []).

(** The controller after a first question of the session [session-1] has
    been answered. *)
Definition after_first_question : Agent.World :=
  (Agent.ask_question sample_float_repr sample_parse_float direct_response_model
     failing_grader_model recursion_limit "What is a chunk?" "session-1"
     (world_over empty_store)).2.

(** Three sources as the controller returns them for a tool message. *)
Definition three_sources : list Agent.Source :=
  [Agent.legacy_source "first"; Agent.legacy_source "second";
   Agent.legacy_source "third"].

(** A document of two pages: a heading with a paragraph of 120 characters
    and a table, then a figure. *)
Definition report_document : Chunker.MarkdownDocument :=
  {| Chunker.pages :=
       [ page_of ("# Findings" +:+ PyStr.nl +:+ PyStr.repeat "word " 24) [price_table] [];
         page_of "" [] [sales_figure] ] |}.

(** A validation that accepts every reference. *)
Definition accept_all (r : ChatRoute.SourceReference) : result ChatRoute.SourceReference :=
  Ok r.

End MoreSamples.

(** * Properties *)

(** ** Running the generator and the controller monads *)

Lemma gen_bind_run {A B} (m : Gen A) (k : A → Gen B) (n : nat) :
  (m ≫= k) n = k (m n).1 (m n).2.
Proof. unfold mbind, gen_bind. destruct (m n); reflexivity. Qed.

Lemma for_extend_cons {A B} (body : Z → A → Gen (list B)) start x xs n :
  (for_extend body start (x :: xs) n).1
  = (body start x n).1 ++ (for_extend body (start + 1) xs (body start x n).2).1.
Proof. cbn [for_extend]. rewrite !gen_bind_run. reflexivity. Qed.

Lemma for_extend_Forall {A B} (P : B → Prop) (body : Z → A → Gen (list B)) :
  (∀ i x n, Forall P (body i x n).1) →
  ∀ l start n, Forall P (for_extend body start l n).1.
Proof.
  intros Hbody l. induction l as [|x xs IH]; intros start n.
  - constructor.
  - rewrite for_extend_cons. apply Forall_app. split; [apply Hbody | apply IH].
Qed.

(** A loop whose body draws one identifier and appends one chunk. *)
Lemma for_extend_one_each {A} (uuid4 : nat → string)
    (f : Z → A → string → Chunker.Document) :
  ∀ l start n,
    (for_extend (fun i x => id ← Chunker.fresh_uuid uuid4; mret [f i x id]) start l n).1
    = imap (fun k x => f (start + Z.of_nat k) x (uuid4 (n + k)%nat)) l.
Proof.
  induction l as [|x xs IH]; intros start n.
  - reflexivity.
  - rewrite for_extend_cons, gen_bind_run.
    cbn [Chunker.fresh_uuid fst snd mret gen_ret app].
    rewrite IH. cbn [imap]. f_equal.
    + by rewrite Z.add_0_r, Nat.add_0_r.
    + apply imap_ext. intros k y _. cbn. f_equal; [lia | f_equal; lia].
Qed.

Lemma for_extend_same {A} (fa fb : Z → A → Gen (list Chunker.Document)) :
  (∀ i x, Chunker.same_up_to_ids (fa i x) (fb i x)) →
  ∀ l start, Chunker.same_up_to_ids (for_extend fa start l) (for_extend fb start l).
Proof.
  intros Hbody l. induction l as [|x xs IH]; intros start na nb.
  - reflexivity.
  - rewrite !for_extend_cons, !map_app. f_equal; [apply Hbody | apply IH].
Qed.

Lemma truthy_true (s : string) : s ≠ "" → PyStr.truthy s = true.
Proof.
  intros Hs. unfold PyStr.truthy.
  destruct (String.eqb_spec s ""); [contradiction | reflexivity].
Qed.

(** ** The quality score *)

(** Claim C7, as amended. The quality score of a text piece is, up to the
    rounding of the float additions (an absolute error of at most 2^-52),
    the clamp to [0.1, 1.0] of 0.5, plus 0.2 when the trimmed piece ends on
    sentence-final punctuation, plus 0.1 when it starts with a list or
    heading marker, plus 0.1 when its length exceeds the threshold, minus
    0.3 when truncation markers are present. *)
Theorem quality_score_formula_up_to_rounding (piece : string) :
  (Qabs (Chunker._calculate_content_quality piece - QualitySpec.quality_score piece)
   <= 1 # 2 ^ 52)%Q.
Proof.
  unfold Chunker._calculate_content_quality, QualitySpec.quality_score,
    QualitySpec.ends_on_sentence_punctuation, QualitySpec.starts_with_marker,
    QualitySpec.is_substantial, QualitySpec.has_truncation_markers,
    QualitySpec.substantial_threshold.
  destruct (PyStr.endswith_any _ _), (existsb _ _), (_ >? 800),
    ((PyStr.count piece "..." >? 2) || (PyStr.count piece "[truncated]" >? 0));
    vm_compute; discriminate.
Qed.

(** Claim C7, as stated, fails at a finished list item: the formula gives
    0.8, the program 0.5 + 0.2 + 0.1 in binary64, which is
    0.7999999999999999, the float just below the float nearest to 0.8. *)
Lemma quality_score_is_not_the_decimal_sum :
  let piece := " - a finished item. " in
  QualitySpec.quality_score piece == 0.8
  ∧ Chunker._calculate_content_quality piece == 7205759403792793 # 2 ^ 53
  ∧ PyFloat.value 0.8 == 7205759403792794 # 2 ^ 53
  ∧ ¬ Chunker._calculate_content_quality piece == QualitySpec.quality_score piece
  ∧ ¬ Chunker._calculate_content_quality piece == PyFloat.value 0.8.
Proof.
  cbv zeta. repeat split; try (vm_compute; reflexivity); vm_compute; discriminate.
Qed.

(** The score of a text piece lies in [0.1, 1.0]. *)
Lemma text_quality_in_range (piece : string) :
  (0.1 <= Chunker._calculate_content_quality piece
   ∧ Chunker._calculate_content_quality piece <= 1.0)%Q.
Proof.
  unfold Chunker._calculate_content_quality.
  destruct (PyStr.endswith_any _ _), (existsb _ _), (_ >? 800),
    ((PyStr.count piece "..." >? 2) || (PyStr.count piece "[truncated]" >? 0));
    split; vm_compute; discriminate.
Qed.

(** The clamp never acts: the sum already lies between 0.2 and 0.9. *)
Lemma text_quality_unclamped (piece : string) :
  (0.2 <= Chunker._calculate_content_quality piece
   ∧ Chunker._calculate_content_quality piece <= 0.9)%Q.
Proof.
  unfold Chunker._calculate_content_quality.
  destruct (PyStr.endswith_any _ _), (existsb _ _), (_ >? 800),
    ((PyStr.count piece "..." >? 2) || (PyStr.count piece "[truncated]" >? 0));
    split; vm_compute; discriminate.
Qed.

(** ** Chunks of text, tables and figures *)

Section ChunkerProperties.
Import Chunker.
Variable recursive_splitter : TextSplitter.t → string → list string.
Variable uuid4 : nat → string.
Variable cfg : Config.

(** Every text chunk is at least [min_chunk_size] long once trimmed. *)
Lemma text_chunks_respect_minimum content document_id filename page_idx lang
    content_type analysis n :
  Forall (fun c => min_chunk_size cfg ≤ PyStr.len (PyStr.strip (page_content c)))
    (_chunk_text_content_adaptive recursive_splitter uuid4 cfg content document_id
       filename page_idx lang content_type analysis n).1.
Proof.
  unfold _chunk_text_content_adaptive. apply for_extend_Forall.
  intros i x k. destruct (_ || _) eqn:Hskip; [constructor|].
  rewrite gen_bind_run. cbn [fresh_uuid fst snd mret gen_ret].
  constructor; [|constructor]. cbn [page_content text_chunk].
  apply orb_false_iff in Hskip as [_ Hlen]. by apply Z.ltb_ge in Hlen.
Qed.

(** Every text chunk carries a quality score in [0.1, 1.0]. *)
Lemma text_chunks_carry_quality content document_id filename page_idx lang
    content_type analysis n :
  Forall (fun c => ∃ q, metadata c !! "quality_score" = Some (VFloat q)
                        ∧ (0.1 <= q ∧ q <= 1.0)%Q)
    (_chunk_text_content_adaptive recursive_splitter uuid4 cfg content document_id
       filename page_idx lang content_type analysis n).1.
Proof.
  unfold _chunk_text_content_adaptive. apply for_extend_Forall.
  intros i x k. destruct (_ || _); [constructor|].
  rewrite gen_bind_run. cbn [fresh_uuid fst snd mret gen_ret].
  constructor; [|constructor].
  exists (_calculate_content_quality x). split; [reflexivity|].
  apply text_quality_in_range.
Qed.

(** Claim C4, as amended. A table whose trimmed body is empty yields no
    chunk, whatever its title and caption. A table whose trimmed body is
    not empty yields exactly one chunk, marked complete (quality 0.9),
    when its assembled content is at most [table_max_size] long; otherwise
    it yields one chunk per piece of the text splitter, each marked
    incomplete, labelled "Part i of n" and given the lower quality 0.6. *)
Theorem table_kept_whole_or_split_into_parts
    (table : MarkdownTable) (table_idx : Z) (document_id filename : string)
    (page_idx : Z) (lang : option string) (n : nat) :
  let full := full_table_content table_idx table in
  let pieces := text_splitter recursive_splitter cfg full in
  let chunks :=
    (_chunk_table_preserving recursive_splitter uuid4 cfg table table_idx
       document_id filename page_idx lang n).1 in
  (PyStr.strip (table_content table) = "" → chunks = [])
  ∧ (PyStr.strip (table_content table) ≠ "" →
     (PyStr.len full ≤ table_max_size cfg →
        ∃ c, chunks = [c] ∧ page_content c = full
             ∧ metadata c !! "is_complete_table" = Some (VBool true)
             ∧ metadata c !! "quality_score" = Some (VFloat 0.9))
     ∧ (table_max_size cfg < PyStr.len full →
        length chunks = length pieces
        ∧ ∀ (i : nat) c, chunks !! i = Some c →
            pieces !! i = Some (page_content c)
            ∧ metadata c !! "is_complete_table" = Some (VBool false)
            ∧ metadata c !! "table_part"
              = Some (VStr ("Part " +:+ PyStr.of_int (Z.of_nat i + 1) +:+ " of "
                            +:+ PyStr.of_int (Z.of_nat (length pieces))))
            ∧ metadata c !! "quality_score" = Some (VFloat 0.6)))
  ∧ (0.6 < 0.9)%Q.
Proof.
  intros full pieces chunks. subst chunks.
  split; [|split; [|reflexivity]].
  { intros Hblank. unfold _chunk_table_preserving. rewrite Hblank. reflexivity. }
  intros Hbody.
  unfold _chunk_table_preserving. rewrite (truthy_true _ Hbody). cbn [negb].
  fold full. fold pieces.
  split.
  - intros Hle. apply Z.leb_le in Hle. rewrite Hle.
    rewrite gen_bind_run. cbn [fresh_uuid fst snd mret gen_ret].
    eexists. split; [reflexivity|]. repeat split; reflexivity.
  - intros Hgt. apply Z.leb_gt in Hgt. rewrite Hgt.
    rewrite (for_extend_one_each uuid4
               (fun i x id => table_part_chunk table table_idx document_id filename
                                page_idx lang (Z.of_nat (length pieces)) i x id)).
    split; [apply length_imap|].
    intros i c Hc. rewrite list_lookup_imap in Hc.
    destruct (pieces !! i) as [piece|] eqn:Hpiece; [|discriminate].
    cbn in Hc. injection Hc as <-. rewrite Z.add_0_l.
    repeat split; reflexivity.
Qed.

End ChunkerProperties.

Section TableExamples.
Import Chunker Samples.

(** The small table, under the default configuration, is kept whole. *)
Lemma table_kept_whole_witness :
  PyStr.strip (table_content price_table) ≠ ""
  ∧ ∃ c,
      (_chunk_table_preserving TextSplitter.split_text sample_uuid default_config
         price_table 0 "doc-1" "prices.pdf" 0 (Some "en") 0%nat).1 = [c]
      ∧ page_content c = full_table_content 0 price_table
      ∧ metadata c !! "is_complete_table" = Some (VBool true)
      ∧ metadata c !! "quality_score" = Some (VFloat 0.9).
Proof.
  assert (PyStr.strip (table_content price_table) ≠ "") as Hbody
    by (vm_compute; discriminate).
  split; [exact Hbody|].
  apply (table_kept_whole_or_split_into_parts TextSplitter.split_text sample_uuid
           default_config price_table 0 "doc-1" "prices.pdf" 0 (Some "en") 0%nat);
    [exact Hbody|].
  vm_compute. discriminate.
Defined.

(** Claim C4, as stated, fails for a table whose body is blank: its
    assembled content (title line, empty line, empty body) is 17
    characters long, far below [table_max_size], and no chunk is
    produced. *)
Lemma table_with_blank_body_yields_no_chunk :
  PyStr.len (full_table_content 0 blank_table) ≤ table_max_size default_config
  ∧ (_chunk_table_preserving TextSplitter.split_text sample_uuid default_config
       blank_table 0 "doc-1" "prices.pdf" 0 (Some "en") 0%nat).1 = [].
Proof. split; [vm_compute; discriminate | reflexivity]. Qed.

(** Claim C3 at the wide table, default configuration: the table is split
    in four, and the last piece is the single character [d], a chunk that
    is marked incomplete and is shorter than [min_chunk_size]. *)
Theorem split_table_piece_below_minimum :
  let chunks :=
    (chunk_markdown_document TextSplitter.split_text sample_uuid default_config
       "doc-1" "wide.pdf" wide_table_document 0%nat).1 in
  length chunks = 4%nat
  ∧ ∃ c, last chunks = Some c
         ∧ page_content c = "d"
         ∧ metadata c !! "content_type" = Some (VStr "table")
         ∧ metadata c !! "is_complete_table" = Some (VBool false)
         ∧ metadata c !! "table_part" = Some (VStr "Part 4 of 4")
         ∧ PyStr.len (PyStr.strip (page_content c)) < min_chunk_size default_config.
Proof.
  cbv zeta. split; [vm_compute; reflexivity|].
  eexists. split; [vm_compute; reflexivity|].
  repeat split; vm_compute; reflexivity.
Qed.

(** Claim C6 at a page with one titled figure: the figure is chunked, and
    its chunk carries no [quality_score] at all. *)
Theorem figure_chunk_has_no_quality_score :
  ∃ c,
    (chunk_markdown_document TextSplitter.split_text sample_uuid default_config
       "doc-1" "report.pdf" figure_document 0%nat).1 = [c]
    ∧ metadata c !! "content_type" = Some (VStr "figure")
    ∧ metadata c !! "quality_score" = None.
Proof.
  eexists. split; [vm_compute; reflexivity|]. split; vm_compute; reflexivity.
Qed.

(** No figure chunk carries a quality score, whatever the figure. *)
Lemma figure_chunks_carry_no_quality figure figure_idx document_id filename page_idx
    lang chunk_id :
  metadata (figure_chunk figure figure_idx document_id filename page_idx lang chunk_id)
    !! "quality_score" = None.
Proof. reflexivity. Qed.

(** Claim C5, as stated, fails: two runs over the same document and
    configuration that draw different identifiers yield different
    chunks. *)
Lemma chunk_ids_differ_between_runs :
  (chunk_markdown_document TextSplitter.split_text sample_uuid default_config
     "doc-1" "prices.pdf" price_document 0%nat).1
  ≠ (chunk_markdown_document TextSplitter.split_text other_uuid default_config
       "doc-1" "prices.pdf" price_document 0%nat).1.
Proof.
  intros Heq.
  apply (f_equal (fun l => c ← head l; metadata c !! "chunk_id")) in Heq.
  vm_compute in Heq. discriminate.
Qed.

(** A page of fifty characters yields no chunk. *)
Example short_page_yields_no_chunk :
  (chunk_markdown_document TextSplitter.split_text sample_uuid default_config
     "doc-1" "note.pdf"
     {| pages := [page_of (PyStr.repeat "x" 50) [] []] |} 0%nat).1 = [].
Proof. vm_compute. reflexivity. Qed.

End TableExamples.

Section Determinism.
Import Chunker.
Variable recursive_splitter : TextSplitter.t → string → list string.
Variables uuid_a uuid_b : nat → string.
Variable cfg : Config.

Lemma text_content_same content document_id filename page_idx lang content_type
    analysis :
  same_up_to_ids
    (_chunk_text_content_adaptive recursive_splitter uuid_a cfg content document_id
       filename page_idx lang content_type analysis)
    (_chunk_text_content_adaptive recursive_splitter uuid_b cfg content document_id
       filename page_idx lang content_type analysis).
Proof.
  unfold _chunk_text_content_adaptive. apply for_extend_same.
  intros i x na nb. destruct (_ || _); [reflexivity|].
  rewrite !gen_bind_run. reflexivity.
Qed.

Lemma table_same table table_idx document_id filename page_idx lang :
  same_up_to_ids
    (_chunk_table_preserving recursive_splitter uuid_a cfg table table_idx
       document_id filename page_idx lang)
    (_chunk_table_preserving recursive_splitter uuid_b cfg table table_idx
       document_id filename page_idx lang).
Proof.
  unfold _chunk_table_preserving.
  destruct (negb _); [intros ??; reflexivity|].
  destruct (_ <=? _).
  - intros na nb. rewrite !gen_bind_run. reflexivity.
  - apply for_extend_same. intros i x na nb. rewrite !gen_bind_run. reflexivity.
Qed.

Lemma figure_same figure figure_idx document_id filename page_idx lang :
  same_up_to_ids
    (c ← _chunk_figure uuid_a figure figure_idx document_id filename page_idx lang;
     mret (option_list c))
    (c ← _chunk_figure uuid_b figure figure_idx document_id filename page_idx lang;
     mret (option_list c)).
Proof.
  intros na nb. rewrite !gen_bind_run. unfold _chunk_figure.
  destruct (_ || _); [reflexivity|].
  rewrite !gen_bind_run. reflexivity.
Qed.

Lemma page_same page page_idx document_id filename analysis :
  same_up_to_ids
    (_chunk_page recursive_splitter uuid_a cfg page page_idx document_id filename
       analysis)
    (_chunk_page recursive_splitter uuid_b cfg page page_idx document_id filename
       analysis).
Proof.
  intros na nb. unfold _chunk_page.
  rewrite !gen_bind_run. cbn [fst snd mret gen_ret].
  rewrite !map_app. f_equal; [|f_equal].
  - destruct (PyStr.truthy _); [apply text_content_same | reflexivity].
  - apply for_extend_same. intros i [t|]; [apply table_same | intros ??; reflexivity].
  - apply for_extend_same. intros i [f|]; [apply figure_same | intros ??; reflexivity].
Qed.

(** Claim C5, as amended. For a fixed splitter and configuration, two runs
    of the chunker over the same document yield the same sequence of
    chunks, in the same order and with the same content and metadata,
    once the [chunk_id] of each chunk is left out; this holds whatever
    identifiers the two runs draw. *)
Theorem chunks_equal_up_to_chunk_id (document_id filename : string)
    (doc : MarkdownDocument) (na nb : nat) :
  map erase_chunk_id
    (chunk_markdown_document recursive_splitter uuid_a cfg document_id filename
       doc na).1
  = map erase_chunk_id
      (chunk_markdown_document recursive_splitter uuid_b cfg document_id filename
         doc nb).1.
Proof.
  unfold chunk_markdown_document. apply for_extend_same.
  intros i page. apply page_same.
Qed.

End Determinism.

(** ** The hybrid index *)

Section HybridStoreProperties.
Import HybridStore.
Context {S : Type} `{Client S}.
Variable recursive_splitter : TextSplitter.t → string → list string.
Variable uuid4 : nat → string.
Variable now : Z → string.

(** The request of a hybrid search never carries the score threshold, so
    the result does not depend on it. *)
Lemma hybrid_search_ignores_score_threshold (store : S) (query : string)
    (document_id : option string) (chunk_types : option (list string))
    (limit : Z) (t1 t2 : Q) :
  hybrid_search store query document_id chunk_types limit t1
  = hybrid_search store query document_id chunk_types limit t2.
Proof. reflexivity. Qed.

(** Claim C8, as amended. When the upload of a document's chunks raises
    (the client embeds and stores in that call), indexing raises to its
    caller: a plain [Exception] whose text is "Failed to index document: "
    followed by the text of the original failure. *)
Theorem index_document_raises_on_upload_failure (store : S)
    (document_id filename : string) (doc : Chunker.MarkdownDocument) (e : pyexn) :
  let chunked :=
    Chunker.chunk_markdown_document recursive_splitter uuid4 Chunker.default_config
      document_id filename doc 0%nat in
  let batch := (prepare uuid4 now document_id filename 0 chunked.1 chunked.2).1 in
  batch.1 ≠ [] →
  upload_collection store batch.1 batch.2 = Raise e →
  index_document recursive_splitter uuid4 now store document_id filename doc
  = Raise (Exn "Exception" ("Failed to index document: " +:+ exn_message e)).
Proof.
  intros chunked batch Hbatch Hupload. unfold index_document.
  fold chunked.
  destruct (Chunker.pages doc) eqn:Hpages.
  { exfalso. apply Hbatch. subst batch chunked.
    unfold Chunker.chunk_markdown_document. rewrite Hpages. reflexivity. }
  destruct chunked as [chunks drawn] eqn:Hchunked. cbn [fst snd] in *.
  destruct chunks as [|c cs].
  { exfalso. apply Hbatch. reflexivity. }
  fold batch. destruct batch as [documents payloads]. cbn [fst snd] in *.
  destruct documents as [|d ds]; [contradiction|].
  unfold try_except. cbn. rewrite Hupload. reflexivity.
Qed.

End HybridStoreProperties.

Section HybridStoreExamples.
Import HybridStore Samples.

(** Indexing the small table into the unreachable store raises. *)
Lemma index_document_raises_witness :
  index_document TextSplitter.split_text sample_uuid sample_clock unreachable_store
    "doc-1" "prices.pdf" price_document
  = Raise (Exn "Exception" "Failed to index document: connection refused").
Proof.
  apply (index_document_raises_on_upload_failure TextSplitter.split_text sample_uuid
           sample_clock unreachable_store "doc-1" "prices.pdf" price_document
           connection_refused).
  - vm_compute. discriminate.
  - reflexivity.
Defined.

(** Claim C8, as stated, fails: the failure raised is of the base class
    [Exception], and its text does not name the document. *)
Lemma index_failure_is_untyped_without_document_id :
  ∃ e,
    index_document TextSplitter.split_text sample_uuid sample_clock unreachable_store
      "doc-1" "prices.pdf" price_document = Raise e
    ∧ ¬ typed_failure e
    ∧ ¬ carries_document_id e "doc-1".
Proof.
  eexists. split; [vm_compute; reflexivity|]. split.
  - intros Htyped. apply Htyped. reflexivity.
  - unfold carries_document_id. vm_compute. discriminate.
Qed.

(** Claim C1 at a store holding one indexed table: a hybrid search with
    [score_threshold] 1.1 returns the table, whose fused score is 1; the
    dense-only search, which passes the threshold on, returns nothing. *)
Theorem hybrid_search_returns_hit_below_threshold :
  ∃ indexed hit,
    index_document TextSplitter.split_text sample_uuid sample_clock empty_store
      "doc-1" "prices.pdf" price_document = Ok (1, indexed)
    ∧ hybrid_search indexed "prices" None None 10 1.1 = Ok [hit]
    ∧ (score hit < 1.1)%Q
    ∧ search_documents indexed "prices" None None 10 1.1 = Ok [].
Proof.
  eexists. eexists. split; [vm_compute; reflexivity|].
  split; [vm_compute; reflexivity|].
  split; vm_compute; reflexivity.
Qed.

End HybridStoreExamples.

(** ** The backend with reciprocal rank fusion *)

Section RRFStoreProperties.
Import HybridStore RRFStore.

Lemma insert_desc_Forall {A} (key : A → Q) (P : A → Prop) x l :
  P x → Forall P l → Forall P (insert_desc key x l).
Proof.
  intros Hx Hl. induction Hl as [|y l Hy Hl IH]; cbn.
  - by constructor.
  - destruct (Qle_bool _ _); repeat constructor; auto.
Qed.

Lemma insert_desc_sorted {A} (key : A → Q) x l :
  descending (map key l) → descending (map key (insert_desc key x l)).
Proof.
  unfold descending. induction l as [|y l IH]; cbn; intros Hl.
  - repeat constructor.
  - apply StronglySorted_inv in Hl as [Hl Hy].
    destruct (Qle_bool (key y) (key x)) eqn:Hle; cbn.
    + apply Qle_bool_iff in Hle. constructor; [by constructor|].
      constructor; [exact Hle|].
      eapply Forall_impl; [exact Hy|].
      intros q Hq. cbn in Hq. by apply (Qle_trans _ (key y)).
    + constructor; [by apply IH|].
      apply (proj2 (Forall_map key (fun b => (b <= key y)%Q) _)), insert_desc_Forall.
      * apply Qlt_le_weak, Qnot_le_lt. intros Hc.
        apply Qle_bool_iff in Hc. congruence.
      * exact (proj1 (Forall_map key (fun b => (b <= key y)%Q) l) Hy).
Qed.

Lemma sort_desc_sorted {A} (key : A → Q) l : descending (map key (sort_desc key l)).
Proof.
  induction l as [|x l IH]; cbn; [constructor | by apply insert_desc_sorted].
Qed.

Lemma descending_filter {A} (key : A → Q) (keep : A → bool) l :
  descending (map key l) → descending (map key (List.filter keep l)).
Proof.
  unfold descending. induction l as [|x l IH]; cbn; intros Hl; [constructor|].
  apply StronglySorted_inv in Hl as [Hl Hx].
  destruct (keep x); cbn; [|by apply IH].
  constructor; [by apply IH|].
  apply (proj2 (Forall_map key (fun b => (b <= key x)%Q) _)).
  pose proof (proj1 (Forall_map key (fun b => (b <= key x)%Q) l) Hx) as Hx'.
  rewrite Forall_forall in *. intros y Hy. apply Hx'.
  apply list_elem_of_In, filter_In in Hy as [Hy _]. by apply list_elem_of_In.
Qed.

Lemma descending_take (n : nat) scores : descending scores → descending (take n scores).
Proof.
  unfold descending. intros Hs. rewrite <- (take_drop n scores) in Hs.
  by apply StronglySorted_app_1_l in Hs.
Qed.

(** The backend honours its request: at most [limit] points, by descending
    score, none below the threshold when one is given. *)
Lemma run_query_honours_request (store : t) (req : QueryRequest) :
  (length (run_query store req) ≤ Z.to_nat (request_limit req))%nat
  ∧ descending (map point_score (run_query store req))
  ∧ ∀ threshold, request_score_threshold req = Some threshold →
      Forall (fun p => (threshold <= point_score p)%Q) (run_query store req).
Proof.
  unfold run_query. split; [|split].
  - rewrite length_take. lia.
  - rewrite <- firstn_map. apply descending_take, descending_filter.
    destruct (request_query req) as [prefetch|q name];
      rewrite map_map; apply sort_desc_sorted.
  - intros threshold Hth. apply Forall_take. rewrite Hth.
    rewrite Forall_forall. intros p Hp.
    apply list_elem_of_In, filter_In in Hp as [_ Hp]. by apply Qle_bool_iff.
Qed.

Lemma points_to_results_scores search_type points results :
  points_to_results search_type points = Ok results →
  map score results = map point_score points.
Proof.
  revert results. induction points as [|p ps IH]; intros results; cbn.
  - by intros [= <-].
  - unfold point_to_result.
    destruct (getitem _ "content"); [|discriminate]; cbn.
    destruct (getitem _ "document_id"); [|discriminate]; cbn.
    destruct (getitem _ "page_number"); [|discriminate]; cbn.
    destruct (getitem _ "chunk_index"); [|discriminate]; cbn.
    destruct (points_to_results search_type ps) as [rs|]; [|discriminate]; cbn.
    intros [= <-]. cbn. f_equal. by apply IH.
Qed.

(** Over this backend, a hybrid search returns at most [limit] results, by
    descending fused score. *)
Lemma hybrid_search_limit_and_order (store : t) query document_id chunk_types limit
    threshold results :
  hybrid_search store query document_id chunk_types limit threshold = Ok results →
  (length results ≤ Z.to_nat limit)%nat ∧ descending (map score results).
Proof.
  unfold hybrid_search, try_except. cbn [query_points client].
  destruct (query_fails store); [discriminate|]. cbn.
  match goal with
  | |- context [points_to_results ?st (run_query store ?req)] =>
      destruct (points_to_results st (run_query store req)) as [rs|] eqn:Hrs;
      [|discriminate];
      pose proof (run_query_honours_request store req) as (Hlen & Hsorted & _)
  end.
  intros [= <-]. apply points_to_results_scores in Hrs.
  rewrite Hrs. split; [|exact Hsorted].
  rewrite <- (length_map score), Hrs, length_map. exact Hlen.
Qed.

(** The dense-only search passes its threshold on: over this backend no
    result scores below it. *)
Lemma search_documents_respects_threshold (store : t) query document_id chunk_types
    limit threshold results :
  search_documents store query document_id chunk_types limit threshold = Ok results →
  Forall (fun q => (threshold <= q)%Q) (map score results).
Proof.
  unfold search_documents, try_except. cbn [query_points client].
  destruct (query_fails store); [discriminate|]. cbn.
  match goal with
  | |- context [points_to_results ?st (run_query store ?req)] =>
      destruct (points_to_results st (run_query store req)) as [rs|] eqn:Hrs;
      [|discriminate];
      pose proof (run_query_honours_request store req) as (_ & _ & Hth)
  end.
  intros [= <-]. apply points_to_results_scores in Hrs. rewrite Hrs.
  apply (proj2 (Forall_map point_score (fun q => (threshold <= q)%Q) _)).
  by apply Hth.
Qed.

End RRFStoreProperties.

(** ** The retrieval tool and the agent controller *)

Section AgentProperties.
Import Agent.
Context {S : Type} `{HybridStore.Client S}.
Variable float_repr : Q → string.
Variable parse_float : string → option Q.
Variable response_model : nat → bool → list Message → result Message.
Variable grader_model : nat → string → result string.
Variable recursion_limit : nat.

Lemma m_bind_run {A B} (m : @M S A) (k : A → @M S B) (w : @World S) :
  (m ≫= k) w = match m w with
               | (Ok a, w') => k a w'
               | (Raise e, w') => (Raise e, w')
               end.
Proof. reflexivity. Qed.

(** Claim C10. When the hybrid search raises, the retriever returns an
    empty list of documents and leaves its slot of last retrieved
    documents empty, whatever the slot held before. *)
Theorem retriever_absorbs_search_failure (w : @World S) (query : string) (e : pyexn) :
  HybridStore.hybrid_search (store w) query None None 8 0.2 = Raise e →
  (get_relevant_documents float_repr query w).1 = Ok []
  ∧ last_retrieved_docs (get_relevant_documents float_repr query w).2 = [].
Proof.
  intros Hraise.
  assert (get_relevant_documents float_repr query w
          = (Ok [], set_last_retrieved_docs [] (record_event (SearchCall false) w)))
    as ->; [|split; reflexivity].
  unfold get_relevant_documents, try_catch.
  rewrite m_bind_run. unfold search. rewrite Hraise. reflexivity.
Qed.

(** The retriever never raises, and its slot holds what it returned. *)
Lemma retriever_never_raises (w : @World S) (query : string) :
  ∃ docs, (get_relevant_documents float_repr query w).1 = Ok docs
          ∧ last_retrieved_docs (get_relevant_documents float_repr query w).2 = docs.
Proof.
  unfold get_relevant_documents, try_catch.
  rewrite m_bind_run. unfold search.
  destruct (HybridStore.hybrid_search _ _ _ _ _ _) as [rs|e]; cbn.
  - unfold lift. destruct (to_documents float_repr rs) as [docs|e]; cbn; eauto.
  - eauto.
Qed.

(** Claim C9. Grading a non-empty history always yields a route, fixed by
    the grader's binary score and the retrieved context (the content of
    the last tool message): the route is [generate_answer] exactly when
    the score is "yes" and the context is present, and [rewrite_question]
    when the score is anything else and when there is no context. The
    grader is asked only when there is a context. *)
Theorem grade_routes_on_judgment_and_context
    (first : Message) (rest : list Message) (w : @World S) (binary_score : string) :
  let messages := first :: rest in
  let context := last_tool_content messages in
  (context ≠ "" →
   grader_model (calls w) (GRADE_PROMPT (content first) context) = Ok binary_score) →
  ∃ route,
    (_grade_documents grader_model messages w).1 = Ok route
    ∧ (route = generate_answer ↔ binary_score = "yes" ∧ context ≠ "")
    ∧ (route = rewrite_question ↔ binary_score ≠ "yes" ∨ context = "").
Proof.
  intros messages context Hgrader.
  unfold _grade_documents. rewrite m_bind_run. cbn [lift first_content messages].
  fold messages. fold context. unfold PyStr.truthy.
  destruct (String.eqb_spec context "") as [Hctx|Hctx]; cbn [negb].
  - exists rewrite_question. split; [reflexivity|]. split; split.
    + discriminate.
    + intros [_ ?]. contradiction.
    + intros _. by right.
    + reflexivity.
  - rewrite m_bind_run. unfold invoke_grader_model. rewrite (Hgrader Hctx).
    destruct (String.eqb_spec binary_score "yes") as [Hyes|Hno].
    + exists generate_answer. split; [reflexivity|]. split; split.
      * done.
      * reflexivity.
      * discriminate.
      * intros [?|?]; contradiction.
    + exists rewrite_question. split; [reflexivity|]. split; split.
      * discriminate.
      * intros [? _]. contradiction.
      * intros _. by left.
      * reflexivity.
Qed.

(** *** Language-model failures reach the top of [ask_question] *)

Lemma quiet_loud {A} (c : @M S A) : quiet c → loud c.
Proof. intros Hc w Hw. left. by apply Hc. Qed.

Lemma quiet_ret {A} (a : A) : quiet (mret a : @M S A).
Proof. intros w Hw. exact Hw. Qed.

Lemma quiet_lift {A} (r : result A) : quiet (lift (S := S) r).
Proof. intros w Hw. exact Hw. Qed.

Lemma quiet_gets {A} (f : @World S → A) : quiet (gets f).
Proof. intros w Hw. exact Hw. Qed.

Lemma quiet_modify (f : @World S → @World S) :
  (∀ w, trace (f w) = trace w) → quiet (modify f).
Proof. intros Hf w Hw. unfold lm_failed in *. cbn in Hw. by rewrite Hf in Hw. Qed.

Lemma quiet_bind {A B} (m : @M S A) (k : A → @M S B) :
  quiet m → (∀ a, quiet (k a)) → quiet (m ≫= k).
Proof.
  intros Hm Hk w. rewrite m_bind_run. specialize (Hm w).
  destruct (m w) as [[a|e] w']; cbn in *; [|exact Hm].
  intros Hw. apply Hm. by apply (Hk a).
Qed.

Lemma quiet_try_catch {A} (body : @M S A) (handler : pyexn → @M S A) :
  quiet body → (∀ e, quiet (handler e)) → quiet (try_catch body handler).
Proof.
  intros Hb Hh w. unfold try_catch. specialize (Hb w).
  destruct (body w) as [[a|e] w']; cbn in *; [exact Hb|].
  intros Hw. apply Hb. by apply (Hh e).
Qed.

Lemma loud_bind {A B} (m : @M S A) (k : A → @M S B) :
  loud m → (∀ a, loud (k a)) → loud (m ≫= k).
Proof.
  intros Hm Hk w. rewrite m_bind_run. specialize (Hm w).
  destruct (m w) as [[a|e] w']; cbn in *; [|eauto].
  intros Hw. destruct (Hk a w' Hw) as [Hw'|Hraise]; [|by right].
  destruct (Hm Hw') as [?|[e He]]; [by left | discriminate].
Qed.

Lemma quiet_search query : quiet (search (S := S) query).
Proof.
  intros w. unfold search, lm_failed. cbn.
  rewrite elem_of_app, list_elem_of_singleton. intros [?|?]; [done | discriminate].
Qed.

Lemma loud_invoke_response_model with_tools messages :
  loud (invoke_response_model (S := S) response_model with_tools messages).
Proof.
  intros w. unfold invoke_response_model, lm_failed. cbn.
  rewrite elem_of_app, list_elem_of_singleton. intros [?|Hev]; [by left | right].
  destruct (response_model _ _ _); [discriminate | eauto].
Qed.

Lemma loud_invoke_grader_model prompt :
  loud (invoke_grader_model (S := S) grader_model prompt).
Proof.
  intros w. unfold invoke_grader_model, lm_failed. cbn.
  rewrite elem_of_app, list_elem_of_singleton. intros [?|Hev]; [by left | right].
  destruct (grader_model _ _); [discriminate | eauto].
Qed.

Lemma quiet_set_checkpoint thread_id messages :
  quiet (modify (S := S) (set_checkpoint thread_id messages)).
Proof. by apply quiet_modify. Qed.

Lemma quiet_get_relevant_documents query :
  quiet (get_relevant_documents (S := S) float_repr query).
Proof.
  unfold get_relevant_documents.
  apply quiet_try_catch; [|intros e]; repeat (apply quiet_bind; [|intros ?]);
    auto using quiet_search, quiet_lift, quiet_ret, quiet_modify.
Qed.

Lemma quiet_run_tools tcs : quiet (run_tools (S := S) float_repr tcs).
Proof.
  induction tcs as [|call rest IH]; cbn [run_tools]; [apply quiet_ret|].
  apply quiet_bind; [|intros msg; apply quiet_bind; [exact IH | intros; apply quiet_ret]].
  unfold run_tool. destruct (String.eqb _ _); [|apply quiet_ret].
  apply quiet_bind; [|intros; apply quiet_ret].
  unfold retriever_tool. apply quiet_bind; [|intros; apply quiet_ret].
  apply quiet_get_relevant_documents.
Qed.

Lemma quiet_tool_node messages : quiet (tool_node (S := S) float_repr messages).
Proof.
  unfold tool_node. destruct (last messages); [apply quiet_run_tools | apply quiet_ret].
Qed.

Lemma loud_generate_query_or_respond messages :
  loud (_generate_query_or_respond (S := S) response_model messages).
Proof.
  unfold _generate_query_or_respond.
  apply loud_bind; [apply quiet_loud, quiet_gets | intros has].
  apply loud_bind; [apply loud_invoke_response_model | intros; apply quiet_loud, quiet_ret].
Qed.

Lemma loud_grade_documents messages :
  loud (_grade_documents (S := S) grader_model messages).
Proof.
  unfold _grade_documents.
  apply loud_bind; [apply quiet_loud, quiet_lift | intros question].
  destruct (negb _); [apply quiet_loud, quiet_ret|].
  apply loud_bind; [apply loud_invoke_grader_model | intros score].
  destruct (String.eqb _ _); apply quiet_loud, quiet_ret.
Qed.

Lemma loud_rewrite_question messages :
  loud (_rewrite_question (S := S) response_model messages).
Proof.
  unfold _rewrite_question.
  apply loud_bind; [apply quiet_loud, quiet_lift | intros question].
  apply loud_bind; [apply loud_invoke_response_model | intros; apply quiet_loud, quiet_ret].
Qed.

Lemma loud_generate_answer messages :
  loud (_generate_answer (S := S) response_model messages).
Proof.
  unfold _generate_answer.
  apply loud_bind; [apply quiet_loud, quiet_lift | intros question].
  apply loud_bind; [apply loud_invoke_response_model | intros; apply quiet_loud, quiet_ret].
Qed.

Lemma loud_run fuel : ∀ thread_id node messages,
  loud (run (S := S) float_repr response_model grader_model fuel thread_id node messages).
Proof.
  induction fuel as [|fuel IH]; intros thread_id node messages; cbn [run].
  - apply quiet_loud, quiet_lift.
  - destruct node.
    + apply loud_bind; [apply loud_generate_query_or_respond | intros new].
      apply loud_bind; [apply quiet_loud, quiet_set_checkpoint | intros _].
      destruct (tools_condition _); [apply IH | apply quiet_loud, quiet_ret].
    + apply loud_bind; [apply quiet_loud, quiet_tool_node | intros new].
      apply loud_bind; [apply quiet_loud, quiet_set_checkpoint | intros _].
      apply loud_bind; [apply loud_grade_documents | intros [|]; apply IH].
    + apply loud_bind; [apply loud_rewrite_question | intros new].
      apply loud_bind; [apply quiet_loud, quiet_set_checkpoint | intros _].
      apply IH.
    + apply loud_bind; [apply loud_generate_answer | intros new].
      apply loud_bind; [apply quiet_loud, quiet_set_checkpoint | intros _].
      apply quiet_loud, quiet_ret.
Qed.

Lemma loud_graph_invoke question thread_id :
  loud (graph_invoke (S := S) float_repr response_model grader_model recursion_limit
          question thread_id).
Proof.
  unfold graph_invoke.
  apply loud_bind; [apply quiet_loud, quiet_gets | intros saved].
  apply loud_bind; [apply quiet_loud, quiet_set_checkpoint | intros _].
  apply loud_run.
Qed.

(** Claim C2, as amended. Once the graph is built, [ask_question] never
    raises: it returns an answer with its sources. Whenever the run of the
    graph raises, and so whenever a language-model call of the run raises,
    what it returns is the fixed apology with no sources. *)
Theorem ask_question_falls_back (question session_id : string) (w : @World S) :
  graph w = true →
  ∃ response,
    (ask_question float_repr parse_float response_model grader_model recursion_limit
       question session_id w).1 = Ok response
    ∧ ((∃ e, (graph_invoke float_repr response_model grader_model recursion_limit
                question session_id w).1 = Raise e) →
       response = fallback question session_id)
    ∧ (¬ lm_failed w →
       lm_failed (ask_question float_repr parse_float response_model grader_model
                    recursion_limit question session_id w).2 →
       response = fallback question session_id).
Proof.
  intros Hgraph. unfold ask_question.
  rewrite m_bind_run. cbn [gets]. rewrite Hgraph. cbn [negb]. unfold try_catch.
  rewrite m_bind_run.
  pose proof (loud_graph_invoke question session_id w) as Hloud.
  destruct (graph_invoke _ _ _ _ _ _ w) as [[messages|e] w'] eqn:Hrun;
    cbn [fst snd] in *.
  - rewrite m_bind_run. cbn [lift]. destruct (last_message messages) as [final|e].
    + rewrite m_bind_run. cbn.
      eexists. split; [reflexivity|]. split.
      * intros [e He]. discriminate.
      * intros Hw Hw'. destruct (Hloud Hw') as [?|[e He]]; [contradiction | discriminate].
    + cbn. eexists. split; [reflexivity|]. split; reflexivity.
  - cbn. eexists. split; [reflexivity|]. split; reflexivity.
Qed.

(** When the response model raises on every call, every question is
    answered by the apology, whatever the backend does. *)
Lemma ask_question_apologizes_when_model_always_raises
    (question session_id : string) (w : @World S) :
  graph w = true →
  (∀ n with_tools messages, is_ok (response_model n with_tools messages) = false) →
  (ask_question float_repr parse_float response_model grader_model recursion_limit
     question session_id w).1 = Ok (fallback question session_id).
Proof.
  intros Hgraph Hmodel.
  unfold ask_question, try_catch, graph_invoke, mbind, m_bind, gets, modify.
  rewrite Hgraph. cbn [negb].
  destruct recursion_limit as [|fuel]; cbn [run]; [reflexivity|].
  unfold _generate_query_or_respond, mbind, m_bind, gets, invoke_response_model.
  match goal with
  | |- context [response_model ?n ?t ?m] =>
      pose proof (Hmodel n t m) as Hraise; destruct (response_model n t m)
  end; [discriminate | reflexivity].
Qed.

End AgentProperties.

Section AgentExamples.
Import Agent Samples.

(** The retriever over the unreachable store, its slot holding a document
    of an earlier question. *)
Lemma retriever_absorbs_search_failure_witness :
  (get_relevant_documents sample_float_repr "capital of France"
     (world_over unreachable_store)).1 = Ok []
  ∧ last_retrieved_docs
      (get_relevant_documents sample_float_repr "capital of France"
         (world_over unreachable_store)).2 = [].
Proof.
  apply (retriever_absorbs_search_failure sample_float_repr
           (world_over unreachable_store) "capital of France"
           (Exn "Exception" "Failed to perform hybrid search: connection refused")).
  reflexivity.
Defined.

(** Grading the retrieved table with a grader that answers "yes": the
    route is [generate_answer]. *)
Lemma grade_routes_witness :
  last_tool_content (asked :: retrieved) ≠ ""
  ∧ (_grade_documents agreeing_grader_model (asked :: retrieved)
       (world_over empty_store)).1 = Ok generate_answer.
Proof.
  assert (last_tool_content (asked :: retrieved) ≠ "") as Hcontext
    by (vm_compute; discriminate).
  split; [exact Hcontext|].
  destruct (grade_routes_on_judgment_and_context agreeing_grader_model asked retrieved
              (world_over empty_store) "yes" (fun _ => eq_refl))
    as (route & Hroute & Hanswer & _).
  rewrite Hroute. f_equal. apply Hanswer. split; [reflexivity | exact Hcontext].
Defined.

(** A question asked while the language model raises on every call: the
    first call of the run raises, and the answer is the apology. *)
Lemma ask_question_falls_back_witness :
  graph (world_over empty_store) = true
  ∧ ¬ lm_failed (world_over empty_store)
  ∧ lm_failed
      (ask_question sample_float_repr sample_parse_float failing_response_model
         failing_grader_model recursion_limit "What does the item cost?" "session-1"
         (world_over empty_store)).2
  ∧ (ask_question sample_float_repr sample_parse_float failing_response_model
       failing_grader_model recursion_limit "What does the item cost?" "session-1"
       (world_over empty_store)).1
    = Ok (fallback "What does the item cost?" "session-1").
Proof.
  assert (graph (world_over empty_store) = true) as Hgraph by reflexivity.
  assert (¬ lm_failed (world_over empty_store)) as Hclean
    by (unfold lm_failed; cbn; apply not_elem_of_nil).
  assert (lm_failed
            (ask_question sample_float_repr sample_parse_float failing_response_model
               failing_grader_model recursion_limit "What does the item cost?"
               "session-1" (world_over empty_store)).2) as Hfailed
    by (unfold lm_failed; vm_compute; apply list_elem_of_here).
  destruct (ask_question_falls_back sample_float_repr sample_parse_float
              failing_response_model failing_grader_model recursion_limit
              "What does the item cost?" "session-1" (world_over empty_store) Hgraph)
    as (response & Hresponse & _ & Hlm).
  split; [exact Hgraph|]. split; [exact Hclean|]. split; [exact Hfailed|].
  rewrite Hresponse. f_equal. by apply Hlm.
Defined.

(** Claim C2, as stated, fails when it is the retrieval backend that
    raises: the retriever absorbs the failure, the empty retrieval is
    graded as not relevant, the question is rewritten, and the model then
    answers. The call returns that answer, not the apology. *)
Lemma ask_question_answers_after_search_failure :
  let outcome :=
    ask_question sample_float_repr sample_parse_float sample_response_model
      failing_grader_model recursion_limit "What is the capital of France?"
      "session-1" (world_over unreachable_store) in
  search_failed outcome.2
  ∧ ∃ response,
      outcome.1 = Ok response
      ∧ answer response = "Paris."
      ∧ answer response ≠ fallback_answer.
Proof.
  cbv zeta. split.
  - unfold search_failed.
    assert (trace
              (ask_question sample_float_repr sample_parse_float sample_response_model
                 failing_grader_model recursion_limit "What is the capital of France?"
                 "session-1" (world_over unreachable_store)).2
            = [LanguageModelCall true; SearchCall false; LanguageModelCall true;
               LanguageModelCall true]) as -> by (vm_compute; reflexivity).
    set_solver.
  - eexists. split; [vm_compute; reflexivity|].
    split; [reflexivity | vm_compute; discriminate].
Qed.

(** The same question over a model that always raises. *)
Lemma ask_question_apologizes_witness :
  (ask_question sample_float_repr sample_parse_float failing_response_model
     failing_grader_model recursion_limit "What does the item cost?" "session-1"
     (world_over unreachable_store)).1
  = Ok (fallback "What does the item cost?" "session-1").
Proof.
  apply (ask_question_apologizes_when_model_always_raises sample_float_repr
           sample_parse_float failing_response_model failing_grader_model
           recursion_limit "What does the item cost?" "session-1"
           (world_over unreachable_store)).
  - reflexivity.
  - intros n with_tools messages. reflexivity.
Defined.

End AgentExamples.

(** ** White space and trimming *)

Section Trimming.
Import Notions.

Lemma all_space_app (a b : string) :
  all_space (a +:+ b) = all_space a && all_space b.
Proof.
  induction a as [|c a IH]; [reflexivity|].
  change (String c a +:+ b) with (String c (a +:+ b)). cbn [all_space].
  rewrite IH. by rewrite andb_assoc.
Qed.

Lemma all_space_rev_app (s acc : string) :
  all_space (String.rev_app s acc) = all_space s && all_space acc.
Proof.
  revert acc. induction s as [|c s IH]; intros acc; [reflexivity|].
  cbn [String.rev_app all_space]. rewrite IH. cbn [all_space].
  destruct (PyStr.isspace c), (all_space s); reflexivity.
Qed.

Lemma all_space_rev (s : string) : all_space (String.rev s) = all_space s.
Proof. unfold String.rev. rewrite all_space_rev_app. cbn. apply andb_true_r. Qed.

Lemma all_space_lstrip (s : string) : all_space (PyStr.lstrip s) = all_space s.
Proof.
  induction s as [|c s IH]; cbn; [reflexivity|].
  destruct (PyStr.isspace c) eqn:Hc; cbn; [exact IH | by rewrite Hc].
Qed.

Lemma lstrip_empty (s : string) : PyStr.lstrip s = "" ↔ all_space s = true.
Proof.
  induction s as [|c s IH]; cbn; [done|].
  destruct (PyStr.isspace c); cbn; [exact IH | split; discriminate].
Qed.

Lemma rev_app_empty (s acc : string) : String.rev_app s acc = "" ↔ s = "" ∧ acc = "".
Proof.
  revert acc. induction s as [|c s IH]; intros acc; cbn [String.rev_app].
  - split; [intros ->; by split | by intros [_ ?]].
  - rewrite IH. split; [intros [_ ?]; discriminate | intros [? _]; discriminate].
Qed.

Lemma rev_empty (s : string) : String.rev s = "" ↔ s = "".
Proof. unfold String.rev. rewrite rev_app_empty. split; [by intros [? _] | by split]. Qed.

(** The trimmed string is empty exactly when the string is white space
    throughout. *)
Lemma strip_empty (s : string) : PyStr.strip s = "" ↔ all_space s = true.
Proof.
  unfold PyStr.strip, PyStr.rstrip.
  rewrite rev_empty, lstrip_empty, all_space_rev, all_space_lstrip. done.
Qed.

Lemma strip_nonempty (s : string) : PyStr.strip s ≠ "" ↔ all_space s = false.
Proof. rewrite strip_empty. by destruct (all_space s). Qed.

Lemma all_space_strip (s : string) : all_space (PyStr.strip s) = all_space s.
Proof.
  unfold PyStr.strip, PyStr.rstrip.
  by rewrite all_space_rev, all_space_lstrip, all_space_rev, all_space_lstrip.
Qed.

End Trimming.

(** ** Figures, identifiers and provenance of chunks *)

Section ChunkerCoverage.
Import Chunker Notions.
Variable recursive_splitter : TextSplitter.t → string → list string.
Variable uuid4 : nat → string.
Variable cfg : Config.

Lemma truthy_opt_false (o : option string) : truthy_opt o = false → or_empty o = "".
Proof.
  unfold truthy_opt, PyStr.truthy. intros Ht.
  destruct (String.eqb_spec (or_empty o) ""); [assumption | discriminate].
Qed.

Lemma truthy_opt_true (o : option string) : truthy_opt o = true → or_empty o ≠ "".
Proof.
  unfold truthy_opt, PyStr.truthy. intros Ht.
  destruct (String.eqb_spec (or_empty o) ""); [discriminate | assumption].
Qed.

Lemma full_figure_content_all_space (figure : MarkdownFigure) :
  all_space (full_figure_content figure)
  = negb (truthy_opt (figure_title figure) || truthy_opt (figure_caption figure)
          || truthy_opt (figure_content figure)).
Proof.
  unfold full_figure_content. rewrite !all_space_app.
  destruct (truthy_opt (figure_title figure)),
    (truthy_opt (figure_caption figure)), (truthy_opt (figure_content figure));
    rewrite ?all_space_app; reflexivity.
Qed.

(** A figure is passed over only when it has neither title nor caption
    nor description; the chunk made of a figure is never blank. *)
Theorem figure_chunked_unless_undescribed (figure : MarkdownFigure) (figure_idx : Z)
    (document_id filename : string) (page_idx : Z) (lang : option string) (n : nat) :
  match (_chunk_figure uuid4 figure figure_idx document_id filename page_idx lang n).1 with
  | Some c =>
      c = figure_chunk figure figure_idx document_id filename page_idx lang (uuid4 n)
      ∧ nonblank c
  | None =>
      or_empty (figure_title figure) = ""
      ∧ or_empty (figure_caption figure) = ""
      ∧ or_empty (figure_content figure) = ""
  end.
Proof.
  unfold _chunk_figure.
  pose proof (full_figure_content_all_space figure) as Hblank.
  destruct (truthy_opt (figure_title figure) || truthy_opt (figure_caption figure)
            || truthy_opt (figure_content figure)) eqn:Hany; cbn [negb] in Hblank.
  - apply strip_nonempty in Hblank.
    assert (full_figure_content figure ≠ "") as Hfull.
    { intros Heq. rewrite Heq in Hblank. by apply Hblank. }
    rewrite (truthy_true _ Hfull), (truthy_true _ Hblank). cbn [negb orb].
    rewrite gen_bind_run. cbn [fresh_uuid fst snd mret gen_ret].
    split; [reflexivity | exact Hblank].
  - apply strip_empty in Hblank. rewrite Hblank.
    replace (negb (PyStr.truthy (full_figure_content figure)) || negb (PyStr.truthy ""))
      with true by (by destruct (negb _)).
    cbn [mret gen_ret fst].
    apply orb_false_iff in Hany as [Hany Hcontent].
    apply orb_false_iff in Hany as [Htitle Hcaption].
    auto using truthy_opt_false.
Qed.

(** *** Identifiers *)

Lemma draws_nothing : draws_in_order uuid4 (mret []).
Proof. intros n. split; [reflexivity | cbn; lia]. Qed.

Lemma draws_one (f : string → Document) :
  (∀ id, chunk_id_of (f id) = Some id) →
  draws_in_order uuid4 (id ← fresh_uuid uuid4; mret [f id]).
Proof.
  intros Hf n. rewrite gen_bind_run. cbn [fresh_uuid fst snd mret gen_ret].
  cbn. rewrite Hf. split; [reflexivity | lia].
Qed.

Lemma draws_append (a : Gen (list Document)) (k : list Document → Gen (list Document))
    (b : Gen (list Document)) :
  draws_in_order uuid4 a → draws_in_order uuid4 b →
  (∀ xs n, (k xs n).1 = xs ++ (b n).1 ∧ (k xs n).2 = (b n).2) →
  draws_in_order uuid4 (a ≫= k).
Proof.
  intros Ha Hb Hk n. rewrite gen_bind_run.
  destruct (Hk (a n).1 (a n).2) as [-> ->].
  destruct (Ha n) as [Ha1 Ha2]. destruct (Hb (a n).2) as [Hb1 Hb2].
  rewrite map_app, length_app, seq_app, map_app, Ha1, Hb1, Hb2, Ha2.
  split; [reflexivity | lia].
Qed.

Lemma draws_for_extend {A} (body : Z → A → Gen (list Document)) :
  (∀ i x, draws_in_order uuid4 (body i x)) →
  ∀ l start, draws_in_order uuid4 (for_extend body start l).
Proof.
  intros Hbody l. induction l as [|x xs IH]; intros start; cbn [for_extend].
  - apply draws_nothing.
  - apply (draws_append _ _ (for_extend body (start + 1) xs)); [apply Hbody | apply IH |].
    intros ys n. rewrite gen_bind_run. split; reflexivity.
Qed.

Lemma draws_text content document_id filename page_idx lang content_type analysis :
  draws_in_order uuid4
    (_chunk_text_content_adaptive recursive_splitter uuid4 cfg content document_id
       filename page_idx lang content_type analysis).
Proof.
  unfold _chunk_text_content_adaptive. apply draws_for_extend. intros i x.
  destruct (_ || _); [apply draws_nothing|].
  apply (draws_one (fun id => text_chunk x document_id filename page_idx lang
                                content_type analysis _ i id)).
  reflexivity.
Qed.

Lemma draws_table table table_idx document_id filename page_idx lang :
  draws_in_order uuid4
    (_chunk_table_preserving recursive_splitter uuid4 cfg table table_idx document_id
       filename page_idx lang).
Proof.
  unfold _chunk_table_preserving.
  destruct (negb _); [apply draws_nothing|].
  destruct (_ <=? _).
  - apply (draws_one (fun id => whole_table_chunk table table_idx document_id filename
                                  page_idx lang id)).
    reflexivity.
  - apply draws_for_extend. intros i x.
    apply (draws_one (fun id => table_part_chunk table table_idx document_id filename
                                  page_idx lang _ i x id)).
    reflexivity.
Qed.

Lemma draws_figure figure figure_idx document_id filename page_idx lang :
  draws_in_order uuid4
    (figure_chunk ← _chunk_figure uuid4 figure figure_idx document_id filename
                      page_idx lang;
     mret (option_list figure_chunk)).
Proof.
  unfold _chunk_figure. destruct (_ || _).
  - intros n. rewrite gen_bind_run. cbn [fst snd mret gen_ret option_list].
    split; [reflexivity | cbn; lia].
  - intros n. rewrite !gen_bind_run. cbn [fresh_uuid fst snd mret gen_ret option_list].
    split; [reflexivity | cbn; lia].
Qed.

Lemma draws_three (a b c : Gen (list Document)) :
  draws_in_order uuid4 a → draws_in_order uuid4 b → draws_in_order uuid4 c →
  draws_in_order uuid4 (xs ← a; ys ← b; zs ← c; mret (xs ++ ys ++ zs)).
Proof.
  intros Ha Hb Hc.
  apply (draws_append _ _ (ys ← b; zs ← c; mret (ys ++ zs))); [exact Ha | |].
  - apply (draws_append _ _ (zs ← c; mret zs)); [exact Hb | |].
    + apply (draws_append _ _ (mret [])); [exact Hc | apply draws_nothing |].
      intros zs n. cbn [mret gen_ret fst snd]. by rewrite app_nil_r.
    + intros ys n. rewrite !gen_bind_run. split; reflexivity.
  - intros xs n. rewrite !gen_bind_run. split; reflexivity.
Qed.

Lemma draws_page page page_idx document_id filename analysis :
  draws_in_order uuid4
    (_chunk_page recursive_splitter uuid4 cfg page page_idx document_id filename
       analysis).
Proof.
  unfold _chunk_page. apply draws_three.
  - destruct (PyStr.truthy _); [apply draws_text | apply draws_nothing].
  - apply draws_for_extend. intros i [table|]; [apply draws_table | apply draws_nothing].
  - apply draws_for_extend. intros i [figure|]; [apply draws_figure | apply draws_nothing].
Qed.

(** A run of the chunker draws exactly one identifier per chunk it
    returns, and the chunks carry the identifiers in the order drawn. *)
Theorem chunk_ids_are_the_draws (document_id filename : string)
    (markdown_doc_data : MarkdownDocument) :
  draws_in_order uuid4
    (chunk_markdown_document recursive_splitter uuid4 cfg document_id filename
       markdown_doc_data).
Proof.
  unfold chunk_markdown_document. apply draws_for_extend.
  intros i page. apply draws_page.
Qed.

(** When no identifier is drawn twice, no two chunks of a document share
    an identifier. *)
Theorem chunk_ids_are_distinct (document_id filename : string)
    (markdown_doc_data : MarkdownDocument) (n : nat) :
  (∀ a b, uuid4 a = uuid4 b → a = b) →
  NoDup (map chunk_id_of
           (chunk_markdown_document recursive_splitter uuid4 cfg document_id filename
              markdown_doc_data n).1).
Proof.
  intros Hinj.
  assert (draws_in_order uuid4
            (chunk_markdown_document recursive_splitter uuid4 cfg document_id filename
               markdown_doc_data)) as Hdraws.
  { unfold chunk_markdown_document. apply draws_for_extend.
    intros i page. apply draws_page. }
  destruct (Hdraws n) as [-> _].
  apply NoDup_fmap_2; [|apply NoDup_seq].
  intros a b Heq. injection Heq as Heq. by apply Hinj.
Qed.

End ChunkerCoverage.

(** *** Provenance and order *)

Section ChunkerProvenance.
Import Chunker Notions.
Variable recursive_splitter : TextSplitter.t → string → list string.
Variable uuid4 : nat → string.
Variable cfg : Config.

Lemma for_extend_lookup_Forall {A B} (body : Z → A → Gen (list B)) :
  ∀ (l : list A) (P : nat → A → B → Prop) start n,
    (∀ (k : nat) x m, l !! k = Some x →
       Forall (P k x) (body (start + Z.of_nat k) x m).1) →
    Forall (fun b => ∃ (k : nat) x, l !! k = Some x ∧ P k x b)
      (for_extend body start l n).1.
Proof.
  induction l as [|x xs IH]; intros P start n Hbody.
  - constructor.
  - rewrite for_extend_cons. apply Forall_app. split.
    + specialize (Hbody 0%nat x n eq_refl). rewrite Z.add_0_r in Hbody.
      eapply Forall_impl; [exact Hbody|]. intros b Hb. by exists 0%nat, x.
    + eapply Forall_impl; [apply (IH (fun k => P (S k)))|].
      * intros k y m Hy. specialize (Hbody (S k) y m Hy).
        by replace (start + Z.of_nat (S k)) with (start + 1 + Z.of_nat k) in Hbody by lia.
      * intros b (k & y & Hy & Hb). by exists (S k), y.
Qed.

Lemma for_extend_sorted {A B} (R : B → B → Prop) (tag : B → option Z)
    (body : Z → A → Gen (list B)) :
  (∀ a b i j, tag a = Some i → tag b = Some j → i ≤ j → R a b) →
  (∀ i x n, Forall (fun b => tag b = Some i) (body i x n).1) →
  ∀ l start n,
    StronglySorted R (for_extend body start l n).1
    ∧ Forall (fun b => ∃ j, tag b = Some j ∧ start ≤ j) (for_extend body start l n).1.
Proof.
  intros HR Hbody l. induction l as [|x xs IH]; intros start n.
  - split; constructor.
  - rewrite for_extend_cons.
    destruct (IH (start + 1) (body start x n).2) as [Hsorted Hlater].
    pose proof (Hbody start x n) as Hhere. split.
    + apply StronglySorted_app_2; [| |exact Hsorted].
      * intros a b Ha Hb.
        rewrite Forall_forall in Hhere. rewrite Forall_forall in Hlater.
        destruct (Hlater b Hb) as (j & Hj & Hle).
        apply (HR a b start j); [by apply Hhere | exact Hj | lia].
      * clear Hsorted Hlater. induction Hhere as [|a l Ha Hl IHl]; constructor; [exact IHl|].
        eapply Forall_impl; [exact Hl|]. intros b Hb. by apply (HR a b start start).
    + apply Forall_app. split.
      * eapply Forall_impl; [exact Hhere|]. intros b Hb. exists start. split; [exact Hb | lia].
      * eapply Forall_impl; [exact Hlater|]. intros b (j & Hj & Hle).
        exists j. split; [exact Hj | lia].
Qed.

Lemma three_run {B} (a b c : Gen (list B)) (n : nat) :
  ((xs ← a; ys ← b; zs ← c; mret (xs ++ ys ++ zs)) n).1
  = (a n).1 ++ (b (a n).2).1 ++ (c (b (a n).2).2).1.
Proof. rewrite !gen_bind_run. reflexivity. Qed.

Lemma page_chunks_record_origin page page_idx document_id filename analysis n :
  Forall (records_origin document_id filename page_idx (language page))
    (_chunk_page recursive_splitter uuid4 cfg page page_idx document_id filename
       analysis n).1.
Proof.
  unfold _chunk_page. rewrite three_run. rewrite !Forall_app. split; [|split].
  - destruct (PyStr.truthy _); [|constructor].
    unfold _chunk_text_content_adaptive. apply for_extend_Forall.
    intros i x k. destruct (_ || _); [constructor|].
    rewrite gen_bind_run. cbn [fresh_uuid fst snd mret gen_ret].
    constructor; [|constructor].
    repeat split; try reflexivity. exists "text". split; [reflexivity | set_solver].
  - apply for_extend_Forall. intros i [table|] k; [|constructor].
    unfold _chunk_table_preserving.
    destruct (negb _); [constructor|]. destruct (_ <=? _).
    + rewrite gen_bind_run. cbn [fresh_uuid fst snd mret gen_ret].
      constructor; [|constructor].
      repeat split; try reflexivity. exists "table". split; [reflexivity | set_solver].
    + apply for_extend_Forall. intros j x m.
      rewrite gen_bind_run. cbn [fresh_uuid fst snd mret gen_ret].
      constructor; [|constructor].
      repeat split; try reflexivity. exists "table". split; [reflexivity | set_solver].
  - apply for_extend_Forall. intros i [figure|] k; [|constructor].
    rewrite gen_bind_run. unfold _chunk_figure.
    destruct (_ || _); [constructor|].
    rewrite gen_bind_run. cbn [fresh_uuid fst snd mret gen_ret option_list].
    constructor; [|constructor].
    repeat split; try reflexivity. exists "figure". split; [reflexivity | set_solver].
Qed.

(** Every chunk of a document comes from one of its pages and records
    where it comes from: the document, the file, that page and the
    language of that page, its content type and the length of its
    content. *)
Theorem chunks_record_their_origin (document_id filename : string)
    (markdown_doc_data : MarkdownDocument) (n : nat) :
  Forall (fun c => ∃ (k : nat) page,
            pages markdown_doc_data !! k = Some page
            ∧ records_origin document_id filename (Z.of_nat k) (language page) c)
    (chunk_markdown_document recursive_splitter uuid4 cfg document_id filename
       markdown_doc_data n).1.
Proof.
  unfold chunk_markdown_document.
  apply (for_extend_lookup_Forall _ _
           (fun k page => records_origin document_id filename (Z.of_nat k) (language page))).
  intros k page m _. rewrite Z.add_0_l. apply page_chunks_record_origin.
Qed.

(** The chunks of a document come in the order of its pages. *)
Theorem chunks_follow_page_order (document_id filename : string)
    (markdown_doc_data : MarkdownDocument) (n : nat) :
  StronglySorted page_order
    (chunk_markdown_document recursive_splitter uuid4 cfg document_id filename
       markdown_doc_data n).1.
Proof.
  unfold chunk_markdown_document.
  apply (for_extend_sorted page_order page_of_chunk).
  - intros a b i j Ha Hb Hle. by exists i, j.
  - intros i page m. eapply Forall_impl; [apply page_chunks_record_origin|].
    intros c (_ & _ & Hpage & _). unfold page_of_chunk. by rewrite Hpage.
Qed.

End ChunkerProvenance.

(** ** Headings and the choice of the splitter *)

Section Headings.
Import Chunker Notions.

Lemma lstrip_char_length (ch : ascii) (s : string) :
  (String.length (PyStr.lstrip_char ch s) ≤ String.length s)%nat.
Proof.
  induction s as [|c s IH]; cbn; [lia|].
  destruct (Ascii.eqb c ch); cbn; lia.
Qed.

Lemma startswith_char (s : string) (c : ascii) :
  PyStr.startswith s (String c "") = true → ∃ rest, s = String c rest.
Proof.
  unfold PyStr.startswith. destruct s as [|a s]; [discriminate|].
  change (String.prefix (String c "") (String a s))
    with (if ascii_dec c a then String.prefix "" s else false).
  destruct (ascii_dec c a) as [<-|]; [eauto | discriminate].
Qed.

Lemma heading_of_line_Some (line_idx : Z) (line : string) (h : Heading) :
  heading_of_line line_idx line = Some h →
  1 ≤ level h ∧ text h ≠ "" ∧ line_index h = line_idx
  ∧ PyStr.startswith (PyStr.strip line) "#" = true.
Proof.
  unfold heading_of_line. destruct (PyStr.startswith _ _) eqn:Hstart; [|discriminate].
  destruct (PyStr.truthy _) eqn:Htext; [|discriminate].
  intros [= <-]. cbn [level text line_index].
  split; [|split; [|split; reflexivity]].
  - apply startswith_char in Hstart as [rest ->].
    cbn [PyStr.lstrip_char]. rewrite Ascii.eqb_refl.
    pose proof (lstrip_char_length "#" rest). unfold PyStr.len. cbn [String.length]. lia.
  - unfold PyStr.truthy in Htext. intros Heq. rewrite Heq in Htext. discriminate.
Qed.

Lemma headings_from_spec (lines : list string) :
  ∀ start,
    Forall (fun h => 1 ≤ level h ∧ text h ≠ ""
                     ∧ ∃ (k : nat) line,
                         lines !! k = Some line ∧ line_index h = start + Z.of_nat k
                         ∧ PyStr.startswith (PyStr.strip line) "#" = true)
      (headings_from start lines)
    ∧ StronglySorted (fun a b => line_index a < line_index b) (headings_from start lines).
Proof.
  induction lines as [|line rest IH]; intros start; cbn [headings_from].
  - split; constructor.
  - destruct (IH (start + 1)) as [Hrest Hsorted].
    assert (Forall (fun h => 1 ≤ level h ∧ text h ≠ ""
                     ∧ ∃ (k : nat) line0,
                         (line :: rest) !! k = Some line0
                         ∧ line_index h = start + Z.of_nat k
                         ∧ PyStr.startswith (PyStr.strip line0) "#" = true)
              (headings_from (start + 1) rest)) as Hrest'.
    { eapply Forall_impl; [exact Hrest|].
      intros h (Hlevel & Htext & k & line0 & Hk & Hidx & Hstart).
      split; [exact Hlevel|]. split; [exact Htext|].
      exists (S k), line0. split; [exact Hk|]. split; [lia | exact Hstart]. }
    destruct (heading_of_line start line) as [h|] eqn:Hh; cbn [option_list app].
    + apply heading_of_line_Some in Hh as (Hlevel & Htext & Hidx & Hstart).
      split.
      * constructor; [|exact Hrest'].
        split; [exact Hlevel|]. split; [exact Htext|].
        exists 0%nat, line. split; [reflexivity|]. split; [lia | exact Hstart].
      * constructor; [exact Hsorted|].
        eapply Forall_impl; [exact Hrest|].
        intros h' (_ & _ & k & _ & _ & Hidx' & _). lia.
    + split; [exact Hrest' | exact Hsorted].
Qed.

(** Every heading found in a page has a level of at least one and a text
    that is not empty, stands on a line that starts with [#] once trimmed,
    and the headings come in the order of their lines. *)
Theorem headings_are_well_formed (content : string) :
  Forall (fun h => 1 ≤ level h ∧ text h ≠ ""
                   ∧ ∃ (k : nat) line,
                       PyStr.split content nl !! k = Some line
                       ∧ line_index h = Z.of_nat k
                       ∧ PyStr.startswith (PyStr.strip line) "#" = true)
    (_extract_headings content)
  ∧ StronglySorted (fun a b => line_index a < line_index b) (_extract_headings content).
Proof.
  unfold _extract_headings.
  destruct (headings_from_spec (PyStr.split content nl) 0) as [Hall Hsorted].
  split; [|exact Hsorted].
  eapply Forall_impl; [exact Hall|].
  intros h (Hlevel & Htext & k & line & Hk & Hidx & Hstart).
  split; [exact Hlevel|]. split; [exact Htext|].
  exists k, line. split; [exact Hk|]. split; [lia | exact Hstart].
Qed.

(** The heading given to a chunk is absent only when the page has no
    heading; otherwise it is the text of a heading of the page: of one
    that occurs in the chunk when there is one, of the first heading of
    the page when none occurs. *)
Theorem relevant_heading_is_a_heading (chunk_text : string) (headings : list Heading) :
  match _find_relevant_heading chunk_text headings with
  | None => headings = []
  | Some s =>
      ∃ h, h ∈ headings ∧ text h = s
           ∧ (occurs_in chunk_text h = true
              ∨ (head headings = Some h
                 ∧ Forall (fun h' => occurs_in chunk_text h' = false) headings))
  end.
Proof.
  unfold _find_relevant_heading. destruct headings as [|first rest]; [reflexivity|].
  fold (occurs_in chunk_text).
  destruct (List.find _ _) as [h|] eqn:Hfind.
  - apply find_some in Hfind as [Hin Hocc].
    exists h. split; [|split; [reflexivity | by left]].
    apply list_elem_of_In. by apply in_rev.
  - exists first. split; [apply list_elem_of_here|]. split; [reflexivity|]. right.
    split; [reflexivity|]. apply Forall_forall. intros h Hh.
    apply (find_none _ _ Hfind). apply in_rev. rewrite rev_involutive.
    by apply list_elem_of_In.
Qed.

End Headings.

Section SplitterChoice.
Import Chunker.
Variable recursive_splitter : TextSplitter.t → string → list string.
Variable uuid4 : nat → string.
Variable cfg : Config.

Lemma Qgtb_weaken (a b c : Q) : (c <= b)%Q → Qgtb a b = true → Qgtb a c = true.
Proof.
  unfold Qgtb. intros Hcb Hab.
  destruct (Qle_bool a c) eqn:Hac; [|reflexivity].
  apply Qle_bool_iff in Hac.
  assert (Qle_bool a b = true) as Hle by (apply Qle_bool_iff; by apply (Qle_trans _ c)).
  rewrite Hle in Hab. discriminate.
Qed.

Lemma high_complexity_chooses_technical (markdown_doc_data : MarkdownDocument) :
  _get_complexity_level (_analyze_document_complexity markdown_doc_data) = "high" →
  choose_splitter recursive_splitter cfg (_analyze_document_complexity markdown_doc_data)
  = technical_splitter recursive_splitter.
Proof.
  unfold _get_complexity_level, choose_splitter.
  set (analysis := _analyze_document_complexity markdown_doc_data).
  assert (is_structured_document analysis
          = Qgtb (structured_content_ratio analysis) 0.5 || (heading_count analysis >? 20))
    as -> by reflexivity.
  destruct (Qgtb (structured_content_ratio analysis) 0.5); [reflexivity|].
  cbn [orb]. destruct (Qgtb (avg_words_per_page analysis) 1000) eqn:Hwords.
  - intros _. rewrite (Qgtb_weaken _ 1000 800); [|discriminate | exact Hwords].
    by rewrite orb_true_r.
  - destruct (_ || _); discriminate.
Qed.

(** In a document whose complexity is recorded as high, the text of a
    page is split with the splitter for technical documents: every text
    chunk is one of the pieces that splitter makes of the text, with the
    position of the piece as its chunk index. Tables are another matter:
    a table too long to keep whole goes through the base splitter in
    every document. *)
Theorem high_complexity_uses_technical_splitter (markdown_doc_data : MarkdownDocument)
    (content document_id filename : string) (page_idx : Z) (lang : option string)
    (content_type : string) (n : nat) :
  _get_complexity_level (_analyze_document_complexity markdown_doc_data) = "high" →
  Forall (fun c =>
            ∃ i : nat,
              technical_splitter recursive_splitter content !! i = Some (page_content c)
              ∧ metadata c !! "chunk_index" = Some (VInt (Z.of_nat i))
              ∧ metadata c !! "document_complexity" = Some (VStr "high"))
    (_chunk_text_content_adaptive recursive_splitter uuid4 cfg content document_id
       filename page_idx lang content_type
       (_analyze_document_complexity markdown_doc_data) n).1.
Proof.
  intros Hhigh. unfold _chunk_text_content_adaptive.
  rewrite (high_complexity_chooses_technical _ Hhigh).
  eapply Forall_impl.
  - apply (for_extend_lookup_Forall _ _
             (fun (i : nat) piece c =>
                page_content c = piece
                ∧ metadata c !! "chunk_index" = Some (VInt (Z.of_nat i))
                ∧ metadata c !! "document_complexity" = Some (VStr "high"))).
    intros i piece m _. destruct (_ || _); [constructor|].
    rewrite gen_bind_run. cbn [fresh_uuid fst snd mret gen_ret].
    constructor; [|constructor].
    split; [reflexivity|]. split; [by rewrite Z.add_0_l|].
    transitivity (Some (VStr (_get_complexity_level
                                (_analyze_document_complexity markdown_doc_data))));
      [reflexivity | by rewrite Hhigh].
  - intros c (i & piece & Hpiece & Hcontent & Hindex & Hlevel).
    exists i. rewrite Hcontent. by repeat split.
Qed.

End SplitterChoice.

(** ** What the index stores and what a search returns *)

Section IndexCoverage.
Import HybridStore Notions.
Context {S : Type} `{Client S}.
Variable recursive_splitter : TextSplitter.t → string → list string.
Variable uuid4 : nat → string.
Variable now : Z → string.

Lemma payload_holds_metadata (document_id filename indexed_at text fallback_id : string)
    (chunk : Chunker.Document) :
  Chunker.metadata chunk
  ⊆ payload_of_chunk document_id filename indexed_at text fallback_id chunk.
Proof.
  apply map_subseteq_spec. intros key v Hkey. unfold payload_of_chunk.
  apply lookup_union_Some_raw. unfold without_keys.
  destruct (decide (key ∈ ["chunk_id"; "document_id"; "filename"; "content_type";
                          "page_number"; "chunk_index"; "language"; "heading_context"]))
    as [Hin|Hout].
  - right. split.
    + apply map_lookup_filter_None. right. intros v' _ Hnot. by apply Hnot.
    + repeat (apply elem_of_cons in Hin as [->|Hin]);
        [.. | by apply elem_of_nil in Hin];
        match goal with
        | |- Chunker.dict _ !! ?k = _ =>
            transitivity (Some (default v (Chunker.metadata chunk !! k)));
              [rewrite Hkey; reflexivity | by rewrite Hkey]
        end.
  - left. apply map_lookup_filter_Some. split; [exact Hkey | exact Hout].
Qed.

Lemma payload_computed_entry (document_id filename indexed_at text fallback_id
    key : string) (chunk : Chunker.Document) (v : pyval) :
  key ∉ ["chunk_id"; "document_id"; "filename"; "content_type"; "page_number";
         "chunk_index"; "language"; "heading_context"] →
  Chunker.dict [
    ("chunk_id", default (VStr fallback_id) (Chunker.metadata chunk !! "chunk_id"));
    ("document_id", default (VStr document_id) (Chunker.metadata chunk !! "document_id"));
    ("filename", default (VStr filename) (Chunker.metadata chunk !! "filename"));
    ("content", VStr text);
    ("content_type", default (VStr "text") (Chunker.metadata chunk !! "content_type"));
    ("page_number", default (VInt 0) (Chunker.metadata chunk !! "page_number"));
    ("chunk_index", default (VInt 0) (Chunker.metadata chunk !! "chunk_index"));
    ("chunk_size", VInt (PyStr.len text));
    ("language", default (VStr "en") (Chunker.metadata chunk !! "language"));
    ("heading_context", default VNone (Chunker.metadata chunk !! "heading_context"));
    ("indexed_at", VStr indexed_at) ] !! key = Some v →
  payload_of_chunk document_id filename indexed_at text fallback_id chunk !! key
  = Some (default v (Chunker.metadata chunk !! key)).
Proof.
  intros Hout Hcomputed. unfold payload_of_chunk, without_keys.
  destruct (Chunker.metadata chunk !! key) as [v'|] eqn:Hkey; cbn [default].
  - apply lookup_union_Some_raw. left.
    apply map_lookup_filter_Some. split; [exact Hkey | exact Hout].
  - rewrite lookup_union_r by (apply map_lookup_filter_None; by left).
    exact Hcomputed.
Qed.

(** What the metadata of a chunk holds is stored unchanged in the payload
    of its point. The three entries the index computes itself, the trimmed
    content, its length and the time of indexing, give way to an entry of
    the metadata under the same key. *)
Theorem payload_keeps_chunk_metadata (document_id filename indexed_at text
    fallback_id : string) (chunk : Chunker.Document) :
  let payload :=
    payload_of_chunk document_id filename indexed_at text fallback_id chunk in
  Chunker.metadata chunk ⊆ payload
  ∧ payload !! "content"
    = Some (default (VStr text) (Chunker.metadata chunk !! "content"))
  ∧ payload !! "chunk_size"
    = Some (default (VInt (PyStr.len text)) (Chunker.metadata chunk !! "chunk_size"))
  ∧ payload !! "indexed_at"
    = Some (default (VStr indexed_at) (Chunker.metadata chunk !! "indexed_at")).
Proof.
  cbv zeta. split; [apply payload_holds_metadata|].
  repeat split;
    (apply payload_computed_entry;
     [intros Hin; repeat (apply elem_of_cons in Hin as [Hin|Hin]; [discriminate Hin|]);
      by apply elem_of_nil in Hin
     | reflexivity]).
Qed.

Lemma prepare_indexed_as (document_id filename : string) :
  ∀ chunks chunk_idx n,
    Forall3 indexed_as (with_content chunks)
      (prepare uuid4 now document_id filename chunk_idx chunks n).1.1
      (prepare uuid4 now document_id filename chunk_idx chunks n).1.2.
Proof.
  induction chunks as [|chunk rest IH]; intros chunk_idx n.
  - constructor.
  - cbn [prepare with_content List.filter].
    destruct (PyStr.truthy (PyStr.strip (Chunker.page_content chunk))); cbn [negb].
    + rewrite gen_bind_run. cbn [Chunker.fresh_uuid fst snd]. rewrite gen_bind_run.
      specialize (IH (chunk_idx + 1) (Datatypes.S n)).
      destruct (prepare uuid4 now document_id filename (chunk_idx + 1) rest
                  (Datatypes.S n)) as [[documents payloads] n'].
      cbn [fst snd mret gen_ret] in *.
      constructor; [|exact IH].
      split; [reflexivity|]. split; [apply payload_holds_metadata|].
      intros Hfree.
      rewrite (payload_computed_entry _ _ _ _ _ "content" _
                 (VStr (PyStr.strip (Chunker.page_content chunk)))).
      * by rewrite Hfree.
      * intros Hin.
        repeat (apply elem_of_cons in Hin as [Hin|Hin]; [discriminate Hin|]).
        by apply elem_of_nil in Hin.
      * reflexivity.
    + apply IH.
Qed.

(** Indexing a document uploads one vector entry and one payload for each
    of its chunks that has content, in one call, and returns their number;
    nothing is uploaded when there is none. The only failure is that of
    the upload, raised again as a plain [Exception] whose text starts with
    "Failed to index document: ". *)
Theorem index_document_outcome (store : S) (document_id filename : string)
    (markdown_doc_data : Chunker.MarkdownDocument) :
  let kept :=
    with_content
      (Chunker.chunk_markdown_document recursive_splitter uuid4 Chunker.default_config
         document_id filename markdown_doc_data 0%nat).1 in
  match index_document recursive_splitter uuid4 now store document_id filename
          markdown_doc_data with
  | Ok (count, store') =>
      count = Z.of_nat (length kept)
      ∧ match kept with
        | [] => store' = store
        | _ =>
            ∃ documents payloads,
              Forall3 indexed_as kept documents payloads
              ∧ upload_collection store documents payloads = Ok store'
        end
  | Raise e =>
      exn_class e = "Exception"
      ∧ ∃ documents payloads e0,
          Forall3 indexed_as kept documents payloads
          ∧ upload_collection store documents payloads = Raise e0
          ∧ exn_message e = "Failed to index document: " +:+ exn_message e0
  end.
Proof.
  cbv zeta. unfold index_document, Chunker.chunk_markdown_document.
  destruct (Chunker.pages markdown_doc_data) as [|page pages]; [by split|].
  set (run := for_extend _ 0 (page :: pages) 0%nat).
  destruct run as [chunks drawn] eqn:Hrun. cbn [fst].
  destruct chunks as [|chunk chunks]; [by split|].
  pose proof (prepare_indexed_as document_id filename (chunk :: chunks) 0 drawn)
    as Hprepared.
  destruct (prepare uuid4 now document_id filename 0 (chunk :: chunks) drawn).1
    as [documents payloads].
  cbn [fst snd] in Hprepared.
  remember (with_content (chunk :: chunks)) as kept eqn:Hkept.
  destruct Hprepared as [|kept_chunk document payload kept documents payloads Hfirst Hrest].
  - cbn [try_except]. by split.
  - destruct (upload_collection store (document :: documents) (payload :: payloads))
      as [store'|e0] eqn:Hupload; cbn [try_except mbind result_bind].
    + split; [cbn [length]; by rewrite (Forall3_length_lm _ _ _ _ Hrest)|].
      exists (document :: documents), (payload :: payloads).
      split; [by constructor | exact Hupload].
    + split; [reflexivity|].
      exists (document :: documents), (payload :: payloads), e0.
      split; [by constructor|]. by split.
Qed.

Lemma has_required_keys_iff (p : ScoredPoint) :
  has_required_keys p
  ↔ is_Some (point_payload p !! "content")
    ∧ is_Some (point_payload p !! "document_id")
    ∧ is_Some (point_payload p !! "page_number")
    ∧ is_Some (point_payload p !! "chunk_index").
Proof.
  unfold has_required_keys. rewrite !Forall_cons, Forall_nil. tauto.
Qed.

Lemma points_to_results_outcome (kind : string) (points : list ScoredPoint) :
  match points_to_results kind points with
  | Ok results =>
      Forall has_required_keys points
      ∧ Forall2 result_of_point results points
      ∧ Forall (fun r => search_type r = kind) results
  | Raise e => Exists (fun p => ¬ has_required_keys p) points
  end.
Proof.
  induction points as [|point rest IH]; cbn [points_to_results].
  - split; [constructor|]. split; constructor.
  - unfold point_to_result, getitem.
    destruct (point_payload point !! "content") as [content|] eqn:Hcontent;
      [|left; rewrite has_required_keys_iff, Hcontent;
        intros (Hsome & _); by destruct Hsome].
    destruct (point_payload point !! "document_id") as [document|] eqn:Hdocument;
      [|left; rewrite has_required_keys_iff, Hdocument;
        intros (_ & Hsome & _); by destruct Hsome].
    destruct (point_payload point !! "page_number") as [page|] eqn:Hpage;
      [|left; rewrite has_required_keys_iff, Hpage;
        intros (_ & _ & Hsome & _); by destruct Hsome].
    destruct (point_payload point !! "chunk_index") as [index|] eqn:Hindex;
      [|left; rewrite has_required_keys_iff, Hindex;
        intros (_ & _ & _ & Hsome); by destruct Hsome].
    cbn [mbind result_bind mret result_ret].
    destruct (points_to_results kind rest) as [results|e]; cbn [mbind result_bind].
    + destruct IH as (Hkeys & Hresults & Hkind).
      split; [|split].
      * constructor; [|exact Hkeys].
        rewrite has_required_keys_iff, Hcontent, Hdocument, Hpage, Hindex.
        repeat split; eauto.
      * constructor; [|exact Hresults]. by repeat split.
      * constructor; [reflexivity | exact Hkind].
    + by right.
Qed.

(** A hybrid search sends one request to the client, the fusion of a
    dense and a sparse prefetch of twice the limit, and returns one result
    per point of the reply, in the order of the reply, with the
    identifier, the score and the payload entries of the point. It fails
    when the client fails and when a single point of the reply lacks one
    of the four payload entries read without a default; every failure is
    a plain [Exception]. *)
Theorem hybrid_search_outcome (store : S) (query : string) (document_id : option string)
    (chunk_types : option (list string)) (limit : Z) (score_threshold : Q) :
  match hybrid_search store query document_id chunk_types limit score_threshold with
  | Ok results =>
      ∃ points,
        query_points store (hybrid_request query document_id limit) = Ok points
        ∧ Forall has_required_keys points
        ∧ Forall2 result_of_point results points
        ∧ Forall (fun r => search_type r = "official_hybrid_rrf") results
  | Raise e =>
      exn_class e = "Exception"
      ∧ ((∃ e0, query_points store (hybrid_request query document_id limit) = Raise e0
                ∧ exn_message e = "Failed to perform hybrid search: " +:+ exn_message e0)
         ∨ ∃ points,
             query_points store (hybrid_request query document_id limit) = Ok points
             ∧ Exists (fun p => ¬ has_required_keys p) points)
  end.
Proof.
  unfold hybrid_search. fold (hybrid_request query document_id limit).
  destruct (query_points store (hybrid_request query document_id limit))
    as [points|e0]; cbn [mbind result_bind try_except].
  - pose proof (points_to_results_outcome "official_hybrid_rrf" points) as Hpoints.
    destruct (points_to_results "official_hybrid_rrf" points) as [results|e];
      cbn [try_except].
    + by exists points.
    + split; [reflexivity|]. right. by exists points.
  - split; [reflexivity|]. left. by exists e0.
Qed.

End IndexCoverage.

(** ** Statistics, set-up, search and deletion around the index *)

Section AdminCoverage.
Import Agent AgentSetup StoreAdmin DocumentProcessor.
Context {S : Type} `{HybridStore.Client S} `{Collection S}.
Context {D : Type} `{Database D}.
Variable float_repr : Q → string.
Variable parse_float : string → option Q.
Variable response_model : nat → bool → list Message → result Message.
Variable grader_model : nat → string → result string.
Variable recursion_limit : nat.

(** The statistics of the collection hold an error or a number of points,
    never both: the error of the client when it raises, and of the missing
    dense vector when the collection has none. *)
Theorem collection_stats_report_or_error (store : S) :
  let stats := get_collection_stats store in
  match get_collection store with
  | Ok info =>
      match vectors info !! "dense" with
      | Some params =>
          stats !! "error" = None
          ∧ stats !! "total_points"
            = Some (match points_count info with Some n => VInt n | None => VNone end)
      | None =>
          stats !! "error" = Some (VStr "'dense'") ∧ stats !! "total_points" = None
      end
  | Raise e =>
      stats !! "error" = Some (VStr (exn_message e)) ∧ stats !! "total_points" = None
  end.
Proof.
  cbv zeta. unfold get_collection_stats.
  destruct (get_collection store) as [info|e]; cbn [mbind result_bind]; [|by split].
  unfold stats_of. destruct (vectors info !! "dense"); by split.
Qed.

Lemma check_processed_documents_run (w : @World S) :
  let found :=
    match get_collection (store w) with
    | Ok info =>
        match points_count info, vectors info !! "dense" with
        | Some n, Some _ => 0 <? n
        | _, _ => false
        end
    | Raise _ => false
    end in
  _check_processed_documents w = (Ok found, set_has_documents found w).
Proof.
  cbv zeta. unfold _check_processed_documents, try_catch, mbind, m_bind, gets.
  unfold get_collection_stats.
  destruct (get_collection (store w)) as [info|e]; cbn [mbind result_bind];
    [|reflexivity].
  unfold stats_of.
  destruct (vectors info !! "dense") as [params|], (points_count info) as [n|];
    reflexivity.
Qed.

Lemma setup_run (w : @World S) :
  let found :=
    match get_collection (store w) with
    | Ok info =>
        match points_count info, vectors info !! "dense" with
        | Some n, Some _ => 0 <? n
        | _, _ => false
        end
    | Raise _ => false
    end in
  setup_for_all_documents w
  = (Ok found, set_graph (set_has_documents found (set_has_documents found w))).
Proof.
  cbv zeta. unfold setup_for_all_documents, try_catch.
  unfold mbind at 1. unfold m_bind. rewrite check_processed_documents_run.
  reflexivity.
Qed.

(** Setting the controller up never raises and always builds the graph.
    It returns, and records as [has_documents], whether the collection
    reports a positive number of points; a store that cannot be read
    counts as one without documents. The store, the saved histories and
    the slot of the retriever are left as they were. *)
Theorem setup_builds_graph_and_counts_documents (w : @World S) :
  let found :=
    match get_collection (store w) with
    | Ok info =>
        match points_count info, vectors info !! "dense" with
        | Some n, Some _ => 0 <? n
        | _, _ => false
        end
    | Raise _ => false
    end in
  let after := setup_for_all_documents w in
  after.1 = Ok found
  ∧ graph after.2 = true
  ∧ has_documents after.2 = found
  ∧ store after.2 = store w
  ∧ checkpointer after.2 = checkpointer w
  ∧ last_retrieved_docs after.2 = last_retrieved_docs w
  ∧ calls after.2 = calls w.
Proof.
  cbv zeta. rewrite setup_run. repeat split; reflexivity.
Qed.

(** A question asked before the set-up raises a [ValueError] and changes
    nothing; a question asked after the set-up never raises, whatever the
    store and the language model do. *)
Theorem ask_question_raises_only_before_setup (question session_id : string)
    (w : @World S) :
  (if graph w
   then is_ok (ask_question float_repr parse_float response_model grader_model
                 recursion_limit question session_id w).1 = true
   else ask_question float_repr parse_float response_model grader_model
          recursion_limit question session_id w
        = (Raise (Exn "ValueError"
                    "RAG system not initialized. Call setup_for_all_documents() first."),
           w))
  ∧ is_ok (ask_question float_repr parse_float response_model grader_model
             recursion_limit question session_id (setup_for_all_documents w).2).1
    = true.
Proof.
  assert (∀ w' : @World S, graph w' = true →
            is_ok (ask_question float_repr parse_float response_model grader_model
                     recursion_limit question session_id w').1 = true) as Hbuilt.
  { intros w' Hgraph. unfold ask_question.
    rewrite m_bind_run. cbn [gets]. rewrite Hgraph. cbn [negb]. unfold try_catch.
    rewrite m_bind_run.
    destruct (graph_invoke _ _ _ _ _ _ w') as [[messages|e] w'']; [|reflexivity].
    rewrite m_bind_run. cbn [lift].
    destruct (last_message messages); [rewrite m_bind_run|]; reflexivity. }
  split.
  - destruct (graph w) eqn:Hgraph; [by apply Hbuilt|].
    unfold ask_question. rewrite m_bind_run. cbn [gets]. by rewrite Hgraph.
  - apply Hbuilt. rewrite setup_run. reflexivity.
Qed.

End AdminCoverage.

Section SearchAndDeletion.
Import DocumentProcessor.
Context {S : Type} `{HybridStore.Client S} `{StoreAdmin.Collection S}.
Context {D : Type} `{Database D}.

(** The flags [include_tables] and [include_figures] have no effect on
    what a search of the document processor returns, and in hybrid mode
    the score threshold has none either. *)
Theorem search_ignores_flags_and_hybrid_threshold (store : S) (query : string)
    (document_id : option string) (limit : Z)
    (include_tables include_figures use_hybrid_search : bool)
    (score_threshold : option Q) :
  search_document_content store query document_id limit include_tables include_figures
    use_hybrid_search score_threshold
  = search_document_content store query document_id limit true true use_hybrid_search
      (if use_hybrid_search then None else score_threshold).
Proof. destruct use_hybrid_search; reflexivity. Qed.

(** A search of the document processor returns what the search it tries
    first returns. When that search raises, the handler raises a
    [NameError] on its first line, the reference to the unbound name
    [logger]: the dense search at the threshold 0.7 that follows is never
    run, whatever it would return. *)
Theorem search_fallback_is_never_reached (store : S) (query : string)
    (document_id : option string) (limit : Z)
    (include_tables include_figures use_hybrid_search : bool)
    (score_threshold : option Q) :
  let chunk_types := Some (chunk_types_of include_tables include_figures) in
  let threshold :=
    default (if use_hybrid_search then 0.3%Q else 0.7%Q) score_threshold in
  let first_try :=
    if use_hybrid_search
    then HybridStore.hybrid_search store query document_id chunk_types limit threshold
    else HybridStore.search_documents store query document_id chunk_types limit
           threshold in
  match search_document_content store query document_id limit include_tables
          include_figures use_hybrid_search score_threshold with
  | Ok results => first_try = Ok results
  | Raise e =>
      Agent.is_ok first_try = false
      ∧ e = Exn "NameError" "name 'logger' is not defined"
  end.
Proof.
  cbv zeta. unfold search_document_content.
  destruct use_hybrid_search.
  - replace (match score_threshold with Some t => t | None => 0.3%Q end)
      with (default 0.3%Q score_threshold) by (by destruct score_threshold).
    destruct (HybridStore.hybrid_search _ _ _ _ _ _) as [results|e]; cbn [try_except];
      [reflexivity | by split].
  - replace (match score_threshold with Some t => t | None => 0.7%Q end)
      with (default 0.7%Q score_threshold) by (by destruct score_threshold).
    destruct (HybridStore.search_documents _ _ _ _ _ _) as [results|e];
      cbn [try_except]; [reflexivity | by split].
Qed.

(** When the vector store fails to delete the points of a document, the
    row of the document is deleted all the same: the call reports failure,
    and the points stay behind without their document. *)
Theorem row_is_deleted_though_vector_deletion_fails (store : S) (db db' : D)
    (document_id : string) (e : pyexn) :
  StoreAdmin.delete_points store document_id = Raise e →
  delete_row db document_id = Ok db' →
  delete_document_content store db document_id = (false, store, db').
Proof.
  intros Hpoints Hrow. unfold delete_document_content, StoreAdmin.delete_document.
  by rewrite Hpoints, Hrow.
Qed.

End SearchAndDeletion.

(** ** Cost, memory and sources of a question *)

Section AgentCoverage.
Import Agent Notions.
Context {S : Type} `{HybridStore.Client S}.
Variable float_repr : Q → string.
Variable parse_float : string → option Q.
Variable response_model : nat → bool → list Message → result Message.
Variable grader_model : nat → string → result string.
Variable recursion_limit : nat.

(** *** Language-model calls *)

Lemma spends_weaken {A} (a b : nat) (c : @M S A) :
  (a ≤ b)%nat → spends a c → spends b c.
Proof. intros Hab Hc w. specialize (Hc w). lia. Qed.

Lemma spends_ret {A} (budget : nat) (a : A) : spends budget (mret a : @M S A).
Proof. intros w. cbn. lia. Qed.

Lemma spends_lift {A} (budget : nat) (r : result A) : spends budget (lift (S := S) r).
Proof. intros w. cbn. lia. Qed.

Lemma spends_gets {A} (f : @World S → A) : spends 0 (gets f).
Proof. intros w. cbn. lia. Qed.

Lemma spends_modify (f : @World S → @World S) :
  (∀ w, calls (f w) = calls w) → spends 0 (modify f).
Proof. intros Hf w. cbn. rewrite Hf. lia. Qed.

Lemma spends_bind {A B} (a b : nat) (m : @M S A) (k : A → @M S B) :
  spends a m → (∀ x, spends b (k x)) → spends (a + b) (m ≫= k).
Proof.
  intros Hm Hk w. rewrite m_bind_run. specialize (Hm w).
  destruct (m w) as [[x|e] w']; cbn [snd] in *; [|lia].
  specialize (Hk x w'). lia.
Qed.

Lemma spends_try_catch {A} (budget : nat) (body : @M S A) (handler : pyexn → @M S A) :
  spends budget body → (∀ e, spends 0 (handler e)) → spends budget (try_catch body handler).
Proof.
  intros Hb Hh w. unfold try_catch. specialize (Hb w).
  destruct (body w) as [[x|e] w']; cbn [snd] in *; [lia|].
  specialize (Hh e w'). lia.
Qed.

Lemma spends_search query : spends 0 (search (S := S) query).
Proof. intros w. cbn. lia. Qed.

Lemma spends_invoke_response_model with_tools messages :
  spends 1 (invoke_response_model (S := S) response_model with_tools messages).
Proof. intros w. cbn. lia. Qed.

Lemma spends_invoke_grader_model prompt :
  spends 1 (invoke_grader_model (S := S) grader_model prompt).
Proof. intros w. cbn. lia. Qed.

Lemma spends_set_checkpoint thread_id messages :
  spends 0 (modify (S := S) (set_checkpoint thread_id messages)).
Proof. by apply spends_modify. Qed.

Lemma spends_get_relevant_documents query :
  spends 0 (get_relevant_documents (S := S) float_repr query).
Proof.
  unfold get_relevant_documents. apply spends_try_catch; [|intros e].
  - apply (spends_bind 0 0); [apply spends_search | intros rs].
    apply (spends_bind 0 0); [apply spends_lift | intros docs].
    apply (spends_bind 0 0); [by apply spends_modify | intros; apply spends_ret].
  - apply (spends_bind 0 0); [by apply spends_modify | intros; apply spends_ret].
Qed.

Lemma spends_run_tools tcs : spends 0 (run_tools (S := S) float_repr tcs).
Proof.
  induction tcs as [|call rest IH]; cbn [run_tools]; [apply spends_ret|].
  apply (spends_bind 0 0); [|intros msg].
  - unfold run_tool. destruct (String.eqb _ _); [|apply spends_ret].
    apply (spends_bind 0 0); [|intros; apply spends_ret].
    unfold retriever_tool.
    apply (spends_bind 0 0);
      [apply spends_get_relevant_documents | intros; apply spends_ret].
  - apply (spends_bind 0 0); [exact IH | intros; apply spends_ret].
Qed.

Lemma spends_tool_node messages : spends 0 (tool_node (S := S) float_repr messages).
Proof.
  unfold tool_node. destruct (last messages); [apply spends_run_tools | apply spends_ret].
Qed.

Lemma spends_generate_query_or_respond messages :
  spends 1 (_generate_query_or_respond (S := S) response_model messages).
Proof.
  unfold _generate_query_or_respond.
  apply (spends_bind 0 1); [apply spends_gets | intros has].
  apply (spends_bind 1 0);
    [apply spends_invoke_response_model | intros; apply spends_ret].
Qed.

Lemma spends_grade_documents messages :
  spends 1 (_grade_documents (S := S) grader_model messages).
Proof.
  unfold _grade_documents.
  apply (spends_bind 0 1); [apply spends_lift | intros question].
  destruct (negb _); [apply spends_ret|].
  apply (spends_bind 1 0); [apply spends_invoke_grader_model | intros score].
  destruct (String.eqb _ _); apply spends_ret.
Qed.

Lemma spends_rewrite_question messages :
  spends 1 (_rewrite_question (S := S) response_model messages).
Proof.
  unfold _rewrite_question.
  apply (spends_bind 0 1); [apply spends_lift | intros question].
  apply (spends_bind 1 0);
    [apply spends_invoke_response_model | intros; apply spends_ret].
Qed.

Lemma spends_generate_answer messages :
  spends 1 (_generate_answer (S := S) response_model messages).
Proof.
  unfold _generate_answer.
  apply (spends_bind 0 1); [apply spends_lift | intros question].
  apply (spends_bind 1 0);
    [apply spends_invoke_response_model | intros; apply spends_ret].
Qed.

Lemma spends_run fuel : ∀ thread_id node messages,
  spends fuel
    (run (S := S) float_repr response_model grader_model fuel thread_id node messages).
Proof.
  induction fuel as [|fuel IH]; intros thread_id node messages; cbn [run].
  - apply spends_lift.
  - destruct node.
    + apply (spends_bind 1 fuel);
        [apply spends_generate_query_or_respond | intros new].
      apply (spends_bind 0 fuel); [apply spends_set_checkpoint | intros _].
      destruct (tools_condition _); [apply IH | apply spends_ret].
    + apply (spends_bind 0 (Datatypes.S fuel)); [apply spends_tool_node | intros new].
      apply (spends_bind 0 (Datatypes.S fuel)); [apply spends_set_checkpoint | intros _].
      apply (spends_bind 1 fuel); [apply spends_grade_documents | intros [|]; apply IH].
    + apply (spends_bind 1 fuel); [apply spends_rewrite_question | intros new].
      apply (spends_bind 0 fuel); [apply spends_set_checkpoint | intros _].
      apply IH.
    + apply (spends_bind 1 fuel); [apply spends_generate_answer | intros new].
      apply (spends_bind 0 fuel); [apply spends_set_checkpoint | intros _].
      apply spends_ret.
Qed.

(** A question costs at most as many language-model calls as the graph
    engine allows steps, whatever the model and the store answer. *)
Theorem ask_question_spends_at_most_the_recursion_limit (question session_id : string) :
  spends recursion_limit
    (ask_question (S := S) float_repr parse_float response_model grader_model
       recursion_limit question session_id).
Proof.
  unfold ask_question.
  apply (spends_bind 0 recursion_limit); [apply spends_gets | intros built].
  destruct (negb built); [apply spends_lift|].
  apply spends_try_catch; [|intros e; apply spends_ret].
  apply (spends_weaken (recursion_limit + 0)); [lia|].
  apply (spends_bind recursion_limit 0); [|intros messages].
  - unfold graph_invoke.
    apply (spends_bind 0 recursion_limit); [apply spends_gets | intros saved].
    apply (spends_bind 0 recursion_limit); [apply spends_set_checkpoint | intros _].
    apply spends_run.
  - apply (spends_bind 0 0); [apply spends_lift | intros final].
    apply (spends_bind 0 0); [|intros; apply spends_ret].
    unfold _extract_sources_from_tool_messages.
    apply (spends_bind 0 0); [apply spends_gets | intros; apply spends_ret].
Qed.

(** *** Saved histories *)

Lemma keeps_ret {A} (a : A) : keeps_checkpoints (mret a : @M S A).
Proof. intros w. reflexivity. Qed.

Lemma keeps_lift {A} (r : result A) : keeps_checkpoints (lift (S := S) r).
Proof. intros w. reflexivity. Qed.

Lemma keeps_gets {A} (f : @World S → A) : keeps_checkpoints (gets f).
Proof. intros w. reflexivity. Qed.

Lemma keeps_modify (f : @World S → @World S) :
  (∀ w, checkpointer (f w) = checkpointer w) → keeps_checkpoints (modify f).
Proof. intros Hf w. apply Hf. Qed.

Lemma keeps_bind {A B} (m : @M S A) (k : A → @M S B) :
  keeps_checkpoints m → (∀ x, keeps_checkpoints (k x)) → keeps_checkpoints (m ≫= k).
Proof.
  intros Hm Hk w. rewrite m_bind_run. specialize (Hm w).
  destruct (m w) as [[x|e] w']; cbn [snd] in *; [|exact Hm].
  by rewrite (Hk x w').
Qed.

Lemma keeps_try_catch {A} (body : @M S A) (handler : pyexn → @M S A) :
  keeps_checkpoints body → (∀ e, keeps_checkpoints (handler e)) →
  keeps_checkpoints (try_catch body handler).
Proof.
  intros Hb Hh w. unfold try_catch. specialize (Hb w).
  destruct (body w) as [[x|e] w']; cbn [snd] in *; [exact Hb|].
  by rewrite (Hh e w').
Qed.

Lemma keeps_invoke_response_model with_tools messages :
  keeps_checkpoints (invoke_response_model (S := S) response_model with_tools messages).
Proof. intros w. reflexivity. Qed.

Lemma keeps_invoke_grader_model prompt :
  keeps_checkpoints (invoke_grader_model (S := S) grader_model prompt).
Proof. intros w. reflexivity. Qed.

Lemma keeps_get_relevant_documents query :
  keeps_checkpoints (get_relevant_documents (S := S) float_repr query).
Proof.
  unfold get_relevant_documents. apply keeps_try_catch; [|intros e].
  - apply keeps_bind; [intros w; reflexivity | intros rs].
    apply keeps_bind; [apply keeps_lift | intros docs].
    apply keeps_bind; [by apply keeps_modify | intros; apply keeps_ret].
  - apply keeps_bind; [by apply keeps_modify | intros; apply keeps_ret].
Qed.

Lemma keeps_run_tools tcs : keeps_checkpoints (run_tools (S := S) float_repr tcs).
Proof.
  induction tcs as [|call rest IH]; cbn [run_tools]; [apply keeps_ret|].
  apply keeps_bind; [|intros msg].
  - unfold run_tool. destruct (String.eqb _ _); [|apply keeps_ret].
    apply keeps_bind; [|intros; apply keeps_ret].
    unfold retriever_tool.
    apply keeps_bind; [apply keeps_get_relevant_documents | intros; apply keeps_ret].
  - apply keeps_bind; [exact IH | intros; apply keeps_ret].
Qed.

Lemma keeps_tool_node messages :
  keeps_checkpoints (tool_node (S := S) float_repr messages).
Proof.
  unfold tool_node. destruct (last messages); [apply keeps_run_tools | apply keeps_ret].
Qed.

Lemma keeps_generate_query_or_respond messages :
  keeps_checkpoints (_generate_query_or_respond (S := S) response_model messages).
Proof.
  unfold _generate_query_or_respond.
  apply keeps_bind; [apply keeps_gets | intros has].
  apply keeps_bind; [apply keeps_invoke_response_model | intros; apply keeps_ret].
Qed.

Lemma keeps_grade_documents messages :
  keeps_checkpoints (_grade_documents (S := S) grader_model messages).
Proof.
  unfold _grade_documents.
  apply keeps_bind; [apply keeps_lift | intros question].
  destruct (negb _); [apply keeps_ret|].
  apply keeps_bind; [apply keeps_invoke_grader_model | intros score].
  destruct (String.eqb _ _); apply keeps_ret.
Qed.

Lemma keeps_rewrite_question messages :
  keeps_checkpoints (_rewrite_question (S := S) response_model messages).
Proof.
  unfold _rewrite_question.
  apply keeps_bind; [apply keeps_lift | intros question].
  apply keeps_bind; [apply keeps_invoke_response_model | intros; apply keeps_ret].
Qed.

Lemma keeps_generate_answer messages :
  keeps_checkpoints (_generate_answer (S := S) response_model messages).
Proof.
  unfold _generate_answer.
  apply keeps_bind; [apply keeps_lift | intros question].
  apply keeps_bind; [apply keeps_invoke_response_model | intros; apply keeps_ret].
Qed.

Lemma runs_on_stop thread_id messages (r : result (list Message)) :
  (∀ out, r = Ok out → out = messages) → runs_on thread_id messages (lift (S := S) r).
Proof.
  intros Hr w Hw. split; [|reflexivity].
  exists messages. split; [exact Hw|]. split; [reflexivity | exact Hr].
Qed.

Lemma runs_on_bind {A} thread_id messages (m : @M S A) (k : A → @M S (list Message)) :
  keeps_checkpoints m → (∀ x, runs_on thread_id messages (k x)) →
  runs_on thread_id messages (m ≫= k).
Proof.
  intros Hm Hk w Hw. rewrite m_bind_run. specialize (Hm w).
  destruct (m w) as [[x|e] w']; cbn [fst snd] in *.
  - rewrite <- Hm in Hw. destruct (Hk x w' Hw) as [Hthread Hothers].
    split; [exact Hthread|]. intros other Hother. by rewrite (Hothers other Hother), Hm.
  - split.
    + exists messages. rewrite Hm. split; [exact Hw|]. split; [reflexivity | discriminate].
    + intros other _. by rewrite Hm.
Qed.

Lemma runs_on_checkpoint thread_id messages new (c : @M S (list Message)) :
  runs_on thread_id (messages ++ new) c →
  runs_on thread_id messages (modify (set_checkpoint thread_id (messages ++ new)) ≫= λ _, c).
Proof.
  intros Hc w Hw. rewrite m_bind_run. cbn [modify].
  destruct (Hc (set_checkpoint thread_id (messages ++ new) w)) as [Hthread Hothers].
  { cbn. apply lookup_insert_eq. }
  destruct Hthread as (history & Hhistory & Hprefix & Hout). split.
  - exists history. split; [exact Hhistory|]. split; [|exact Hout].
    transitivity (messages ++ new); [by apply prefix_app_r | exact Hprefix].
  - intros other Hother. rewrite (Hothers other Hother). cbn.
    by apply lookup_insert_ne.
Qed.

Lemma runs_on_run fuel : ∀ thread_id node messages,
  runs_on thread_id messages
    (run (S := S) float_repr response_model grader_model fuel thread_id node messages).
Proof.
  induction fuel as [|fuel IH]; intros thread_id node messages; cbn [run].
  - apply runs_on_stop. discriminate.
  - destruct node.
    + apply runs_on_bind; [apply keeps_generate_query_or_respond | intros new].
      apply runs_on_checkpoint.
      destruct (tools_condition _); [apply IH | apply runs_on_stop; by intros out [= <-]].
    + apply runs_on_bind; [apply keeps_tool_node | intros new].
      apply runs_on_checkpoint.
      apply runs_on_bind; [apply keeps_grade_documents | intros [|]; apply IH].
    + apply runs_on_bind; [apply keeps_rewrite_question | intros new].
      apply runs_on_checkpoint. apply IH.
    + apply runs_on_bind; [apply keeps_generate_answer | intros new].
      apply runs_on_checkpoint. apply runs_on_stop. by intros out [= <-].
Qed.

Lemma graph_invoke_history (question thread_id : string) (w : @World S) :
  let after :=
    graph_invoke float_repr response_model grader_model recursion_limit question
      thread_id w in
  (∃ history,
     checkpointer after.2 !! thread_id = Some history
     ∧ (default [] (checkpointer w !! thread_id) ++ [human question]) `prefix_of` history
     ∧ ∀ out, after.1 = Ok out → out = history)
  ∧ ∀ other, other ≠ thread_id →
      checkpointer after.2 !! other = checkpointer w !! other.
Proof.
  cbv zeta. unfold graph_invoke. rewrite m_bind_run. cbn [gets].
  set (saved := default [] (checkpointer w !! thread_id)).
  rewrite m_bind_run. cbn [modify].
  destruct (runs_on_run recursion_limit thread_id node_generate_query_or_respond
              (saved ++ [human question])
              (set_checkpoint thread_id (saved ++ [human question]) w))
    as [Hthread Hothers].
  { cbn. apply lookup_insert_eq. }
  split; [exact Hthread|].
  intros other Hother. rewrite (Hothers other Hother). cbn. by apply lookup_insert_ne.
Qed.

Lemma ask_question_checkpointer (question session_id : string) (w : @World S) :
  graph w = true →
  checkpointer
    (ask_question float_repr parse_float response_model grader_model recursion_limit
       question session_id w).2
  = checkpointer
      (graph_invoke float_repr response_model grader_model recursion_limit question
         session_id w).2
  ∧ ∃ response,
      (ask_question float_repr parse_float response_model grader_model recursion_limit
         question session_id w).1 = Ok response
      ∧ (response = fallback question session_id
         ∨ (graph_invoke float_repr response_model grader_model recursion_limit
              question session_id w).1 = Ok (conversation response)).
Proof.
  intros Hgraph. unfold ask_question.
  rewrite m_bind_run. cbn [gets]. rewrite Hgraph. cbn [negb]. unfold try_catch.
  rewrite m_bind_run.
  destruct (graph_invoke _ _ _ _ _ _ w) as [[messages|e] w']; cbn [fst snd].
  - rewrite m_bind_run. cbn [lift].
    destruct (last_message messages) as [final|e].
    + rewrite m_bind_run. cbn. split; [reflexivity|]. eexists. split; [reflexivity|].
      by right.
    + cbn. split; [reflexivity|]. eexists. split; [reflexivity|]. by left.
  - cbn. split; [reflexivity|]. eexists. split; [reflexivity|]. by left.
Qed.

(** A question is added to the history saved for its session, after what
    the session had saved before, and the history saved when the call
    ends starts with both. The answer carries that history as its
    conversation, unless it is the apology. *)
Theorem session_history_grows (question session_id : string) (w : @World S) :
  graph w = true →
  let after :=
    ask_question float_repr parse_float response_model grader_model recursion_limit
      question session_id w in
  ∃ history response,
    checkpointer after.2 !! session_id = Some history
    ∧ (default [] (checkpointer w !! session_id) ++ [human question]) `prefix_of` history
    ∧ after.1 = Ok response
    ∧ (conversation response = history ∨ response = fallback question session_id).
Proof.
  intros Hgraph. cbv zeta.
  destruct (ask_question_checkpointer question session_id w Hgraph)
    as (-> & response & Hresponse & Hconversation).
  destruct (graph_invoke_history question session_id w)
    as [(history & Hhistory & Hprefix & Hout) _].
  exists history, response.
  split; [exact Hhistory|]. split; [exact Hprefix|]. split; [exact Hresponse|].
  destruct Hconversation as [->|Hrun]; [by right | left; by apply Hout].
Qed.

(** A question leaves the histories saved for the other sessions as they
    are. *)
Theorem sessions_do_not_mix (question session_id other : string) (w : @World S) :
  other ≠ session_id →
  checkpointer
    (ask_question float_repr parse_float response_model grader_model recursion_limit
       question session_id w).2 !! other
  = checkpointer w !! other.
Proof.
  intros Hother. destruct (graph w) eqn:Hgraph.
  - destruct (ask_question_checkpointer question session_id w Hgraph) as [-> _].
    by apply graph_invoke_history.
  - unfold ask_question. rewrite m_bind_run. cbn [gets]. by rewrite Hgraph.
Qed.

(** *** Sources *)

Lemma length_append (a b : string) :
  String.length (a +:+ b) = (String.length a + String.length b)%nat.
Proof.
  induction a as [|c a IH]; [reflexivity|].
  change (String c a +:+ b) with (String c (a +:+ b)). cbn [String.length].
  by rewrite IH.
Qed.

Lemma length_substring_0 (m : nat) : ∀ s, (String.length (substring 0 m s) ≤ m)%nat.
Proof.
  induction m as [|m IH]; intros [|c s]; cbn; try lia.
  specialize (IH s). lia.
Qed.

Lemma preview_is_short (s : string) : PyStr.len (preview s) ≤ 303.
Proof.
  unfold preview, PyStr.len. destruct (_ >? 300) eqn:Hlong.
  - rewrite length_append. pose proof (length_substring_0 300 s).
    change (String.length "...") with 3%nat. lia.
  - rewrite Z.gtb_ltb in Hlong. apply Z.ltb_ge in Hlong. lia.
Qed.

Lemma sources_of_documents_short docs :
  (length (sources_of_documents float_repr parse_float docs) ≤ length docs)%nat
  ∧ Forall (fun s => PyStr.len (content_preview s) ≤ 303)
      (sources_of_documents float_repr parse_float docs).
Proof.
  induction docs as [|doc rest [IHlength IHshort]]; cbn [sources_of_documents].
  - split; [reflexivity | constructor].
  - unfold source_of_document.
    destruct (plus_one _) as [page|e]; cbn [mbind result_bind];
      [|split; [cbn; lia | constructor]].
    destruct (to_float _ _) as [score|e]; cbn [mbind result_bind mret result_ret];
      [|split; [cbn; lia | constructor]].
    split; [cbn [length]; lia|].
    constructor; [apply preview_is_short | exact IHshort].
Qed.

(** An answer names at most five sources, each with a preview of at most
    303 characters. *)
Theorem sources_are_few_and_short (question session_id : string) (w : @World S) :
  match (ask_question float_repr parse_float response_model grader_model
           recursion_limit question session_id w).1 with
  | Ok response =>
      (length (sources response) ≤ 5)%nat
      ∧ Forall (fun s => PyStr.len (content_preview s) ≤ 303) (sources response)
  | Raise _ => graph w = false
  end.
Proof.
  unfold ask_question. rewrite m_bind_run. cbn [gets].
  destruct (graph w); cbn [negb lift fst]; [|reflexivity].
  unfold try_catch. rewrite m_bind_run.
  destruct (graph_invoke _ _ _ _ _ _ w) as [[messages|e] w'];
    [|cbn; split; [lia | constructor]].
  rewrite m_bind_run. cbn [lift].
  destruct (last_message messages) as [final|e]; [|cbn; split; [lia | constructor]].
  rewrite m_bind_run. unfold _extract_sources_from_tool_messages.
  rewrite m_bind_run. cbn [gets mret m_ret fst sources].
  destruct (sources_of_documents_short (take 5 (last_retrieved_docs w')))
    as [Hlength Hshort].
  rewrite length_take in Hlength.
  destruct (sources_of_documents _ _ _) as [|source rest].
  - unfold legacy_sources. destruct (List.find _ _) as [msg|].
    + split; [cbn; lia|]. constructor; [apply preview_is_short | constructor].
    + split; [cbn; lia | constructor].
  - split; [lia | exact Hshort].
Qed.

(** *** The retriever and direct answers *)

Lemma to_documents_outcome (results : list HybridStore.SearchResult) :
  match to_documents float_repr results with
  | Ok docs => Forall convertible results ∧ Forall2 document_of_result docs results
  | Raise _ => Exists (fun r => ¬ convertible r) results
  end.
Proof.
  induction results as [|r rest IH]; cbn [to_documents]; [by split; constructor|].
  unfold to_document.
  destruct (HybridStore.page_number r) as [|b|z|q|s] eqn:Hpage;
    cbn [plus_one mbind result_bind];
    try (left; unfold convertible; rewrite Hpage; by intros [_ ?]).
  all: destruct (HybridStore.content r) as [| | | |text] eqn:Hcontent;
    cbn [mbind result_bind];
    try (left; unfold convertible; rewrite Hcontent; by intros [[? ?] _]).
  all: destruct (to_documents float_repr rest) as [docs|e];
    cbn [mbind result_bind mret result_ret]; [|by right].
  all: destruct IH as [Hall Hdocs]; split;
    [constructor; [|exact Hall]; unfold convertible; rewrite Hpage, Hcontent;
     split; [by exists text | exact I]
    |constructor; [|exact Hdocs];
     split; [exact Hcontent | apply map_union_subseteq_l]].
Qed.

(** The retriever returns one document for each result of the hybrid
    search, in the order of the results, when every result can be
    converted: its content is a string and its page number a number. A
    single result that cannot be converted costs the whole retrieval: no
    document is returned. So does a search that raises. *)
Theorem retriever_returns_all_or_nothing (w : @World S) (query : string) :
  ∃ docs,
    (get_relevant_documents float_repr query w).1 = Ok docs
    ∧ match HybridStore.hybrid_search (store w) query None None 8 0.2 with
      | Ok results =>
          (Forall convertible results ∧ Forall2 document_of_result docs results)
          ∨ (Exists (fun r => ¬ convertible r) results ∧ docs = [])
      | Raise _ => docs = []
      end.
Proof.
  unfold get_relevant_documents, try_catch. rewrite m_bind_run. unfold search.
  destruct (HybridStore.hybrid_search _ _ _ _ _ _) as [results|e]; cbn [is_ok].
  - rewrite m_bind_run. unfold lift.
    pose proof (to_documents_outcome results) as Hdocs.
    destruct (to_documents float_repr results) as [docs|e].
    + rewrite m_bind_run. cbn. exists docs. split; [reflexivity | by left].
    + cbn. exists []. split; [reflexivity | by right].
  - cbn. by exists [].
Qed.

(** When the model answers the question without asking for the retrieval
    tool, the call makes that one language-model call and no search, and
    returns the reply as the answer. The sources it returns are made of the
    documents the retriever still holds from an earlier retrieval. *)
Theorem direct_answer_costs_one_call (question session_id : string) (w : @World S)
    (reply : Message) :
  let asked := default [] (checkpointer w !! session_id) ++ [human question] in
  let after :=
    ask_question float_repr parse_float response_model grader_model
      (Datatypes.S recursion_limit) question session_id w in
  graph w = true →
  response_model (calls w) (has_documents w) asked = Ok reply →
  tool_calls reply = [] →
  ∃ response,
    after.1 = Ok response
    ∧ answer response = content reply
    ∧ conversation response = asked ++ [reply]
    ∧ sources response
      = match sources_of_documents float_repr parse_float
                (take 5 (last_retrieved_docs w)) with
        | [] => legacy_sources (asked ++ [reply])
        | kept => kept
        end
    ∧ calls after.2 = Datatypes.S (calls w)
    ∧ trace after.2 = trace w ++ [LanguageModelCall true].
Proof.
  intros asked after Hgraph Hreply Hdirect. subst after.
  unfold ask_question. rewrite m_bind_run. cbn [gets]. rewrite Hgraph. cbn [negb].
  unfold try_catch. rewrite m_bind_run.
  assert (graph_invoke float_repr response_model grader_model
            (Datatypes.S recursion_limit) question session_id w
          = (Ok (asked ++ [reply]),
             set_checkpoint session_id (asked ++ [reply])
               (record_event (LanguageModelCall true)
                  (count_call (set_checkpoint session_id asked w))))) as ->.
  { unfold graph_invoke. rewrite m_bind_run. cbn [gets]. fold asked.
    rewrite m_bind_run. cbn [modify run].
    rewrite m_bind_run. unfold _generate_query_or_respond.
    rewrite m_bind_run. cbn [gets]. rewrite m_bind_run.
    unfold invoke_response_model. cbn [calls has_documents set_checkpoint].
    rewrite Hreply. cbn [is_ok mret m_ret].
    rewrite m_bind_run. cbn [modify].
    unfold tools_condition. rewrite last_snoc, Hdirect. reflexivity. }
  rewrite m_bind_run. unfold last_message. rewrite last_snoc. cbn [lift].
  rewrite m_bind_run. unfold _extract_sources_from_tool_messages.
  rewrite m_bind_run. cbn [gets mret m_ret fst snd].
  eexists. split; [reflexivity|].
  split; [reflexivity|]. split; [reflexivity|]. split; [|split; reflexivity].
  cbn [sources last_retrieved_docs set_checkpoint record_event count_call].
  destruct (sources_of_documents _ _ _); reflexivity.
Qed.

End AgentCoverage.

(** ** The source references of the chat route *)

Section ChatRouteCoverage.
Import ChatRoute.
Variable validate : SourceReference → result SourceReference.



End ChatRouteCoverage.

(** ** The properties above at concrete documents, stores and sessions *)

Section CoverageExamples.
Import Samples MoreSamples Notions.

(** The report of two pages yields three chunks, a text, a table and a
    figure, with three identifiers. *)
Lemma chunk_ids_are_distinct_witness :
  length (Chunker.chunk_markdown_document TextSplitter.split_text sample_uuid
            Chunker.default_config "doc-1" "report.pdf" report_document 0%nat).1
  = 3%nat
  ∧ NoDup (map chunk_id_of
             (Chunker.chunk_markdown_document TextSplitter.split_text sample_uuid
                Chunker.default_config "doc-1" "report.pdf" report_document 0%nat).1).
Proof.
  split; [vm_compute; reflexivity|].
  apply (chunk_ids_are_distinct TextSplitter.split_text sample_uuid
           Chunker.default_config "doc-1" "report.pdf" report_document 0%nat).
  intros a b Heq. unfold sample_uuid in Heq.
  apply String.app_inj in Heq. by apply pretty_nat_inj in Heq.
Defined.

(** The report of two pages, with a table and a figure, has a high
    complexity; the text of its first page makes one chunk. *)
Lemma high_complexity_witness :
  let text := "# Findings" +:+ PyStr.nl +:+ PyStr.repeat "word " 24 in
  let chunks :=
    (Chunker._chunk_text_content_adaptive TextSplitter.split_text sample_uuid
       Chunker.default_config text "doc-1" "report.pdf" 0 (Some "en") "text"
       (Chunker._analyze_document_complexity report_document) 0%nat).1 in
  Chunker._get_complexity_level (Chunker._analyze_document_complexity report_document)
  = "high"
  ∧ length chunks = 1%nat
  ∧ Forall (fun c =>
              ∃ i : nat,
                Chunker.technical_splitter TextSplitter.split_text text !! i
                = Some (Chunker.page_content c)
                ∧ Chunker.metadata c !! "chunk_index" = Some (VInt (Z.of_nat i))
                ∧ Chunker.metadata c !! "document_complexity" = Some (VStr "high"))
      chunks.
Proof.
  cbv zeta.
  assert (Chunker._get_complexity_level
            (Chunker._analyze_document_complexity report_document) = "high") as Hhigh
    by reflexivity.
  split; [exact Hhigh|]. split; [vm_compute; reflexivity|].
  exact (high_complexity_uses_technical_splitter TextSplitter.split_text sample_uuid
           Chunker.default_config report_document _ "doc-1" "report.pdf" 0 (Some "en")
           "text" 0%nat Hhigh).
Defined.

(** Deleting a document while the vector store cannot be reached. *)
Lemma row_is_deleted_witness :
  DocumentProcessor.delete_document_content unreachable_store ["doc-1"; "doc-2"] "doc-1"
  = (false, unreachable_store, ["doc-2"]).
Proof.
  apply (row_is_deleted_though_vector_deletion_fails unreachable_store
           ["doc-1"; "doc-2"] ["doc-2"] "doc-1" connection_refused); reflexivity.
Defined.

(** A second question in the session of the first. *)
Lemma session_history_grows_witness :
  ∃ history response,
    Agent.checkpointer
      (Agent.ask_question sample_float_repr sample_parse_float direct_response_model
         failing_grader_model recursion_limit "And a page?" "session-1"
         after_first_question).2 !! "session-1" = Some history
    ∧ (default [] (Agent.checkpointer after_first_question !! "session-1")
       ++ [Agent.human "And a page?"]) `prefix_of` history
    ∧ (Agent.ask_question sample_float_repr sample_parse_float direct_response_model
         failing_grader_model recursion_limit "And a page?" "session-1"
         after_first_question).1 = Ok response
    ∧ (Agent.conversation response = history
       ∨ response = Agent.fallback "And a page?" "session-1").
Proof.
  apply (session_history_grows sample_float_repr sample_parse_float
           direct_response_model failing_grader_model recursion_limit "And a page?"
           "session-1" after_first_question).
  reflexivity.
Defined.

(** The second question finds the first question and its answer in the
    history, and adds itself and its answer. *)
Example second_question_sees_first :
  map Agent.content
    (default []
       (Agent.checkpointer
          (Agent.ask_question sample_float_repr sample_parse_float
             direct_response_model failing_grader_model recursion_limit "And a page?"
             "session-1" after_first_question).2 !! "session-1"))
  = ["What is a chunk?"; "answer 0"; "And a page?"; "answer 1"].
Proof. vm_compute. reflexivity. Qed.

(** A question in another session leaves the history of the first. *)
Lemma sessions_do_not_mix_witness :
  Agent.checkpointer
    (Agent.ask_question sample_float_repr sample_parse_float direct_response_model
       failing_grader_model recursion_limit "And a page?" "session-2"
       after_first_question).2 !! "session-1"
  = Agent.checkpointer after_first_question !! "session-1".
Proof.
  apply (sessions_do_not_mix sample_float_repr sample_parse_float
           direct_response_model failing_grader_model recursion_limit "And a page?"
           "session-2" "session-1" after_first_question).
  discriminate.
Defined.

(** A first question the model answers directly, asked while the
    retriever holds a document of an earlier question: one call, and that
    document as the source. *)
Lemma direct_answer_witness :
  ∃ response,
    (Agent.ask_question sample_float_repr sample_parse_float direct_response_model
       failing_grader_model recursion_limit "What is a chunk?" "session-1"
       (world_over empty_store)).1 = Ok response
    ∧ Agent.answer response = "answer 0"
    ∧ map Agent.content_preview (Agent.sources response)
      = ["evidence of an earlier question"]
    ∧ Agent.calls
        (Agent.ask_question sample_float_repr sample_parse_float direct_response_model
           failing_grader_model recursion_limit "What is a chunk?" "session-1"
           (world_over empty_store)).2 = 1%nat.
Proof.
  destruct (direct_answer_costs_one_call sample_float_repr sample_parse_float
              direct_response_model failing_grader_model 24 "What is a chunk?"
              "session-1" (world_over empty_store) (ai "answer 0" [])
              eq_refl eq_refl eq_refl)
    as (response & Hresponse & Hanswer & _ & Hsources & Hcalls & _).
  exists response. split; [exact Hresponse|]. split; [exact Hanswer|].
  split; [by rewrite Hsources | exact Hcalls].
Defined.

(** A search of the document processor over a store that cannot be
    reached: the caller sees the [NameError] of the handler. *)
Example search_over_unreachable_store :
  DocumentProcessor.search_document_content unreachable_store "price" None 10 true true
    true None
  = Raise (Exn "NameError" "name 'logger' is not defined").
Proof. reflexivity. Qed.

(** Set-up over a store that cannot be read: no documents, the graph is
    built all the same. *)
Example setup_over_unreadable_store :
  (AgentSetup.setup_for_all_documents (fresh_world unreadable_store)).1 = Ok false
  ∧ Agent.graph (AgentSetup.setup_for_all_documents (fresh_world unreadable_store)).2
    = true.
Proof. split; reflexivity. Qed.

(** Set-up over the store that holds the small table. *)
Example setup_over_indexed_store :
  (AgentSetup.setup_for_all_documents (fresh_world indexed_store)).1 = Ok true.
Proof. vm_compute. reflexivity. Qed.

(** With [max_sources] at -1, the last of three sources is left out. *)
Example negative_max_sources_drops_last :
  map ChatRoute.reference_content_preview
    (ChatRoute._format_sources accept_all three_sources true (-1))
  = ["first"; "second"].
Proof. reflexivity. Qed.

End CoverageExamples.

(** ** Checks of the string operations and of the splitter *)

Example strip_ex : PyStr.strip "  a b  " = "a b".
Proof. reflexivity. Qed.
Example count_ex : PyStr.count "a...b......c" "..." = 3.
Proof. reflexivity. Qed.
Example count_overlap_ex : PyStr.count "aaaa" "aa" = 2.
Proof. reflexivity. Qed.
Example split_ex : PyStr.split "a--b----c" "--" = ["a"; "b"; ""; "c"].
Proof. reflexivity. Qed.
Example split_none_ex : PyStr.split "abc" "--" = ["abc"].
Proof. reflexivity. Qed.
Example split_empty_ex : PyStr.split "" "--" = [""].
Proof. reflexivity. Qed.
Example endswith_ex : PyStr.endswith_any "Done." ["."; "!"; "?"; ":"] = true.
Proof. reflexivity. Qed.
Example lower_ex : PyStr.lower "Table A1" = "table a1".
Proof. reflexivity. Qed.
Example of_int_ex : PyStr.of_int 12 = "12".
Proof. reflexivity. Qed.
Example split_small :
  TextSplitter.split_text (TextSplitter.Build 10 2 [". "; " "; ""])
    "aaaa bbbb. cccc dddd. e"
  = ["aaaa bbbb"; ". cccc"; "dddd"; ". e"].
Proof. vm_compute. reflexivity. Qed.
Example quality_plain : Chunker._calculate_content_quality "hello" == 0.5.
Proof. reflexivity. Qed.
Example quality_sentence :
  Chunker._calculate_content_quality "A finished sentence." == PyFloat.value 0.7.
Proof. reflexivity. Qed.
Example quality_truncated :
  Chunker._calculate_content_quality "cut here [truncated]" == PyFloat.value 0.2.
Proof. reflexivity. Qed.
Example headings_ex :
  map Chunker.text (Chunker._extract_headings ("# Intro" +:+ PyStr.nl +:+ "body" +:+ PyStr.nl +:+ " ## Next "))
  = ["Intro"; "Next"].
Proof. reflexivity. Qed.
